(** * Access-control and audit core of the file-sharing platform

    A shallow embedding of the session-authenticated file and user
    actions (src/lib/auth.ts, src/lib/db.ts, src/actions/files.ts, the
    authentication and user-management actions, and the file byte server
    src/app/api/files/[...filepath]/route.ts), and the properties the
    specification states about them.

    Conventions of the embedding
    - A JavaScript string is modelled by the Rocq [string] of its UTF-8
      bytes, so that [String.length] is the length of [Buffer.from(s)].
    - Row ids and sizes are integers ([Z]); instants are milliseconds
      since the epoch ([Z]).
    - The SQLite database, the upload directory and the audit ledger form
      one explicit [World]; every action is a function from worlds to an
      outcome (a returned value or a thrown error) and a new world.
    - A request comes with a context [Ctx]: working directory, clock,
      cookie and headers, the random bytes it draws, and the faults of
      this request (a ledger INSERT the database refuses, a file-system
      call that fails).  Other database statements are taken to succeed.
    - Left out: the messages table of the chat, [revalidatePath] (a cache
      hint of the framework) and the console output. *)

From Stdlib Require Import ZArith Lia Bool List String Ascii.
From stdpp Require Import base option gmap strings list.

Open Scope string_scope.
Open Scope Z_scope.

(** ** JavaScript string helpers *)

Module Js.

(** [a || b] on strings: the empty string and [undefined] are falsy. *)
Definition or_else (a : option string) (b : string) : string :=
  match a with
  | Some (String c s) => String c s
  | _ => b
  end.

(** Truthiness of an optional string ([!sessionId]). *)
Definition truthy (a : option string) : bool :=
  match a with
  | Some (String _ _) => true
  | _ => false
  end.

Definition is_digit (c : ascii) : bool :=
  let n := nat_of_ascii c in (48 <=? n)%nat && (n <=? 57)%nat.

Definition digit_val (c : ascii) : Z := Z.of_nat (nat_of_ascii c) - 48.

(** ASCII members of StrWhiteSpaceChar: TAB, LF, VT, FF, CR, SP. *)
Definition is_space (c : ascii) : bool :=
  let n := nat_of_ascii c in
  ((9 <=? n)%nat && (n <=? 13)%nat) || (n =? 32)%nat.

Fixpoint skip_spaces (s : string) : string :=
  match s with
  | String c r => if is_space c then skip_spaces r else s
  | EmptyString => s
  end.

(** The longest prefix of decimal digits, read as a number;
    [None] when there is no digit at all. *)
Fixpoint digits_prefix (acc : option Z) (s : string) : option Z :=
  match s with
  | String c r =>
      if is_digit c
      then digits_prefix (Some (10 * default 0 acc + digit_val c)) r
      else acc
  | EmptyString => acc
  end.

(** [parseInt(s, 10)]; [None] stands for [NaN]. *)
Definition parseInt10 (s : string) : option Z :=
  match skip_spaces s with
  | String "-" r => Z.opp <$> digits_prefix None r
  | String "+" r => digits_prefix None r
  | r => digits_prefix None r
  end.

(** Decimal rendering of an integral number (a template-string hole). *)
Fixpoint show_pos_fuel (fuel : nat) (n : Z) (acc : string) : string :=
  match fuel with
  | O => acc
  | S fuel' =>
      let d := String (ascii_of_nat (Z.to_nat (48 + n mod 10))) acc in
      if n <? 10 then d else show_pos_fuel fuel' (n / 10) d
  end.

Definition show_Z (n : Z) : string :=
  if n <? 0
  then String "-" (show_pos_fuel (S (Z.to_nat (Z.log2 (- n)))) (- n) "")
  else show_pos_fuel (S (Z.to_nat (Z.log2 n))) n "".

Definition show_opt_Z (n : option Z) : string :=
  match n with Some z => show_Z z | None => "null" end.

(** [a > b] on numbers where either side may be [NaN]. *)
Definition gt_nan (a : Z) (b : option Z) : bool :=
  match b with
  | Some b' => b' <? a
  | None => false
  end.

End Js.

(** ** Node's POSIX [path] module *)

Module Path.

Definition slash : ascii := "/"%char.

(** Split at every [/]: ["a//b"] gives [["a"; ""; "b"]]. *)
Fixpoint split_slash (cur : string) (s : string) : list string :=
  match s with
  | EmptyString => [cur]
  | String c r =>
      if Ascii.eqb c slash
      then cur :: split_slash "" r
      else split_slash (cur ++ String c "") r
  end.

Definition segments (s : string) : list string := split_slash "" s.

Fixpoint join_slash (l : list string) : string :=
  match l with
  | [] => ""
  | [x] => x
  | x :: r => x ++ "/" ++ join_slash r
  end.

(** [normalizeString]: the stack [st] holds the kept segments, last
    first.  Empty and [.] segments are dropped; [..] removes the last
    kept segment unless there is none or it is itself [..], in which case
    it is kept only when the path may climb above its root. *)
Fixpoint normalize_segs (allowAboveRoot : bool) (st : list string)
    (segs : list string) : list string :=
  match segs with
  | [] => rev st
  | seg :: r =>
      if String.eqb seg "" || String.eqb seg "." then
        normalize_segs allowAboveRoot st r
      else if String.eqb seg ".." then
        match st with
        | top :: st' =>
            if String.eqb top ".."
            then normalize_segs allowAboveRoot
                   (if allowAboveRoot then ".." :: st else st) r
            else normalize_segs allowAboveRoot st' r
        | [] =>
            normalize_segs allowAboveRoot
              (if allowAboveRoot then [".."] else []) r
        end
      else normalize_segs allowAboveRoot (seg :: st) r
  end.

Definition normalizeString (p : string) (allowAboveRoot : bool) : string :=
  join_slash (normalize_segs allowAboveRoot [] (segments p)).

Definition isAbsolute (p : string) : bool :=
  match p with
  | String c _ => Ascii.eqb c slash
  | EmptyString => false
  end.

Fixpoint ends_with_slash (p : string) : bool :=
  match p with
  | EmptyString => false
  | String c EmptyString => Ascii.eqb c slash
  | String _ r => ends_with_slash r
  end.

Definition normalize (p : string) : string :=
  match p with
  | EmptyString => "."
  | _ =>
      let abs := isAbsolute p in
      let trailing := ends_with_slash p in
      let q := normalizeString p (negb abs) in
      match q with
      | EmptyString =>
          if abs then "/" else if trailing then "./" else "."
      | _ =>
          let q' := if trailing then q ++ "/" else q in
          if abs then "/" ++ q' else q'
      end
  end.

(** [path.join(...args)]: the non-empty arguments joined by [/], then
    normalized. *)
Fixpoint join_args (joined : option string) (args : list string)
    : option string :=
  match args with
  | [] => joined
  | a :: r =>
      match a with
      | EmptyString => join_args joined r
      | _ =>
          join_args
            (Some match joined with
                  | None => a
                  | Some j => j ++ "/" ++ a
                  end) r
      end
  end.

Definition join (args : list string) : string :=
  match join_args None args with
  | None => "."
  | Some j => normalize j
  end.

(** [path.resolve(...args)]: arguments are taken from the right until an
    absolute one is met; the working directory is used when none is. *)
Fixpoint resolve_args (rargs : list string) (acc : string)
    : string * bool :=
  match rargs with
  | [] => (acc, false)
  | a :: r =>
      match a with
      | EmptyString => resolve_args r acc
      | _ =>
          let acc' := a ++ "/" ++ acc in
          if isAbsolute a then (acc', true) else resolve_args r acc'
      end
  end.

Definition resolve (cwd : string) (args : list string) : string :=
  let '(p, abs) := resolve_args (rev args ++ [cwd])%list "" in
  let q := normalizeString p (negb abs) in
  if abs then "/" ++ q
  else match q with EmptyString => "." | _ => q end.

(** [s.startsWith(p)]. *)
Definition startsWith (s p : string) : bool := String.prefix p s.

(** A resolved path lies under the resolved directory [root] when it is
    the directory itself or continues it after a separator. *)
Definition under (root p : string) : bool :=
  String.eqb p root || String.prefix (root ++ "/") p.

End Path.

(** ** SHA-256 (FIPS 180-4), as computed by [crypto.createHash('sha256')] *)

Module Sha256.

Definition w32 (x : Z) : Z := x mod 4294967296.
Definition add32 (x y : Z) : Z := w32 (x + y).
Definition rotr (n x : Z) : Z :=
  Z.lor (Z.shiftr x n) (w32 (Z.shiftl x (32 - n))).
Definition not32 (x : Z) : Z := 4294967295 - x.

Definition Ch (x y z : Z) : Z := Z.lxor (Z.land x y) (Z.land (not32 x) z).
Definition Maj (x y z : Z) : Z :=
  Z.lxor (Z.lxor (Z.land x y) (Z.land x z)) (Z.land y z).
Definition Sigma0 (x : Z) : Z := Z.lxor (Z.lxor (rotr 2 x) (rotr 13 x)) (rotr 22 x).
Definition Sigma1 (x : Z) : Z := Z.lxor (Z.lxor (rotr 6 x) (rotr 11 x)) (rotr 25 x).
Definition sigma0 (x : Z) : Z := Z.lxor (Z.lxor (rotr 7 x) (rotr 18 x)) (Z.shiftr x 3).
Definition sigma1 (x : Z) : Z := Z.lxor (Z.lxor (rotr 17 x) (rotr 19 x)) (Z.shiftr x 10).

(** The first primes, by trial division. *)
Definition is_prime (n : Z) : bool :=
  forallb (fun d => negb (n mod Z.of_nat d =? 0))
    (List.seq 2 (Z.to_nat n - 2)).

Definition primes_below (n : nat) : list Z :=
  List.filter is_prime (List.map Z.of_nat (List.seq 2 (n - 2))).

(** Integer cube root, one bit at a time from bit [bits - 1] down. *)
Fixpoint cube_root (bits : nat) (n acc : Z) : Z :=
  match bits with
  | O => acc
  | S b =>
      let c := acc + 2 ^ Z.of_nat b in
      cube_root b n (if c * c * c <=? n then c else acc)
  end.

(** First 32 bits of the fractional part of a cube root and of a square
    root. *)
Definition frac_cube_root (p : Z) : Z := w32 (cube_root 36 (p * 2 ^ 96) 0).
Definition frac_square_root (p : Z) : Z := w32 (Z.sqrt (p * 2 ^ 64)).

(** The round constants: from the cube roots of the first 64 primes. *)
Definition K : list Z :=
  Eval vm_compute in List.map frac_cube_root (primes_below 312).

(** The initial hash value: from the square roots of the first 8 primes. *)
Definition H0 : list Z :=
  Eval vm_compute in List.map frac_square_root (primes_below 20).

Definition bytes_of (s : string) : list Z :=
  map (fun c => Z.of_nat (nat_of_ascii c)) (list_ascii_of_string s).

(** Big-endian bytes of [x], [n] of them. *)
Fixpoint be_bytes (n : nat) (x : Z) : list Z :=
  match n with
  | O => []
  | S n' => (Z.shiftr x (8 * Z.of_nat n')) mod 256 :: be_bytes n' x
  end.

(** Padding: a one bit, zeros up to 56 mod 64, the bit length on 64 bits. *)
Definition pad (msg : list Z) : list Z :=
  let len := Z.of_nat (length msg) in
  let zeros := Z.to_nat ((55 - len) mod 64) in
  msg ++ [128] ++ repeat 0 zeros ++ be_bytes 8 (8 * len).

Fixpoint words_of (fuel : nat) (bs : list Z) : list Z :=
  match fuel, bs with
  | S f, b0 :: b1 :: b2 :: b3 :: r =>
      (b0 * 16777216 + b1 * 65536 + b2 * 256 + b3) :: words_of f r
  | _, _ => []
  end.

(** The message schedule, kept newest word first. *)
Fixpoint schedule (n : nat) (rw : list Z) : list Z :=
  match n with
  | O => rw
  | S n' =>
      let w :=
        add32 (add32 (sigma1 (nth 1 rw 0)) (nth 6 rw 0))
              (add32 (sigma0 (nth 14 rw 0)) (nth 15 rw 0)) in
      schedule n' (w :: rw)
  end.

Definition State : Type := Z * Z * Z * Z * Z * Z * Z * Z.

Definition round (st : State) (kw : Z * Z) : State :=
  let '(a, b, c, d, e, f, g, h) := st in
  let '(k, w) := kw in
  let t1 := add32 (add32 (add32 h (Sigma1 e)) (add32 (Ch e f g) k)) w in
  let t2 := add32 (Sigma0 a) (Maj a b c) in
  (add32 t1 t2, a, b, c, add32 d t1, e, f, g).

Definition compress (st : State) (block : list Z) : State :=
  let ws := rev (schedule 48 (rev (words_of 16 block))) in
  let '(a, b, c, d, e, f, g, h) := fold_left round (combine K ws) st in
  let '(a0, b0, c0, d0, e0, f0, g0, h0) := st in
  (add32 a0 a, add32 b0 b, add32 c0 c, add32 d0 d,
   add32 e0 e, add32 f0 f, add32 g0 g, add32 h0 h).

Fixpoint blocks (fuel : nat) (st : State) (bs : list Z) : State :=
  match fuel with
  | O => st
  | S f =>
      match bs with
      | [] => st
      | _ => blocks f (compress st (firstn 64 bs)) (skipn 64 bs)
      end
  end.

Definition init : State :=
  (nth 0 H0 0, nth 1 H0 0, nth 2 H0 0, nth 3 H0 0,
   nth 4 H0 0, nth 5 H0 0, nth 6 H0 0, nth 7 H0 0).

Definition hex_digit (n : Z) : ascii :=
  if n <? 10 then ascii_of_nat (Z.to_nat (48 + n))
  else ascii_of_nat (Z.to_nat (87 + n)).

Definition hex_nibble (x : Z) (i : Z) : ascii :=
  hex_digit ((Z.shiftr x (4 * i)) mod 16).

(** Eight lower-case hexadecimal digits of a 32-bit word. *)
Definition hex32 (x : Z) : string :=
  String (hex_nibble x 7) (String (hex_nibble x 6) (String (hex_nibble x 5)
  (String (hex_nibble x 4) (String (hex_nibble x 3) (String (hex_nibble x 2)
  (String (hex_nibble x 1) (String (hex_nibble x 0) EmptyString))))))).

Definition digest_hex (s : string) : string :=
  let m := pad (bytes_of s) in
  let '(a, b, c, d, e, f, g, h) := blocks (length m) init m in
  hex32 a ++ hex32 b ++ hex32 c ++ hex32 d ++
  hex32 e ++ hex32 f ++ hex32 g ++ hex32 h.

End Sha256.

(** ** More string functions used by the upload action *)

Module Str.

Definition code (c : ascii) : nat := nat_of_ascii c.

(** UTF-8 continuation byte (10xxxxxx): part of the previous character. *)
Definition is_cont (c : ascii) : bool :=
  (128 <=? code c)%nat && (code c <? 192)%nat.

(** Lead byte of a four-byte sequence: two UTF-16 code units. *)
Definition is_lead4 (c : ascii) : bool := (240 <=? code c)%nat.

(** [s.length]: the number of UTF-16 code units. *)
Fixpoint js_length (s : string) : Z :=
  match s with
  | EmptyString => 0
  | String c r =>
      (if is_cont c then 0 else if is_lead4 c then 2 else 1) + js_length r
  end.

Definition lower_ascii (c : ascii) : ascii :=
  if (65 <=? code c)%nat && (code c <=? 90)%nat
  then ascii_of_nat (code c + 32)
  else c.

(** [toLowerCase()], exact on ASCII text: the letters A to Z are folded
    and every other byte is kept.  JavaScript also folds letters outside
    ASCII; properties that depend on the folding are stated for ASCII
    text. *)
Fixpoint toLowerCase (s : string) : string :=
  match s with
  | EmptyString => EmptyString
  | String c r => String (lower_ascii c) (toLowerCase r)
  end.

Fixpoint rev_string (acc s : string) : string :=
  match s with
  | EmptyString => acc
  | String c r => rev_string (String c acc) r
  end.

(** [trim()], exact on ASCII text: TAB, LF, VT, FF, CR and the space are
    stripped.  JavaScript also strips U+00A0 and the other Unicode white
    space. *)
Definition trim (s : string) : string :=
  rev_string "" (Js.skip_spaces (rev_string "" (Js.skip_spaces s))).

(** [replace(/^\./, '')]. *)
Definition strip_leading_dot (s : string) : string :=
  match s with
  | String "." r => r
  | _ => s
  end.

Fixpoint split_comma (cur : string) (s : string) : list string :=
  match s with
  | EmptyString => [cur]
  | String c r =>
      if Ascii.eqb c ","%char
      then cur :: split_comma "" r
      else split_comma (cur ++ String c "") r
  end.

Fixpoint join_with (sep : string) (l : list string) : string :=
  match l with
  | [] => ""
  | [x] => x
  | x :: r => x ++ sep ++ join_with sep r
  end.

Definition nonempty (s : string) : bool :=
  match s with EmptyString => false | _ => true end.

Definition safe_char (c : ascii) : bool :=
  let n := code c in
  ((97 <=? n)%nat && (n <=? 122)%nat) || ((65 <=? n)%nat && (n <=? 90)%nat)
  || ((48 <=? n)%nat && (n <=? 57)%nat)
  || (n =? 95)%nat || (n =? 46)%nat || (n =? 45)%nat.

(** [replace(/[^a-zA-Z0-9_.-]/g, '_')]: every UTF-16 code unit outside
    the safe set becomes one underscore. *)
Fixpoint sanitize (s : string) : string :=
  match s with
  | EmptyString => EmptyString
  | String c r =>
      if safe_char c then String c (sanitize r)
      else if is_cont c then sanitize r
      else if is_lead4 c then String "_" (String "_" (sanitize r))
      else String "_" (sanitize r)
  end.

(** Position of the last dot, counted from the left. *)
Fixpoint last_dot (i : nat) (s : string) : option nat :=
  match s with
  | EmptyString => None
  | String c r =>
      match last_dot (S i) r with
      | Some j => Some j
      | None => if Ascii.eqb c "."%char then Some i else None
      end
  end.

Fixpoint drop (n : nat) (s : string) : string :=
  match n, s with
  | O, _ => s
  | S n', String _ r => drop n' r
  | S _, EmptyString => EmptyString
  end.

(** The last segment of a path, trailing separators ignored. *)
Definition basename (p : string) : string :=
  List.last (List.filter nonempty (Path.segments p)) "".

(** [path.extname]: from the last dot of the base name, unless that dot
    opens the base name or the base name is [..]. *)
Definition extname (p : string) : string :=
  let b := basename p in
  match last_dot 0 b with
  | None => ""
  | Some O => ""
  | Some i => if String.eqb b ".." then "" else drop i b
  end.

(** [substring(1)]. *)
Definition tail (s : string) : string :=
  match s with
  | String _ r => r
  | EmptyString => EmptyString
  end.

Definition includes (l : list string) (x : string) : bool :=
  existsb (String.eqb x) l.

End Str.

(** ** Data model (the tables of src/lib/db.ts) *)

Inductive Role := RoleUser | RoleAdmin.
Inductive Status := Active | Inactive.

(** The [visibility] column is TEXT without a CHECK and [uploadFile]
    stores the form's text as it comes: besides the two values the
    application means, a row can hold any other text.
    [OtherVisibility text] stands for a text other than [private] and
    [public]. *)
Inductive Visibility :=
| Private
| Public
| OtherVisibility (text : string).

Definition Role_eqb (a b : Role) : bool :=
  match a, b with
  | RoleUser, RoleUser | RoleAdmin, RoleAdmin => true
  | _, _ => false
  end.

Definition Status_eqb (a b : Status) : bool :=
  match a, b with
  | Active, Active | Inactive, Inactive => true
  | _, _ => false
  end.

Definition Visibility_eqb (a b : Visibility) : bool :=
  match a, b with
  | Private, Private | Public, Public => true
  | OtherVisibility s, OtherVisibility t => String.eqb s t
  | _, _ => false
  end.

Definition show_Role (r : Role) : string :=
  match r with RoleUser => "user" | RoleAdmin => "admin" end.

Definition show_Status (s : Status) : string :=
  match s with Active => "active" | Inactive => "inactive" end.

Definition show_Visibility (v : Visibility) : string :=
  match v with
  | Private => "private"
  | Public => "public"
  | OtherVisibility text => text
  end.

Record User := mkUser {
  user_id : Z;
  username : string;
  email : string;
  password_hash : string;
  role : Role;
  status : Status
}.

Record FileRecord := mkFile {
  file_id : Z;
  file_name : string;
  file_type : string;
  file_size : Z;
  upload_date : Z;
  uploader_id : option Z;
  visibility : Visibility;
  file_path : string
}.

Record Session := mkSession {
  session_user_id : Z;
  expires_at : Z;
  created_at : Z;
  last_accessed_at : Z;
  session_ip : string;
  session_user_agent : string
}.

(** A ledger row as the INSERT statements write it; the row id and the
    timestamp are defaults filled in by the database. *)
Record LogEntry := mkLog {
  log_user_id : option Z;
  log_ip : string;
  log_action : string;
  log_details : string;
  log_type : string;
  log_resource_id : option Z
}.

Record Notification := mkNotification {
  notification_id : Z;
  notification_user_id : Z;
  notification_text : string
}.

(** State of the upload directory as [fs.access] and [fs.mkdir] see it. *)
Inductive DirState :=
| DirPresent
| DirAbsent (creatable : bool)
| DirDenied.

Record World := mkWorld {
  users : list User;
  files : list FileRecord;
  sessions : gmap string Session;
  settings : gmap string string;
  logs : list LogEntry;
  notifications : list Notification;
  disk : gmap string string;
  upload_dir : DirState;
  next_user_id : Z;
  next_file_id : Z;
  cookie_out : option (string * Z)
}.

Definition set_users (f : list User -> list User) (w : World) : World :=
  mkWorld (f (users w)) (files w) (sessions w) (settings w) (logs w)
    (notifications w) (disk w) (upload_dir w) (next_user_id w)
    (next_file_id w) (cookie_out w).

Definition set_files (f : list FileRecord -> list FileRecord) (w : World)
    : World :=
  mkWorld (users w) (f (files w)) (sessions w) (settings w) (logs w)
    (notifications w) (disk w) (upload_dir w) (next_user_id w)
    (next_file_id w) (cookie_out w).

Definition set_sessions (f : gmap string Session -> gmap string Session)
    (w : World) : World :=
  mkWorld (users w) (files w) (f (sessions w)) (settings w) (logs w)
    (notifications w) (disk w) (upload_dir w) (next_user_id w)
    (next_file_id w) (cookie_out w).

Definition set_logs (f : list LogEntry -> list LogEntry) (w : World)
    : World :=
  mkWorld (users w) (files w) (sessions w) (settings w) (f (logs w))
    (notifications w) (disk w) (upload_dir w) (next_user_id w)
    (next_file_id w) (cookie_out w).

Definition set_notifications
    (f : list Notification -> list Notification) (w : World) : World :=
  mkWorld (users w) (files w) (sessions w) (settings w) (logs w)
    (f (notifications w)) (disk w) (upload_dir w) (next_user_id w)
    (next_file_id w) (cookie_out w).

Definition set_disk (f : gmap string string -> gmap string string)
    (w : World) : World :=
  mkWorld (users w) (files w) (sessions w) (settings w) (logs w)
    (notifications w) (f (disk w)) (upload_dir w) (next_user_id w)
    (next_file_id w) (cookie_out w).

Definition set_upload_dir (d : DirState) (w : World) : World :=
  mkWorld (users w) (files w) (sessions w) (settings w) (logs w)
    (notifications w) (disk w) d (next_user_id w)
    (next_file_id w) (cookie_out w).

Definition set_next_user_id (n : Z) (w : World) : World :=
  mkWorld (users w) (files w) (sessions w) (settings w) (logs w)
    (notifications w) (disk w) (upload_dir w) n
    (next_file_id w) (cookie_out w).

Definition set_next_file_id (n : Z) (w : World) : World :=
  mkWorld (users w) (files w) (sessions w) (settings w) (logs w)
    (notifications w) (disk w) (upload_dir w) (next_user_id w)
    n (cookie_out w).

Definition set_cookie_out (c : option (string * Z)) (w : World) : World :=
  mkWorld (users w) (files w) (sessions w) (settings w) (logs w)
    (notifications w) (disk w) (upload_dir w) (next_user_id w)
    (next_file_id w) c.

(** ** Errors, outcomes and the action monad *)

(** A thrown JavaScript value: its message, and for file-system errors
    the [code] and [path] properties. *)
Record JsError := mkError {
  err_message : string;
  err_code : option string;
  err_path : option string
}.

Definition Error (msg : string) : JsError := mkError msg None None.

Inductive Outcome (A : Type) :=
| Ret (a : A)
| Throw (e : JsError).
Arguments Ret {A} a.
Arguments Throw {A} e.

Definition M (A : Type) : Type := World -> Outcome A * World.

Definition ret {A} (a : A) : M A := fun w => (Ret a, w).

Definition throw {A} (e : JsError) : M A := fun w => (Throw e, w).

Definition bind {A B} (m : M A) (k : A -> M B) : M B :=
  fun w =>
    match m w with
    | (Ret a, w') => k a w'
    | (Throw e, w') => (Throw e, w')
    end.

(** [try { body } catch (error) { handler }]: what the body changed
    before it threw stays changed. *)
Definition try_catch {A} (body : M A) (handler : JsError -> M A) : M A :=
  fun w =>
    match body w with
    | (Ret a, w') => (Ret a, w')
    | (Throw e, w') => handler e w'
    end.

(** [db.transaction(fn)()]: when [fn] throws the database is rolled back
    and the error is thrown again. *)
Definition transaction {A} (body : M A) : M A :=
  fun w =>
    match body w with
    | (Ret a, w') => (Ret a, w')
    | (Throw e, _) => (Throw e, w)
    end.

Definition gets {A} (f : World -> A) : M A := fun w => (Ret (f w), w).

Definition modify (f : World -> World) : M unit := fun w => (Ret tt, f w).

Declare Scope action_scope.
Delimit Scope action_scope with action.
Notation "x <- c ;; k" := (bind c (fun x => k))
  (at level 100, c at next level, right associativity) : action_scope.
Notation "c ;;; k" := (bind c (fun _ => k))
  (at level 100, right associativity) : action_scope.
Open Scope action_scope.

(** What a server action hands back: [{ success: true, ... }] or
    [{ success: false, error }]. *)
Inductive Result (A : Type) :=
| Success (payload : A)
| Failure (error : string).
Arguments Success {A} payload.
Arguments Failure {A} error.

(** ** The request and its environment *)

Record Ctx := mkCtx {
  cwd : string;
  now : Z;
  cookie_session_id : option string;
  header_x_forwarded_for : option string;
  header_x_real_ip : option string;
  header_cf_connecting_ip : option string;
  header_user_agent : option string;
  (** [crypto.randomBytes(n).toString('hex')] for this request *)
  random_hex : string;
  (** a ledger INSERT that the database refuses, with the error thrown *)
  ledger_fault : LogEntry -> option JsError;
  (** [fs.unlink] and [fs.writeFile] failures other than a missing file *)
  unlink_fault : string -> option JsError;
  write_fault : string -> option JsError;
  (** the [mime-types] table, [encodeURIComponent], zod's e-mail test *)
  mime_lookup : string -> option string;
  encodeURIComponent : string -> string;
  zod_email : string -> bool
}.

Definition ledger_healthy (c : Ctx) : Prop :=
  forall e, ledger_fault c e = None.

(** ** Database and file-system primitives *)

(** [INSERT INTO logs ...]: appends the row, or throws what the database
    reports. *)
Definition insert_log (c : Ctx) (e : LogEntry) : M unit :=
  fun w =>
    match ledger_fault c e with
    | Some err => (Throw err, w)
    | None => (Ret tt, set_logs (fun l => (l ++ [e])%list) w)
    end.

Definition find_user (id : Z) (us : list User) : option User :=
  List.find (fun u => user_id u =? id) us.

Definition find_user_by_name (name : string) (us : list User)
    : option User :=
  List.find (fun u => String.eqb (username u) name) us.

Definition find_file (id : Z) (fs : list FileRecord) : option FileRecord :=
  List.find (fun f => file_id f =? id) fs.

Definition find_file_by_path (p : string) (fs : list FileRecord)
    : option FileRecord :=
  List.find (fun f => String.eqb (file_path f) p) fs.

(** [cfIp || forwarded || realIp || '::1']. *)
Definition getIpAddress (c : Ctx) : string :=
  Js.or_else (header_cf_connecting_ip c)
    (Js.or_else (header_x_forwarded_for c)
       (Js.or_else (header_x_real_ip c) "::1")).

(** A row id that JavaScript takes for true: present and not zero. *)
Definition truthy_id (o : option Z) : option Z :=
  match o with
  | Some n => if n =? 0 then None else Some n
  | None => None
  end.

(** [expires_at > CURRENT_TIMESTAMP] in the session look-ups.  The column
    holds [expiresAt.toISOString()], the text [YYYY-MM-DDTHH:mm:ss.sssZ]
    for the years 0000 to 9999 and a sign with six digits of year outside
    them; [CURRENT_TIMESTAMP] is the text [YYYY-MM-DD HH:MM:SS] in UTC.
    SQLite compares the two texts byte by byte: the ten characters of the
    date decide, on equal dates the [T] is above the space, and a leading
    sign is below every digit.  So the row is accepted through the whole
    UTC day of its expiry, and never when the year of the expiry has
    more than four digits.  Instants are milliseconds since the epoch;
    the clock is within SQLite's range of dates. *)
Definition ms_per_day : Z := 86400000.

Definition utc_day (t : Z) : Z := t / ms_per_day.

(** 0000-01-01T00:00:00.000Z and +010000-01-01T00:00:00.000Z. *)
Definition year_0000 : Z := -62167219200000.
Definition year_10000 : Z := 253402300800000.

Definition four_digit_year (t : Z) : bool :=
  (year_0000 <=? t) && (t <? year_10000).

Definition later_than_current_timestamp (expires current : Z) : bool :=
  four_digit_year expires && (utc_day current <=? utc_day expires).

(** [SELECT user_id FROM sessions WHERE session_id = ? AND
    expires_at > CURRENT_TIMESTAMP], on the cookie of the request. *)
Definition getUserIdFromSession (c : Ctx) : M (option Z) :=
  gets (fun w =>
    if Js.truthy (cookie_session_id c) then
      match sessions w !! default "" (cookie_session_id c) with
      | Some s =>
          if later_than_current_timestamp (expires_at s) (now c)
          then Some (session_user_id s) else None
      | None => None
      end
    else None).

Definition getUserRole (userId : Z) : M (option Role) :=
  gets (fun w => role <$> find_user userId (users w)).

Definition getSetting (key defaultValue : string) : M string :=
  gets (fun w => default defaultValue (settings w !! key)).

Definition ensureUploadDir : M unit :=
  fun w =>
    match upload_dir w with
    | DirPresent => (Ret tt, w)
    | DirAbsent true => (Ret tt, set_upload_dir DirPresent w)
    | DirAbsent false =>
        (Throw (Error
           "Server configuration error: Cannot create upload directory."), w)
    | DirDenied =>
        (Throw (Error
           "Server configuration error: Cannot access upload directory."), w)
    end.

Definition writeFile (c : Ctx) (p content : string) : M unit :=
  fun w =>
    match write_fault c p with
    | Some err => (Throw err, w)
    | None => (Ret tt, set_disk (fun d => <[p := content]> d) w)
    end.

Definition ENOENT (p : string) : JsError :=
  mkError ("ENOENT: no such file or directory, unlink '" ++ p ++ "'")
    (Some "ENOENT") (Some p).

Definition unlink (c : Ctx) (p : string) : M unit :=
  fun w =>
    match unlink_fault c p with
    | Some err => (Throw err, w)
    | None =>
        match disk w !! p with
        | Some _ => (Ret tt, set_disk (fun d => delete p d) w)
        | None => (Throw (ENOENT p), w)
        end
    end.

(** [INSERT INTO files ...]: the path column is UNIQUE; the new id is the
    AUTOINCREMENT counter. *)
Definition insert_file (name type : string) (size : Z) (uploader : Z)
    (v : Visibility) (p : string) (date : Z) : M Z :=
  fun w =>
    match find_file_by_path p (files w) with
    | Some _ => (Throw (Error "UNIQUE constraint failed: files.path"), w)
    | None =>
        let id := next_file_id w in
        (Ret id,
         set_next_file_id (id + 1)
           (set_files
              (fun l => (l ++ [mkFile id name type size date (Some uploader)
                                 v p])%list) w))
    end.

Definition UPLOAD_DIR (c : Ctx) : string :=
  Path.resolve (cwd c) [cwd c; "uploads"].

Definition owner_is (f : FileRecord) (userId : Z) : bool :=
  match uploader_id f with
  | Some o => o =? userId
  | None => false
  end.

Definition is_admin (r : option Role) : bool :=
  match r with
  | Some RoleAdmin => true
  | _ => false
  end.

(** ** src/actions/files.ts *)

Record UploadedFile := mkUpload {
  up_name : string;
  up_type : string;
  up_bytes : string
}.

Definition up_size (f : UploadedFile) : Z :=
  Z.of_nat (String.length (up_bytes f)).

(** The form of an upload whose [file] entry is a [File] or missing
    ([uploadFile_field] below covers a text in that entry).  The
    [visibility] entry is absent when it is missing or empty, which is
    what [|| 'private'] replaces; any other text is stored as sent. *)
Record FormData := mkForm {
  form_file : option UploadedFile;
  form_visibility : option Visibility
}.

Definition show_nan (n : option Z) : string :=
  match n with Some z => Js.show_Z z | None => "NaN" end.

Definition allowed_extensions (setting : string) : list string :=
  List.filter Str.nonempty
    (List.map
       (fun ext => Str.strip_leading_dot (Str.toLowerCase (Str.trim ext)))
       (Str.split_comma "" setting)).

Definition too_large_message (maxSizeMB : option Z) : string :=
  "File size exceeds the limit of " ++ show_nan maxSizeMB ++ " MB.".

Definition uploadFile (c : Ctx) (formData : FormData)
    : M (Result string) :=
  ensureUploadDir ;;;
  userId <- getUserIdFromSession c ;;
  match truthy_id userId with
  | None => ret (Failure "Authentication required.")
  | Some userId =>
  let ipAddress := getIpAddress c in
  let visibility := default Private (form_visibility formData) in
  match form_file formData with
  | None => ret (Failure "No file provided.")
  | Some file =>
  sizeSetting <- getSetting "fileSizeLimitMB" "10" ;;
  let maxSizeMB := Js.parseInt10 sizeSetting in
  let maxSizeBytes := (fun m => m * 1024 * 1024) <$> maxSizeMB in
  allowedTypesSetting <- getSetting "allowedFileTypes" "" ;;
  let allowedExtensions := allowed_extensions allowedTypesSetting in
  if Js.gt_nan (up_size file) maxSizeBytes then
    ret (Failure (too_large_message maxSizeMB))
  else
  let fileExtension :=
    Str.tail (Str.toLowerCase (Str.extname (up_name file))) in
  if (0 <? Z.of_nat (length allowedExtensions))
     && negb (Str.includes allowedExtensions fileExtension) then
    ret (Failure ("File type '." ++ fileExtension ++ "' is not allowed."))
  else
  try_catch
    (let uniqueSuffix := random_hex c in
     let safeFilename := Str.sanitize (up_name file) in
     let filename :=
       Js.show_Z (now c) ++ "-" ++ uniqueSuffix ++ "-" ++ safeFilename in
     let filePath := Path.join [UPLOAD_DIR c; filename] in
     let relativePath := Path.join ["uploads"; filename] in
     writeFile c filePath (up_bytes file) ;;;
     fileId <- insert_file (up_name file) (up_type file) (up_size file)
                 userId visibility relativePath (now c) ;;
     insert_log c
       (mkLog (Some userId) ipAddress "File Upload"
          ("Uploaded '" ++ up_name file ++ "' (Size: "
           ++ Js.show_Z (up_size file) ++ " bytes, Visibility: "
           ++ show_Visibility visibility ++ ")")
          "file" (Some fileId)) ;;;
     ret (Success "File uploaded successfully."))
    (fun error =>
       match err_path error with
       | Some p => try_catch (unlink c p) (fun _ => ret tt)
       | None => ret tt
       end ;;;
       insert_log c
         (mkLog (Some userId) ipAddress "File Upload Error"
            ("Error uploading '" ++ up_name file ++ "': "
             ++ err_message error)
            "system" None) ;;;
       ret (Failure "Failed to upload file. Please try again."))
  end
  end.

(** [UPDATE files SET visibility = ?] on one row. *)
Definition with_visibility (v : Visibility) (f : FileRecord) : FileRecord :=
  mkFile (file_id f) (file_name f) (file_type f) (file_size f)
    (upload_date f) (uploader_id f) v (file_path f).

Definition toggleFileVisibility (c : Ctx) (fileId : Z)
    (newVisibility : Visibility) : M (Result string) :=
  userId <- getUserIdFromSession c ;;
  match truthy_id userId with
  | None => ret (Failure "Authentication required.")
  | Some userId =>
  userRole <- getUserRole userId ;;
  let ipAddress := getIpAddress c in
  try_catch
    (file <- gets (fun w => find_file fileId (files w)) ;;
     match file with
     | None => ret (Failure "File not found.")
     | Some file =>
     if negb (owner_is file userId) && negb (is_admin userRole) then
       insert_log c
         (mkLog (Some userId) ipAddress "Unauthorized Action"
            ("User attempted to toggle visibility for file ID "
             ++ Js.show_Z fileId ++ " without permission")
            "security" (Some fileId)) ;;;
       ret (Failure "Permission denied.")
     else if Visibility_eqb (visibility file) newVisibility then
       ret (Success "Visibility already set.")
     else
       modify (set_files
         (List.map (fun f =>
            if file_id f =? fileId
            then with_visibility newVisibility f
            else f))) ;;;
       insert_log c
         (mkLog (Some userId) ipAddress "File Visibility Change"
            ("Changed '" ++ file_name file ++ "' (ID: "
             ++ Js.show_Z fileId ++ ") visibility from '"
             ++ show_Visibility (visibility file) ++ "' to '"
             ++ show_Visibility newVisibility ++ "'")
            "file" (Some fileId)) ;;;
       ret (Success ("File visibility changed to "
                     ++ show_Visibility newVisibility ++ "."))
     end)
    (fun error =>
       insert_log c
         (mkLog (Some userId) ipAddress "File Visibility Error"
            ("Error toggling visibility for file ID " ++ Js.show_Z fileId
             ++ ": " ++ err_message error)
            "system" (Some fileId)) ;;;
       ret (Failure "Failed to update file visibility."))
  end.

(** [DELETE FROM files WHERE id = ?] and the number of rows it removed. *)
Definition delete_file_row (fileId : Z) : M Z :=
  fun w =>
    (Ret (Z.of_nat
            (length (List.filter (fun f => file_id f =? fileId) (files w)))),
     set_files (List.filter (fun f => negb (file_id f =? fileId))) w).

Definition deleteFile (c : Ctx) (fileId : Z) : M (Result string) :=
  userId <- getUserIdFromSession c ;;
  match truthy_id userId with
  | None => ret (Failure "Authentication required.")
  | Some userId =>
  userRole <- getUserRole userId ;;
  let ipAddress := getIpAddress c in
  try_catch
    (file <- gets (fun w => find_file fileId (files w)) ;;
     match file with
     | None => ret (Failure "File not found.")
     | Some file =>
     if negb (owner_is file userId) && negb (is_admin userRole) then
       insert_log c
         (mkLog (Some userId) ipAddress "Unauthorized Action"
            ("User attempted to delete file ID " ++ Js.show_Z fileId
             ++ " without permission")
            "security" (Some fileId)) ;;;
       ret (Failure "Permission denied to delete this file.")
     else
       let filePath := Path.resolve (cwd c) [cwd c; file_path file] in
       transaction
         (changes <- delete_file_row fileId ;;
          if changes =? 0
          then throw (Error
                 "File record not found in database during transaction.")
          else ret tt) ;;;
       try_catch (unlink c filePath)
         (fun unlinkError =>
            if bool_decide (err_code unlinkError = Some "ENOENT")
            then ret tt
            else
              insert_log c
                (mkLog (Some userId) ipAddress "File Deletion IO Error"
                   ("Failed to delete physical file '" ++ file_name file
                    ++ "' (Path: " ++ file_path file ++ "): "
                    ++ err_message unlinkError)
                   "system" (Some fileId))) ;;;
       insert_log c
         (mkLog (Some userId) ipAddress "File Deletion"
            ("Deleted '" ++ file_name file ++ "' (ID: "
             ++ Js.show_Z fileId ++ ")")
            "file" (Some fileId)) ;;;
       ret (Success "File deleted successfully.")
     end)
    (fun error =>
       insert_log c
         (mkLog (Some userId) ipAddress "File Deletion Error"
            ("Error deleting file ID " ++ Js.show_Z fileId ++ ": "
             ++ err_message error)
            "system" (Some fileId)) ;;;
       ret (Failure "Failed to delete file."))
  end.

Record FileInfo := mkFileInfo {
  info_name : string;
  info_path : string;
  info_type : string
}.

(** Shared by the download and the preview action and by the byte
    server: the read is refused for a private file of somebody else
    unless the caller is an administrator. *)
Definition read_refused (file : FileRecord) (userId : Z)
    (userRole : option Role) : bool :=
  Visibility_eqb (visibility file) Private
  && negb (owner_is file userId) && negb (is_admin userRole).

Definition getDownloadFileInfo (c : Ctx) (fileId : Z)
    : M (Result FileInfo) :=
  userId <- getUserIdFromSession c ;;
  match truthy_id userId with
  | None => ret (Failure "Authentication required.")
  | Some userId =>
  let ipAddress := getIpAddress c in
  try_catch
    (file <- gets (fun w => find_file fileId (files w)) ;;
     match file with
     | None => ret (Failure "File not found.")
     | Some file =>
     userRole <- getUserRole userId ;;
     if read_refused file userId userRole then
       insert_log c
         (mkLog (Some userId) ipAddress "File Access Denied"
            ("User denied download access to private file '"
             ++ file_name file ++ "' (ID: " ++ Js.show_Z fileId ++ ")")
            "security" (Some fileId)) ;;;
       ret (Failure "Access denied to this file.")
     else
       let absolutePath := Path.resolve (cwd c) [cwd c; file_path file] in
       present <- gets (fun w => disk w !! absolutePath) ;;
       match present with
       | None =>
           insert_log c
             (mkLog (Some userId) ipAddress "File Download Error"
                ("File data missing on disk for '" ++ file_name file
                 ++ "' (ID: " ++ Js.show_Z fileId ++ ", Path: "
                 ++ file_path file ++ ")")
                "system" (Some fileId)) ;;;
           ret (Failure "File data is missing. Please contact support.")
       | Some _ =>
           insert_log c
             (mkLog (Some userId) ipAddress "File Download"
                ("User initiated download for '" ++ file_name file
                 ++ "' (ID: " ++ Js.show_Z fileId ++ ", Size: "
                 ++ Js.show_Z (file_size file) ++ ")")
                "file" (Some fileId)) ;;;
           ret (Success (mkFileInfo (file_name file) (file_path file)
                           (file_type file)))
       end
     end)
    (fun error =>
       insert_log c
         (mkLog (Some userId) ipAddress "File Download Error"
            ("Server error getting download info for file ID "
             ++ Js.show_Z fileId ++ ": " ++ err_message error)
            "system" (Some fileId)) ;;;
       ret (Failure "Failed to process download request."))
  end.

Definition getPreviewFileInfo (c : Ctx) (fileId : Z)
    : M (Result FileInfo) :=
  userId <- getUserIdFromSession c ;;
  match truthy_id userId with
  | None => ret (Failure "Authentication required.")
  | Some userId =>
  let ipAddress := getIpAddress c in
  try_catch
    (file <- gets (fun w => find_file fileId (files w)) ;;
     match file with
     | None => ret (Failure "File not found.")
     | Some file =>
     userRole <- getUserRole userId ;;
     if read_refused file userId userRole then
       insert_log c
         (mkLog (Some userId) ipAddress "File Access Denied"
            ("User denied preview access to private file '"
             ++ file_name file ++ "' (ID: " ++ Js.show_Z fileId ++ ")")
            "security" (Some fileId)) ;;;
       ret (Failure "Access denied to preview this file.")
     else
       let absolutePath := Path.resolve (cwd c) [cwd c; file_path file] in
       present <- gets (fun w => disk w !! absolutePath) ;;
       match present with
       | None =>
           insert_log c
             (mkLog (Some userId) ipAddress "File Preview Error"
                ("File data missing on disk for preview '" ++ file_name file
                 ++ "' (ID: " ++ Js.show_Z fileId ++ ", Path: "
                 ++ file_path file ++ ")")
                "system" (Some fileId)) ;;;
           ret (Failure "File data is missing.")
       | Some _ =>
           ret (Success (mkFileInfo (file_name file) (file_path file)
                           (file_type file)))
       end
     end)
    (fun error =>
       insert_log c
         (mkLog (Some userId) ipAddress "File Preview Error"
            ("Server error getting preview info for file ID "
             ++ Js.show_Z fileId ++ ": " ++ err_message error)
            "system" (Some fileId)) ;;;
       ret (Failure "Failed to process preview request."))
  end.

(** ** The file byte server, src/app/api/files/[...filepath]/route.ts *)

Record Response := mkResponse {
  resp_status : Z;
  resp_body : string;
  resp_content_type : option string;
  resp_content_length : option Z;
  resp_content_disposition : option string;
  resp_cache_control : option string
}.

Definition text_response (body : string) (status : Z) : Response :=
  mkResponse status body None None None None.

Definition dquote : string := String (ascii_of_nat 34) EmptyString.

(** The route has its own copy of the session look-up. *)
Definition validateSessionAndGetUserId (c : Ctx) : M (option Z) :=
  getUserIdFromSession c.

Definition GET (c : Ctx) (filepath : list string)
    (previewParam : option string) : M Response :=
  userId <- validateSessionAndGetUserId c ;;
  let ipAddress := getIpAddress c in
  match truthy_id userId with
  | None => ret (text_response "Unauthorized" 401)
  | Some userId =>
  let relativePath := Path.join ("uploads" :: filepath) in
  let requestedPath := Path.normalize relativePath in
  let uploadDirResolved := Path.resolve (cwd c) [cwd c; "uploads"] in
  let resolvedPath := Path.resolve (cwd c) [cwd c; requestedPath] in
  if negb (Path.startsWith resolvedPath uploadDirResolved) then
    insert_log c
      (mkLog (Some userId) ipAddress "Path Traversal Attempt"
         ("Attempted to access file outside uploads directory: "
          ++ requestedPath)
         "security" None) ;;;
    ret (text_response "Forbidden" 403)
  else
  try_catch
    (fileRecord <-
       gets (fun w => find_file_by_path relativePath (files w)) ;;
     match fileRecord with
     | None =>
         insert_log c
           (mkLog (Some userId) ipAddress "File Access Error"
              ("File record not found in DB for path: " ++ relativePath)
              "file" None) ;;;
         ret (text_response "File not found" 404)
     | Some fileRecord =>
     userRole <- getUserRole userId ;;
     if read_refused fileRecord userId userRole then
       insert_log c
         (mkLog (Some userId) ipAddress "File Access Denied"
            ("User denied access to private file '"
             ++ file_name fileRecord ++ "' (ID: "
             ++ Js.show_Z (file_id fileRecord) ++ ")")
            "security" (Some (file_id fileRecord))) ;;;
       ret (text_response "Forbidden" 403)
     else
       let absolutePath :=
         Path.resolve (cwd c) [cwd c; file_path fileRecord] in
       onDisk <- gets (fun w => disk w !! absolutePath) ;;
       match onDisk with
       | None =>
           insert_log c
             (mkLog (Some userId) ipAddress "File Access Error"
                ("File data missing on disk for '" ++ file_name fileRecord
                 ++ "' (ID: " ++ Js.show_Z (file_id fileRecord)
                 ++ ", Path: " ++ file_path fileRecord ++ ")")
                "system" (Some (file_id fileRecord))) ;;;
           ret (text_response "File data missing" 404)
       | Some fileBuffer =>
           let contentType :=
             Js.or_else (mime_lookup c (file_name fileRecord))
               (Js.or_else (Some (file_type fileRecord))
                  "application/octet-stream") in
           let isPreview :=
             bool_decide (previewParam = Some "true") in
           let isInlinePreviewable :=
             Path.startsWith contentType "image/"
             || String.eqb contentType "application/pdf"
             || Path.startsWith contentType "text/" in
           let dispositionType :=
             if isPreview && isInlinePreviewable
             then "inline" else "attachment" in
           let disposition :=
             dispositionType ++ "; filename=" ++ dquote
             ++ encodeURIComponent c (file_name fileRecord) ++ dquote in
           insert_log c
             (mkLog (Some userId) ipAddress
                (if isPreview then "File Preview" else "File Download")
                ("Accessed '" ++ file_name fileRecord ++ "' (ID: "
                 ++ Js.show_Z (file_id fileRecord) ++ ", Type: "
                 ++ dispositionType ++ ")")
                "file" (Some (file_id fileRecord))) ;;;
           ret (mkResponse 200 fileBuffer (Some contentType)
                  (Some (Z.of_nat (String.length fileBuffer)))
                  (Some disposition)
                  (Some (match visibility fileRecord with
                         | Private => "private, no-store, must-revalidate"
                         | _ => "public, max-age=3600"
                         end)))
       end
     end)
    (fun error =>
       insert_log c
         (mkLog (Some userId) ipAddress "File Access Error"
            ("Server error serving file path " ++ relativePath ++ ": "
             ++ err_message error)
            "system" None) ;;;
       ret (text_response "Internal Server Error" 500))
  end.

(** ** src/lib/auth.ts *)

Definition hashPassword (password : string) : string :=
  Sha256.digest_hex password.

(** [crypto.timingSafeEqual]: a RangeError unless both buffers have the
    same byte length. *)
Definition timingSafeEqual (a b : string) : Outcome bool :=
  if (String.length a =? String.length b)%nat
  then Ret (String.eqb a b)
  else Throw (Error "Input buffers must have the same byte length").

Definition verifyPassword (password storedHash : string) : Outcome bool :=
  let inputHash := hashPassword password in
  timingSafeEqual inputHash storedHash.

Definition lift {A} (o : Outcome A) : M A := fun w => (o, w).

(** The largest instant a [Date] can hold, in milliseconds. *)
Definition max_date : Z := 8640000000000000.

Definition createSession (c : Ctx) (userId : Z) (ipAddress userAgent : string)
    : M string :=
  let sessionId := random_hex c in
  timeoutSetting <-
    gets (fun w =>
      Js.or_else (settings w !! "sessionTimeoutMinutes") "30") ;;
  let sessionTimeoutMinutes := Js.parseInt10 timeoutSetting in
  let expiresAt :=
    (fun m => now c + m * 60 * 1000) <$> sessionTimeoutMinutes in
  try_catch
    (match expiresAt with
     | None => throw (Error "Invalid time value")
     | Some t =>
         if max_date <? Z.abs t then throw (Error "Invalid time value")
         else
           taken <- gets (fun w => sessions w !! sessionId) ;;
           match taken with
           | Some _ =>
               throw (Error "UNIQUE constraint failed: sessions.session_id")
           | None =>
               modify (set_sessions
                 (fun s => <[sessionId :=
                    mkSession userId t (now c) (now c) ipAddress userAgent]>
                    s)) ;;;
               modify (set_cookie_out (Some (sessionId, t))) ;;;
               ret sessionId
           end
     end)
    (fun _ => throw (Error "Session creation failed.")).

Definition deleteSession (c : Ctx) : M unit :=
  if Js.truthy (cookie_session_id c) then
    modify (set_sessions (fun s => delete (default "" (cookie_session_id c)) s)) ;;;
    modify (set_cookie_out (Some ("", 0)))
  else ret tt.

Definition verifySession (c : Ctx) (sessionId : string) : M (option Z) :=
  if negb (Str.nonempty sessionId) then ret None
  else
    session <- gets (fun w => sessions w !! sessionId) ;;
    match session with
    | None => ret None
    | Some session =>
        if expires_at session <? now c then
          modify (set_sessions (fun s => delete sessionId s)) ;;;
          ret None
        else ret (Some (session_user_id session))
    end.

(** ** The authentication and user-management actions *)

(** [SELECT s.user_id, u.role FROM sessions s JOIN users u ON
    s.user_id = u.id WHERE s.session_id = ? AND s.expires_at >
    CURRENT_TIMESTAMP]. *)
Definition getUserFromSession (c : Ctx) : M (option (Z * Role)) :=
  gets (fun w =>
    if Js.truthy (cookie_session_id c) then
      match sessions w !! default "" (cookie_session_id c) with
      | Some s =>
          if later_than_current_timestamp (expires_at s) (now c) then
            match find_user (session_user_id s) (users w) with
            | Some u => Some (session_user_id s, role u)
            | None => None
            end
          else None
      | None => None
      end
    else None).

Record LoginValues := mkLogin {
  login_username : string;
  login_password : string
}.

Record LoggedIn := mkLoggedIn {
  li_id : Z;
  li_username : string;
  li_role : Role
}.

Definition user_agent_of (c : Ctx) : string :=
  Js.or_else (header_user_agent c) "N/A".

Definition loginUser (c : Ctx) (values : LoginValues)
    : M (Result LoggedIn) :=
  let ipAddress := getIpAddress c in
  let userAgent := user_agent_of c in
  try_catch
    (if negb (Str.nonempty (login_username values)
              && Str.nonempty (login_password values)) then
       ret (Failure "Invalid input.")
     else
     let uname := login_username values in
     let password := login_password values in
     user <- gets (fun w => find_user_by_name uname (users w)) ;;
     match user with
     | None =>
         insert_log c
           (mkLog None ipAddress "Login Failure"
              ("Attempted login for non-existent user '" ++ uname
               ++ "'. UA: " ++ userAgent)
              "auth" None) ;;;
         ret (Failure "Invalid username or password.")
     | Some user =>
     if negb (Status_eqb (status user) Active) then
       insert_log c
         (mkLog (Some (user_id user)) ipAddress "Login Failure"
            ("Account is inactive. UA: " ++ userAgent)
            "auth" (Some (user_id user))) ;;;
       ret (Failure "Account is inactive.")
     else
     passwordMatch <- lift (verifyPassword password (password_hash user)) ;;
     if negb passwordMatch then
       insert_log c
         (mkLog (Some (user_id user)) ipAddress "Login Failure"
            ("Incorrect password. UA: " ++ userAgent)
            "auth" (Some (user_id user))) ;;;
       ret (Failure "Invalid username or password.")
     else
     maintenanceMode <-
       gets (fun w =>
         bool_decide (settings w !! "maintenanceMode" = Some "true")) ;;
     if maintenanceMode && negb (Role_eqb (role user) RoleAdmin) then
       insert_log c
         (mkLog (Some (user_id user)) ipAddress "Login Failure"
            ("Login blocked due to maintenance mode. UA: " ++ userAgent)
            "auth" (Some (user_id user))) ;;;
       ret (Failure
         "Platform is currently under maintenance. Please try again later.")
     else
     createSession c (user_id user) ipAddress userAgent ;;;
     insert_log c
       (mkLog (Some (user_id user)) ipAddress "Login Success"
          ("User logged in. UA: " ++ userAgent)
          "auth" (Some (user_id user))) ;;;
     ret (Success (mkLoggedIn (user_id user) (username user) (role user)))
     end)
    (fun error =>
       insert_log c
         (mkLog None ipAddress "Login Error"
            ("Server error during login attempt for '"
             ++ login_username values ++ "': " ++ err_message error
             ++ ". UA: " ++ userAgent)
            "system" None) ;;;
       ret (Failure "An internal server error occurred.")).

(** Rows a statement changed. *)
Definition count_users (p : User -> bool) (w : World) : Z :=
  Z.of_nat (length (List.filter p (users w))).

Definition with_status (s : Status) (u : User) : User :=
  mkUser (user_id u) (username u) (email u) (password_hash u) (role u) s.

Definition with_password_hash (h : string) (u : User) : User :=
  mkUser (user_id u) (username u) (email u) h (role u) (status u).

Definition with_email (e : string) (u : User) : User :=
  mkUser (user_id u) (username u) e (password_hash u) (role u) (status u).

(** [UPDATE users SET ... WHERE id = ?] and the number of rows matched. *)
Definition update_user (id : Z) (f : User -> User) : M Z :=
  fun w =>
    (Ret (count_users (fun u => user_id u =? id) w),
     set_users (List.map (fun u => if user_id u =? id then f u else u)) w).

(** [DELETE FROM sessions WHERE user_id = ?], except one session id. *)
Definition delete_sessions_of (userId : Z) (except : option string)
    : M Z :=
  fun w =>
    let doomed (kv : string * Session) :=
      bool_decide (session_user_id kv.2 = userId
                   /\ except <> Some kv.1) in
    (Ret (Z.of_nat (size (filter (fun kv => doomed kv = true) (sessions w)))),
     set_sessions (filter (fun kv => doomed kv = false)) w).

(** [z.string().min(n)] where [n] came out of [parseInt]. *)
Definition min_length_ok (minLength : option Z) (s : string) : bool :=
  match minLength with
  | Some m => m <=? Str.js_length s
  | None => true
  end.

Definition passwordMinLength : M (option Z) :=
  gets (fun w =>
    Js.parseInt10 (Js.or_else (settings w !! "passwordMinLength") "6")).

Definition unauthorized (c : Ctx) (userId : Z) (details : string) : M unit :=
  insert_log c
    (mkLog (Some userId) (getIpAddress c) "Unauthorized Action" details
       "security" (Some userId)).

Record RegisterValues := mkRegister {
  reg_username : string;
  reg_email : string;
  reg_password : string;
  reg_role : option Role
}.

Definition registerUser (c : Ctx) (values : RegisterValues)
    : M (Result (string * User)) :=
  let ipAddress := getIpAddress c in
  adminUser <- getUserFromSession c ;;
  match adminUser with
  | None => ret (Failure "Authentication required.")
  | Some (adminId, adminRole) =>
  if negb (Role_eqb adminRole RoleAdmin) then
    unauthorized c adminId
      "User attempted to register new user without admin rights" ;;;
    ret (Failure "Permission denied. Only administrators can create users.")
  else
  minLength <- passwordMinLength ;;
  if negb ((3 <=? Str.js_length (reg_username values))
           && zod_email c (reg_email values)
           && min_length_ok minLength (reg_password values)) then
    ret (Failure "Invalid user data.")
  else
  let newName := reg_username values in
  let newEmail := reg_email values in
  let newRole := default RoleUser (reg_role values) in
  try_catch
    (existingUser <-
       gets (fun w =>
         List.find (fun u => String.eqb (username u) newName
                             || String.eqb (email u) newEmail)
           (users w)) ;;
     match existingUser with
     | Some _ => ret (Failure "Username or email already in use.")
     | None =>
         let passwordHash := hashPassword (reg_password values) in
         newId <- gets next_user_id ;;
         let newUser :=
           mkUser newId newName newEmail passwordHash newRole Active in
         modify (fun w =>
           set_next_user_id (newId + 1)
             (set_users (fun l => (l ++ [newUser])%list) w)) ;;;
         insert_log c
           (mkLog (Some adminId) ipAddress "User Creation"
              ("Admin created user '" ++ newName ++ "' (ID: "
               ++ Js.show_Z newId ++ ") with role '" ++ show_Role newRole
               ++ "'")
              "admin" (Some newId)) ;;;
         ret (Success ("User '" ++ newName ++ "' created successfully.",
                       newUser))
     end)
    (fun error =>
       insert_log c
         (mkLog (Some adminId) ipAddress "User Creation Error"
            ("Error creating user '" ++ newName ++ "': "
             ++ err_message error)
            "admin" None) ;;;
       ret (Failure "Failed to create user due to a server error."))
  end.

Definition logoutUser (c : Ctx) : M (Result string) :=
  let ipAddress := getIpAddress c in
  sessionData <- getUserFromSession c ;;
  let userId := fst <$> sessionData in
  let sessionPrefix :=
    match cookie_session_id c with
    | Some sid => String.substring 0 8 sid
    | None => "N/A"
    end in
  try_catch
    (deleteSession c ;;;
     insert_log c
       (mkLog userId ipAddress "Logout Success"
          ("User logged out. Session: " ++ sessionPrefix ++ "...")
          "auth" userId) ;;;
     ret (Success "Logged out successfully."))
    (fun error =>
       insert_log c
         (mkLog userId ipAddress "Logout Error"
            ("Server error during logout: " ++ err_message error
             ++ ". Session: " ++ sessionPrefix ++ "...")
            "system" None) ;;;
       ret (Failure "Failed to logout.")).

Definition updateUserStatus (c : Ctx) (targetUserId : Z) (newStatus : Status)
    : M (Result string) :=
  let ipAddress := getIpAddress c in
  adminUser <- getUserFromSession c ;;
  match adminUser with
  | None => ret (Failure "Authentication required.")
  | Some (adminId, adminRole) =>
  if negb (Role_eqb adminRole RoleAdmin) then
    unauthorized c adminId
      "User attempted to update user status without admin rights" ;;;
    ret (Failure "Permission denied.")
  else if (targetUserId =? adminId) && Status_eqb newStatus Inactive then
    ret (Failure "Administrators cannot deactivate their own account.")
  else
  try_catch
    (targetUser <- gets (fun w => find_user targetUserId (users w)) ;;
     match targetUser with
     | None => ret (Failure "Target user not found.")
     | Some targetUser =>
         changes <- update_user targetUserId (with_status newStatus) ;;
         if changes =? 0 then
           ret (Failure
             "User status was not changed (maybe it was already set?).")
         else
           let actionText :=
             match newStatus with
             | Active => "Activated"
             | Inactive => "Deactivated"
             end in
           insert_log c
             (mkLog (Some adminId) ipAddress
                ("User Status " ++ actionText)
                ("Admin " ++ Str.toLowerCase actionText ++ " user '"
                 ++ username targetUser ++ "' (ID: "
                 ++ Js.show_Z targetUserId ++ ")")
                "admin" (Some targetUserId)) ;;;
           ret (Success ("User '" ++ username targetUser ++ "' has been "
                         ++ show_Status newStatus ++ "."))
     end)
    (fun error =>
       insert_log c
         (mkLog (Some adminId) ipAddress "User Status Update Error"
            ("Error updating status for user ID "
             ++ Js.show_Z targetUserId ++ ": " ++ err_message error)
            "admin" (Some targetUserId)) ;;;
       ret (Failure "Failed to update user status."))
  end.

Definition resetUserPassword (c : Ctx) (targetUserId : Z)
    (newPassword : string) : M (Result string) :=
  let ipAddress := getIpAddress c in
  adminUser <- getUserFromSession c ;;
  match adminUser with
  | None => ret (Failure "Authentication required.")
  | Some (adminId, adminRole) =>
  if negb (Role_eqb adminRole RoleAdmin) then
    unauthorized c adminId
      "User attempted to reset password without admin rights" ;;;
    ret (Failure "Permission denied.")
  else
  minLength <- passwordMinLength ;;
  if negb (min_length_ok minLength newPassword) then
    ret (Failure "Invalid data.")
  else
  try_catch
    (targetUser <- gets (fun w => find_user targetUserId (users w)) ;;
     match targetUser with
     | None => ret (Failure "Target user not found.")
     | Some targetUser =>
         let newPasswordHash := hashPassword newPassword in
         changes <-
           update_user targetUserId (with_password_hash newPasswordHash) ;;
         if changes =? 0 then ret (Failure "Password was not updated.")
         else
           insert_log c
             (mkLog (Some adminId) ipAddress "Password Reset"
                ("Admin reset password for user '" ++ username targetUser
                 ++ "' (ID: " ++ Js.show_Z targetUserId ++ ")")
                "admin" (Some targetUserId)) ;;;
           try_catch
             (sessionsDeleted <- delete_sessions_of targetUserId None ;;
              if 0 <? sessionsDeleted then
                insert_log c
                  (mkLog (Some adminId) ipAddress "Session Termination"
                     ("Terminated " ++ Js.show_Z sessionsDeleted
                      ++ " session(s) for user '" ++ username targetUser
                      ++ "' due to password reset")
                     "security" (Some targetUserId))
              else ret tt)
             (fun sessionError =>
                insert_log c
                  (mkLog (Some adminId) ipAddress
                     "Session Termination Error"
                     ("Failed to terminate sessions for user '"
                      ++ username targetUser ++ "' after password reset: "
                      ++ err_message sessionError)
                     "security" (Some targetUserId))) ;;;
           ret (Success ("Password for user '" ++ username targetUser
                         ++ "' has been reset successfully."))
     end)
    (fun error =>
       insert_log c
         (mkLog (Some adminId) ipAddress "Password Reset Error"
            ("Error resetting password for user ID "
             ++ Js.show_Z targetUserId ++ ": " ++ err_message error)
            "admin" (Some targetUserId)) ;;;
       ret (Failure "Failed to reset password."))
  end.

Record ProfileUpdates := mkUpdates {
  upd_username : option string;
  upd_email : option string;
  upd_role : option Role
}.

Definition no_updates (u : ProfileUpdates) : bool :=
  match upd_username u, upd_email u, upd_role u with
  | None, None, None => true
  | _, _, _ => false
  end.

(** The SET clauses built from the provided fields. *)
Definition apply_updates (upd : ProfileUpdates) (u : User) : User :=
  mkUser (user_id u)
    (default (username u) (upd_username upd))
    (default (email u) (upd_email upd))
    (password_hash u)
    (default (role u) (upd_role upd))
    (status u).

Definition changed_fields (upd : ProfileUpdates) : list string :=
  (match upd_username upd with Some _ => ["username"] | None => [] end
   ++ match upd_email upd with Some _ => ["email"] | None => [] end
   ++ match upd_role upd with Some _ => ["role"] | None => [] end)%list.

Definition demotes (upd : ProfileUpdates) : bool :=
  match upd_role upd with
  | Some r => negb (Role_eqb r RoleAdmin)
  | None => false
  end.

Definition profile_valid (c : Ctx) (upd : ProfileUpdates) : bool :=
  match upd_username upd with
  | Some n => 3 <=? Str.js_length n
  | None => true
  end
  && match upd_email upd with
     | Some e => zod_email c e
     | None => true
     end.

Definition taken_by_other (p : User -> bool) (targetUserId : Z)
    (us : list User) : bool :=
  existsb (fun u => p u && negb (user_id u =? targetUserId)) us.

Definition updateUserProfile (c : Ctx) (targetUserId : Z)
    (updates : ProfileUpdates) : M (Result string) :=
  let ipAddress := getIpAddress c in
  adminUser <- getUserFromSession c ;;
  match adminUser with
  | None => ret (Failure "Authentication required.")
  | Some (adminId, adminRole) =>
  if negb (Role_eqb adminRole RoleAdmin) then
    unauthorized c adminId
      "User attempted to update profile without admin rights" ;;;
    ret (Failure "Permission denied.")
  else if negb (profile_valid c updates) then ret (Failure "Invalid data.")
  else if no_updates updates then ret (Failure "No changes provided.")
  else
  let isChangingOwnRole := (targetUserId =? adminId) && demotes updates in
  let isDemotingSeededAdmin := (targetUserId =? 1) && demotes updates in
  if isChangingOwnRole then
    ret (Failure "Administrators cannot change their own role.")
  else if isDemotingSeededAdmin then
    ret (Failure
      "The initial administrator account's role cannot be changed.")
  else
  try_catch
    (targetUser <- gets (fun w => find_user targetUserId (users w)) ;;
     match targetUser with
     | None => ret (Failure "Target user not found.")
     | Some targetUser =>
     nameTaken <-
       gets (fun w =>
         match upd_username updates with
         | Some n =>
             negb (String.eqb n (username targetUser))
             && taken_by_other (fun u => String.eqb (username u) n)
                  targetUserId (users w)
         | None => false
         end) ;;
     if nameTaken then ret (Failure "Username already in use.")
     else
     emailTaken <-
       gets (fun w =>
         match upd_email updates with
         | Some e =>
             negb (String.eqb e (email targetUser))
             && taken_by_other (fun u => String.eqb (email u) e)
                  targetUserId (users w)
         | None => false
         end) ;;
     if emailTaken then ret (Failure "Email already in use.")
     else
     changes <- update_user targetUserId (apply_updates updates) ;;
     if changes =? 0 then
       ret (Success ("No changes detected for user '"
                     ++ username targetUser ++ "'."))
     else
       insert_log c
         (mkLog (Some adminId) ipAddress "Profile Update"
            ("Admin updated profile for user '" ++ username targetUser
             ++ "' (ID: " ++ Js.show_Z targetUserId ++ "). Fields: "
             ++ Str.join_with ", " (changed_fields updates))
            "admin" (Some targetUserId)) ;;;
       ret (Success ("Profile for user '" ++ username targetUser
                     ++ "' updated successfully."))
     end)
    (fun error =>
       insert_log c
         (mkLog (Some adminId) ipAddress "Profile Update Error"
            ("Error updating profile for user ID "
             ++ Js.show_Z targetUserId ++ ": " ++ err_message error)
            "admin" (Some targetUserId)) ;;;
       ret (Failure "Failed to update user profile."))
  end.

Definition orphan_file (id : Z) (f : FileRecord) : FileRecord :=
  if bool_decide (uploader_id f = Some id)
  then mkFile (file_id f) (file_name f) (file_type f) (file_size f)
         (upload_date f) None (visibility f) (file_path f)
  else f.

Definition orphan_log (id : Z) (e : LogEntry) : LogEntry :=
  if bool_decide (log_user_id e = Some id)
  then mkLog None (log_ip e) (log_action e) (log_details e) (log_type e)
         (log_resource_id e)
  else e.

(** [DELETE FROM users WHERE id = ?] with the foreign keys of the schema:
    files and ledger rows keep a NULL owner, sessions and notifications
    go with the user. *)
Definition delete_user_row (id : Z) : M Z :=
  fun w =>
    (Ret (count_users (fun u => user_id u =? id) w),
     set_users (List.filter (fun u => negb (user_id u =? id)))
       (set_files (List.map (orphan_file id))
          (set_logs (List.map (orphan_log id))
             (set_sessions
                (filter (fun kv : string * Session =>
                           session_user_id kv.2 <> id))
                (set_notifications
                   (List.filter
                      (fun n => negb (notification_user_id n =? id)))
                   w))))).

Definition deleteUser (c : Ctx) (targetUserId : Z) : M (Result string) :=
  let ipAddress := getIpAddress c in
  adminUser <- getUserFromSession c ;;
  match adminUser with
  | None => ret (Failure "Authentication required.")
  | Some (adminId, adminRole) =>
  if negb (Role_eqb adminRole RoleAdmin) then
    unauthorized c adminId
      "User attempted to delete user without admin rights" ;;;
    ret (Failure "Permission denied.")
  else if targetUserId =? adminId then
    ret (Failure "Administrators cannot delete their own account.")
  else if targetUserId =? 1 then
    ret (Failure "The initial administrator account cannot be deleted.")
  else
  try_catch
    (targetUser <- gets (fun w => find_user targetUserId (users w)) ;;
     match targetUser with
     | None => ret (Failure "Target user not found.")
     | Some targetUser =>
         transaction
           (delete_sessions_of targetUserId None ;;;
            modify (set_notifications
              (List.filter
                 (fun n => negb (notification_user_id n =? targetUserId)))) ;;;
            changes <- delete_user_row targetUserId ;;
            if changes =? 0
            then throw (Error "User not found during transaction.")
            else ret tt) ;;;
         insert_log c
           (mkLog (Some adminId) ipAddress "User Deletion"
              ("Admin deleted user '" ++ username targetUser ++ "' (ID: "
               ++ Js.show_Z targetUserId ++ ")")
              "admin" (Some targetUserId)) ;;;
         ret (Success ("User '" ++ username targetUser
                       ++ "' has been deleted."))
     end)
    (fun error =>
       insert_log c
         (mkLog (Some adminId) ipAddress "User Deletion Error"
            ("Error deleting user ID " ++ Js.show_Z targetUserId ++ ": "
             ++ err_message error)
            "admin" (Some targetUserId)) ;;;
       ret (Failure "Failed to delete user."))
  end.

Record OwnProfileValues := mkOwnProfile {
  own_email : option string;
  own_currentPassword : option string;
  own_newPassword : option string
}.

Definition updateOwnProfile (c : Ctx) (values : OwnProfileValues)
    : M (Result string) :=
  let ipAddress := getIpAddress c in
  currentUser <- getUserFromSession c ;;
  match currentUser with
  | None => ret (Failure "Authentication required.")
  | Some (userId, _) =>
  if negb (match own_email values with
           | Some e => zod_email c e
           | None => true
           end) then ret (Failure "Invalid data.")
  else if negb (Js.truthy (own_email values))
          && negb (Js.truthy (own_newPassword values)) then
    ret (Failure "No changes provided.")
  else
  try_catch
    (user <- gets (fun w => find_user userId (users w)) ;;
     match user with
     | None => ret (Failure "User not found.")
     | Some user =>
     let emailChange :=
       match own_email values with
       | Some e =>
           if Str.nonempty e && negb (String.eqb e (email user))
           then Some e else None
       | None => None
       end in
     emailTaken <-
       gets (fun w =>
         match emailChange with
         | Some e =>
             taken_by_other (fun u => String.eqb (email u) e) userId
               (users w)
         | None => false
         end) ;;
     if emailTaken then ret (Failure "Email address already in use.")
     else
     if Js.truthy (own_newPassword values) then
       let newPassword := default "" (own_newPassword values) in
       if negb (Js.truthy (own_currentPassword values)) then
         ret (Failure
           "Current password is required to set a new password.")
       else
       matches <-
         lift (verifyPassword (default "" (own_currentPassword values))
                 (password_hash user)) ;;
       if negb matches then
         insert_log c
           (mkLog (Some userId) ipAddress "Profile Update Failure"
              "Attempted password change with incorrect current password"
              "security" (Some userId)) ;;;
         ret (Failure "Incorrect current password.")
       else
       minLength <- passwordMinLength ;;
       if negb (min_length_ok minLength newPassword) then
         ret (Failure ("New password must be at least "
                       ++ show_nan minLength ++ " characters."))
       else
       changes <-
         update_user userId
           (fun u =>
              with_password_hash (hashPassword newPassword)
                (match emailChange with
                 | Some e => with_email e u
                 | None => u
                 end)) ;;
       if 0 <? changes then
         insert_log c
           (mkLog (Some userId) ipAddress "Profile Self-Update"
              ("User updated their profile. Fields: "
               ++ Str.join_with ", "
                    (match emailChange with
                     | Some _ => ["email"]
                     | None => []
                     end ++ ["password"])%list)
              "auth" (Some userId)) ;;;
         try_catch
           (sessionsDeleted <-
              delete_sessions_of userId
                (Some (default "" (cookie_session_id c))) ;;
            if 0 <? sessionsDeleted then
              insert_log c
                (mkLog (Some userId) ipAddress "Session Termination"
                   ("Terminated " ++ Js.show_Z sessionsDeleted
                    ++ " other session(s) due to password change")
                   "security" (Some userId))
            else ret tt)
           (fun sessionError =>
              insert_log c
                (mkLog (Some userId) ipAddress "Session Termination Error"
                   ("Failed to terminate other sessions after password "
                    ++ "change: " ++ err_message sessionError)
                   "security" (Some userId))) ;;;
         ret (Success "Profile updated successfully.")
       else ret (Failure "Profile update failed unexpectedly.")
     else
     match emailChange with
     | None => ret (Success "No changes detected.")
     | Some e =>
         changes <- update_user userId (with_email e) ;;
         if 0 <? changes then
           insert_log c
             (mkLog (Some userId) ipAddress "Profile Self-Update"
                "User updated their profile. Fields: email"
                "auth" (Some userId)) ;;;
           ret (Success "Profile updated successfully.")
         else ret (Failure "Profile update failed unexpectedly.")
     end
     end)
    (fun error =>
       insert_log c
         (mkLog (Some userId) ipAddress "Profile Self-Update Error"
            ("Error updating own profile: " ++ err_message error)
            "system" (Some userId)) ;;;
       ret (Failure "Failed to update profile due to a server error."))
  end.

(** ** Sequences of user-management requests *)

(** One call of an action of the authentication module. *)
Inductive UserOp :=
| OpLogin (values : LoginValues)
| OpLogout
| OpRegister (values : RegisterValues)
| OpStatus (targetUserId : Z) (newStatus : Status)
| OpResetPassword (targetUserId : Z) (newPassword : string)
| OpProfile (targetUserId : Z) (updates : ProfileUpdates)
| OpDelete (targetUserId : Z)
| OpOwnProfile (values : OwnProfileValues).

(** The world a request leaves behind, whatever it answered. *)
Definition run_op (c : Ctx) (op : UserOp) (w : World) : World :=
  match op with
  | OpLogin v => snd (loginUser c v w)
  | OpLogout => snd (logoutUser c w)
  | OpRegister v => snd (registerUser c v w)
  | OpStatus t s => snd (updateUserStatus c t s w)
  | OpResetPassword t p => snd (resetUserPassword c t p w)
  | OpProfile t u => snd (updateUserProfile c t u w)
  | OpDelete t => snd (deleteUser c t w)
  | OpOwnProfile v => snd (updateOwnProfile c v w)
  end.

(** Requests arrive one after the other, each with its own context. *)
Fixpoint run_ops (reqs : list (Ctx * UserOp)) (w : World) : World :=
  match reqs with
  | [] => w
  | (c, op) :: r => run_ops r (run_op c op w)
  end.

(** The account [id] exists and is an administrator. *)
Definition admin_account (id : Z) (w : World) : Prop :=
  exists u, find_user id (users w) = Some u /\ role u = RoleAdmin.

(** The id [src/lib/db.ts] gives the administrator it seeds first. *)
Definition seed_admin_id : Z := 1.

(** The caller of a request, as the actions resolve it. *)
Definition caller (c : Ctx) (w : World) : option (Z * Role) :=
  match getUserFromSession c w with
  | (Ret r, _) => r
  | (Throw _, _) => None
  end.

(** The targets the user-management actions protect: the seed
    administrator and the caller. *)
Definition protected_target (c : Ctx) (w : World) (id : Z) : Prop :=
  id = seed_admin_id \/ fst <$> caller c w = Some id.

(** The caller of a file action. *)
Definition actor (c : Ctx) (w : World) : option Z :=
  match getUserIdFromSession c w with
  | (Ret r, _) => truthy_id r
  | (Throw _, _) => None
  end.

Definition role_of (userId : Z) (w : World) : option Role :=
  role <$> find_user userId (users w).

(** The paths the byte server compares for a request. *)
Definition relativePath_of (filepath : list string) : string :=
  Path.join ("uploads" :: filepath).

Definition resolvedPath_of (c : Ctx) (filepath : list string) : string :=
  Path.resolve (cwd c) [cwd c; Path.normalize (relativePath_of filepath)].

Definition uploadDirResolved_of (c : Ctx) : string :=
  Path.resolve (cwd c) [cwd c; "uploads"].

(** The request resolves outside the upload root. *)
Definition outside_upload_root (c : Ctx) (filepath : list string) : Prop :=
  Path.under (uploadDirResolved_of c) (resolvedPath_of c filepath) = false.

(** Who may read a file: anybody when it is public, else its owner and
    the administrators. *)
Definition may_read (f : FileRecord) (userId : Z) (w : World) : Prop :=
  visibility f = Public
  \/ uploader_id f = Some userId
  \/ role_of userId w = Some RoleAdmin.

(** Ledger rows the properties below mention. *)
Definition traversal_entry (c : Ctx) (userId : Z) (filepath : list string)
    : LogEntry :=
  mkLog (Some userId) (getIpAddress c) "Path Traversal Attempt"
    ("Attempted to access file outside uploads directory: "
     ++ Path.normalize (relativePath_of filepath))
    "security" None.

Definition not_found_entry (c : Ctx) (userId : Z) (filepath : list string)
    : LogEntry :=
  mkLog (Some userId) (getIpAddress c) "File Access Error"
    ("File record not found in DB for path: " ++ relativePath_of filepath)
    "file" None.

Definition denied_entry (c : Ctx) (userId : Z) (f : FileRecord) : LogEntry :=
  mkLog (Some userId) (getIpAddress c) "File Access Denied"
    ("User denied access to private file '" ++ file_name f ++ "' (ID: "
     ++ Js.show_Z (file_id f) ++ ")")
    "security" (Some (file_id f)).

Definition deletion_entry (c : Ctx) (userId : Z) (f : FileRecord)
    : LogEntry :=
  mkLog (Some userId) (getIpAddress c) "File Deletion"
    ("Deleted '" ++ file_name f ++ "' (ID: " ++ Js.show_Z (file_id f)
     ++ ")")
    "file" (Some (file_id f)).

Definition visibility_entry (c : Ctx) (userId : Z) (f : FileRecord)
    (newVisibility : Visibility) : LogEntry :=
  mkLog (Some userId) (getIpAddress c) "File Visibility Change"
    ("Changed '" ++ file_name f ++ "' (ID: " ++ Js.show_Z (file_id f)
     ++ ") visibility from '" ++ show_Visibility (visibility f)
     ++ "' to '" ++ show_Visibility newVisibility ++ "'")
    "file" (Some (file_id f)).

Definition inactive_entry (c : Ctx) (u : User) : LogEntry :=
  mkLog (Some (user_id u)) (getIpAddress c) "Login Failure"
    ("Account is inactive. UA: " ++ user_agent_of c)
    "auth" (Some (user_id u)).

(** The actor owns the file or is an administrator. *)
Definition may_change (f : FileRecord) (userId : Z) (w : World) : Prop :=
  uploader_id f = Some userId \/ role_of userId w = Some RoleAdmin.

(** The primary key of the files table. *)
Definition files_key (w : World) : Prop :=
  NoDup (List.map file_id (files w)).

(** The size limit an upload is checked against, in bytes. *)
Definition size_limit_bytes (w : World) : option Z :=
  (fun m => m * 1024 * 1024)
    <$> Js.parseInt10 (default "10" (settings w !! "fileSizeLimitMB")).

Definition maintenance_on (w : World) : Prop :=
  settings w !! "maintenanceMode" = Some "true".

(** ** A small installation used in the examples *)

Module Scenario.

Definition no_fault {A} : A -> option JsError := fun _ => None.

(** A request carrying session cookie [sid] at instant [t]. *)
Definition request (sid : string) (t : Z) : Ctx :=
  mkCtx "/app" t (Some sid) None None None (Some "curl/8") "c0ffee"
    no_fault no_fault no_fault
    (fun _ => None) (fun s => s) (fun _ => true).

(** The same request against a ledger that refuses every row whose
    action is [label]. *)
Definition request_ledger_refusing (label sid : string) (t : Z) : Ctx :=
  mkCtx "/app" t (Some sid) None None None (Some "curl/8") "c0ffee"
    (fun e =>
       if String.eqb (log_action e) label
       then Some (Error "SQLITE_FULL: database or disk is full")
       else None)
    no_fault no_fault
    (fun _ => None) (fun s => s) (fun _ => true).

Definition root : User :=
  mkUser 1 "AdminUser" "admin@example.com" (hashPassword "adminpassword")
    RoleAdmin Active.

Definition alice : User :=
  mkUser 2 "alice" "alice@example.com" (hashPassword "wonderland")
    RoleUser Active.

Definition bob : User :=
  mkUser 3 "bob" "bob@example.com" (hashPassword "builder")
    RoleUser Inactive.

Definition report : FileRecord :=
  mkFile 7 "report.pdf" "application/pdf" 3 100 (Some 2) Private
    "uploads/100-aa-report.pdf".

Definition world (maintenance : string) : World :=
  mkWorld [root; alice; bob] [report]
    (<["s-root" := mkSession 1 5000 0 0 "::1" "curl/8"]>
       (<["s-alice" := mkSession 2 5000 0 0 "::1" "curl/8"]>
          (<["s-old" := mkSession 2 500 0 0 "::1" "curl/8"]> ∅)))
    (<["maintenanceMode" := maintenance]>
       (<["fileSizeLimitMB" := "1"]> ∅))
    [] []
    (<["/app/uploads/100-aa-report.pdf" := "pdf"]> ∅)
    DirPresent 4 8 None.

Definition note : UploadedFile := mkUpload "note.txt" "text/plain" "hello".

Definition big : UploadedFile :=
  mkUpload "big.bin" "application/octet-stream"
    (String.concat "" (repeat "0123456789abcdef" (Z.to_nat 65537))).

End Scenario.

(** * Listing, seeding and the vocabulary of the properties *)

(** ** Vocabulary of the properties of the actions *)

(** Lower-case hexadecimal digit. *)
Definition is_hex_lower (c : ascii) : bool :=
  let n := nat_of_ascii c in
  ((48 <=? n)%nat && (n <=? 57)%nat) || ((97 <=? n)%nat && (n <=? 102)%nat).

Fixpoint all_chars (p : ascii -> bool) (s : string) : bool :=
  match s with
  | EmptyString => true
  | String c r => p c && all_chars p r
  end.

(** The action hands back a value: nothing is thrown at the caller. *)
Definition returns {A} (m : M A) (w : World) : Prop :=
  exists a, fst (m w) = Ret a.

(** The instant a session opened by request [c] expires. *)
Definition expiry_of (c : Ctx) (w : World) : option Z :=
  (fun m => now c + m * 60 * 1000)
    <$> Js.parseInt10
          (Js.or_else (settings w !! "sessionTimeoutMinutes") "30").

Definition login_success_entry (c : Ctx) (u : User) : LogEntry :=
  mkLog (Some (user_id u)) (getIpAddress c) "Login Success"
    ("User logged in. UA: " ++ user_agent_of c) "auth" (Some (user_id u)).

(** What [loginUser] tells a caller whose name or password is wrong. *)
Definition bad_credentials : Result LoggedIn :=
  Failure "Invalid username or password.".

Definition unauthorized_entry (c : Ctx) (userId : Z) (details : string)
    : LogEntry :=
  mkLog (Some userId) (getIpAddress c) "Unauthorized Action" details
    "security" (Some userId).

(** The answer and the world after a refusal that is written to the
    ledger. *)
Definition refused_with {A} (r : Outcome (Result A) * World) (w : World)
    (error : string) (e : LogEntry) : Prop :=
  r = (Ret (Failure error), set_logs (fun l => (l ++ [e])%list) w).

(** The answer to a request without a live session. *)
Definition unauthenticated {A} (r : Outcome (Result A) * World) (w : World)
    : Prop :=
  r = (Ret (Failure "Authentication required."), w).

Definition toggle_refused_entry (c : Ctx) (userId fileId : Z) : LogEntry :=
  mkLog (Some userId) (getIpAddress c) "Unauthorized Action"
    ("User attempted to toggle visibility for file ID "
     ++ Js.show_Z fileId ++ " without permission")
    "security" (Some fileId).

Definition delete_refused_entry (c : Ctx) (userId fileId : Z) : LogEntry :=
  mkLog (Some userId) (getIpAddress c) "Unauthorized Action"
    ("User attempted to delete file ID " ++ Js.show_Z fileId
     ++ " without permission")
    "security" (Some fileId).

(** The content type the byte server announces for a file. *)
Definition content_type_of (c : Ctx) (f : FileRecord) : string :=
  Js.or_else (mime_lookup c (file_name f))
    (Js.or_else (Some (file_type f)) "application/octet-stream").

(** Content types a browser may render in place. *)
Definition previewable (contentType : string) : bool :=
  Path.startsWith contentType "image/"
  || String.eqb contentType "application/pdf"
  || Path.startsWith contentType "text/".

(** The ledger of [w'] is the ledger of [w] with rows added at the end. *)
Definition ledger_extends (w w' : World) : Prop :=
  exists l, logs w' = (logs w ++ l)%list.

(** The extension the upload action tests, and its test. *)
Definition upload_extension (file : UploadedFile) : string :=
  Str.tail (Str.toLowerCase (Str.extname (up_name file))).

Definition type_refused (w : World) (file : UploadedFile) : bool :=
  let allowed :=
    allowed_extensions (default "" (settings w !! "allowedFileTypes")) in
  (0 <? Z.of_nat (length allowed))
  && negb (Str.includes allowed (upload_extension file)).

(** A string without a separator, and a file name that is a plain path
    segment: not empty, no separator, neither [.] nor [..]. *)
Definition no_slash (s : string) : bool :=
  all_chars (fun c => negb (Ascii.eqb c Path.slash)) s.

Definition simple_name (s : string) : bool :=
  Str.nonempty s && no_slash s
  && negb (String.eqb s ".") && negb (String.eqb s "..").

(** Segments that normalization keeps as they are. *)
Definition plain_segment (s : string) : bool :=
  negb (String.eqb s "" || String.eqb s "." || String.eqb s "..").

(** The name [uploadFile] gives the stored file. *)
Definition stored_name (c : Ctx) (file : UploadedFile) : string :=
  Js.show_Z (now c) ++ "-" ++ random_hex c ++ "-"
  ++ Str.sanitize (up_name file).

Definition upload_entry (c : Ctx) (userId fileId : Z) (file : UploadedFile)
    (v : Visibility) : LogEntry :=
  mkLog (Some userId) (getIpAddress c) "File Upload"
    ("Uploaded '" ++ up_name file ++ "' (Size: "
     ++ Js.show_Z (up_size file) ++ " bytes, Visibility: "
     ++ show_Visibility v ++ ")")
    "file" (Some fileId).

(** The segments of the normalized working directory. *)
Definition cwd_segments (cwd : string) : list string :=
  Path.normalize_segs false [] (Path.segments cwd).

(** Text made of ASCII characters only. *)
Definition ascii_text (s : string) : bool :=
  all_chars (fun c => (nat_of_ascii c <? 128)%nat) s.

(** ** [uploadFile] on the form as it arrives

    [formData.get('file')] is a [File], a text or nothing, and the cast
    to [File | null] checks nothing ([FileUploadSchema] is never
    applied).  An empty text fails [!file] like a missing entry.  Any
    other text goes on: it has no [size], so [file.size > maxSizeBytes]
    is false, and it has no [name], so [path.extname(file.name)] throws
    a TypeError, before the [try] block is entered. *)
Inductive FormField :=
| FileField (file : UploadedFile)
| TextField (text : string).

Definition ERR_INVALID_ARG_TYPE : JsError :=
  mkError
    ("The " ++ dquote ++ "path" ++ dquote
     ++ " argument must be of type string. Received undefined")
    (Some "ERR_INVALID_ARG_TYPE") None.

Definition uploadFile_field (c : Ctx) (file : option FormField)
    (visibility : option Visibility) : M (Result string) :=
  match file with
  | None => uploadFile c (mkForm None visibility)
  | Some (FileField f) => uploadFile c (mkForm (Some f) visibility)
  | Some (TextField text) =>
      if Str.nonempty text then
        ensureUploadDir ;;;
        userId <- getUserIdFromSession c ;;
        match truthy_id userId with
        | None => ret (Failure "Authentication required.")
        | Some _ => throw ERR_INVALID_ARG_TYPE
        end
      else uploadFile c (mkForm None visibility)
  end.

(** ** [listFiles], src/actions/files.ts *)

(** A row of the listing: the selected columns, the [uploader] column and
    the two fields added for display. *)
Record ListedFile := mkListed {
  lf_id : Z;
  lf_name : string;
  lf_type : string;
  lf_size : Z;
  lf_upload_date : Z;
  lf_visibility : Visibility;
  lf_uploader : string;
  lf_uploader_id : option Z;
  lf_uploaded : string;
  lf_key : string
}.

Record FileList := mkList {
  list_success : bool;
  list_error : option string;
  list_files : list ListedFile
}.

(** [LEFT JOIN users u ON f.uploader_id = u.id] with
    [COALESCE(u.username, 'Deleted User')]. *)
Definition uploader_name (us : list User) (f : FileRecord) : string :=
  match uploader_id f with
  | Some o =>
      match find_user o us with
      | Some u => username u
      | None => "Deleted User"
      end
  | None => "Deleted User"
  end.

(** [f.visibility = 'public' AND f.uploader_id != ?]: the comparison with
    a NULL uploader is not true, so the row is left out. *)
Definition public_of_others (userId : Z) (f : FileRecord) : bool :=
  Visibility_eqb (visibility f) Public
  && match uploader_id f with
     | Some o => negb (o =? userId)
     | None => false
     end.

(** [ORDER BY upload_date DESC]; rows of equal date keep the order of
    the SELECT. *)
Fixpoint insert_by_date (x : FileRecord * string)
    (l : list (FileRecord * string)) : list (FileRecord * string) :=
  match l with
  | [] => [x]
  | y :: r =>
      if upload_date (fst y) <=? upload_date (fst x)
      then x :: y :: r
      else y :: insert_by_date x r
  end.

Definition order_by_date_desc (l : list (FileRecord * string))
    : list (FileRecord * string) :=
  List.fold_right insert_by_date [] l.

(** The display fields; [toLocaleString] renders an instant in the
    server's locale. *)
Definition format_listed (toLocaleString : Z -> string)
    (row : FileRecord * string) : ListedFile :=
  let f := fst row in
  mkListed (file_id f) (file_name f) (file_type f) (file_size f)
    (upload_date f) (visibility f) (snd row) (uploader_id f)
    (toLocaleString (upload_date f))
    ("file-" ++ Js.show_Z (file_id f)).

Definition select_files (isAdminView : bool) (userId : Z)
    (userRole : option Role) (w : World) : list (FileRecord * string) :=
  if isAdminView && is_admin userRole then
    order_by_date_desc
      (List.map (fun f => (f, uploader_name (users w) f)) (files w))
  else
    order_by_date_desc
      (List.map (fun f => (f, "You"))
         (List.filter (fun f => owner_is f userId) (files w))
       ++ List.map (fun f => (f, uploader_name (users w) f))
            (List.filter (public_of_others userId) (files w)))%list.

(** The two SELECTs are the whole [try] block; a SELECT does not fail
    here, so the handler that logs [File List Error] is never entered. *)
Definition listFiles (toLocaleString : Z -> string) (c : Ctx)
    (isAdminView : bool) : M FileList :=
  userId <- getUserIdFromSession c ;;
  match truthy_id userId with
  | None => ret (mkList false (Some "Authentication required.") [])
  | Some userId =>
  userRole <- getUserRole userId ;;
  files <- gets (select_files isAdminView userId userRole) ;;
  ret (mkList true None (List.map (format_listed toLocaleString) files))
  end.

(** The listing shows file [f] as row [x]. *)
Definition shows (x : ListedFile) (f : FileRecord) : Prop :=
  lf_id x = file_id f /\ lf_name x = file_name f
  /\ lf_visibility x = visibility f /\ lf_uploader_id x = uploader_id f.

(** Rows in descending order of upload date. *)
Fixpoint dates_descend (l : list ListedFile) : Prop :=
  match l with
  | [] => True
  | x :: r =>
      Forall (fun y => lf_upload_date y <= lf_upload_date x) r
      /\ dates_descend r
  end.

(** ** Seeding, src/lib/db.ts *)

Definition set_settings (f : gmap string string -> gmap string string)
    (w : World) : World :=
  mkWorld (users w) (files w) (sessions w) (f (settings w)) (logs w)
    (notifications w) (disk w) (upload_dir w) (next_user_id w)
    (next_file_id w) (cookie_out w).

(** [INSERT INTO users ...]: name and address are UNIQUE; the new id is
    the AUTOINCREMENT counter. *)
Definition insert_user (name mail hash : string) (r : Role) (s : Status)
    : M Z :=
  fun w =>
    match List.find (fun u => String.eqb (username u) name) (users w),
          List.find (fun u => String.eqb (email u) mail) (users w) with
    | Some _, _ =>
        (Throw (Error "UNIQUE constraint failed: users.username"), w)
    | None, Some _ =>
        (Throw (Error "UNIQUE constraint failed: users.email"), w)
    | None, None =>
        let id := next_user_id w in
        (Ret id,
         set_next_user_id (id + 1)
           (set_users
              (fun l => (l ++ [mkUser id name mail hash r s])%list) w))
    end.

(** [INSERT OR IGNORE INTO settings]; the answer is [info.changes > 0]. *)
Definition insert_or_ignore_setting (kv : string * string) : M bool :=
  fun w =>
    match settings w !! fst kv with
    | Some _ => (Ret false, w)
    | None => (Ret true, set_settings (fun m => <[fst kv := snd kv]> m) w)
    end.

Definition settingsToSeed : list (string * string) :=
  [ ("fileSizeLimitMB", "10");
    ("storageQuotaMB", "500");
    ("allowedFileTypes",
     "jpg, jpeg, png, gif, webp, pdf, txt, doc, docx, xls, xlsx, ppt, pptx, zip, rar, 7z");
    ("maintenanceMode", "false");
    ("sessionTimeoutMinutes", "30");
    ("passwordMinLength", "1");
    ("passwordExpiryDays", "0") ].

(** [settingsToSeed.forEach(...)], counting the rows added. *)
Fixpoint seed_settings (l : list (string * string)) (count : Z) : M Z :=
  match l with
  | [] => ret count
  | kv :: r =>
      changed <- insert_or_ignore_setting kv ;;
      seed_settings r (if changed then count + 1 else count)
  end.

(** [seedData]; [c] gives the behaviour of the ledger at start-up, no
    field of a request is read.  The first step answers the id of the
    administrator, or nothing when seeding has to stop. *)
Definition seedData (c : Ctx) : M unit :=
  adminUser <- gets (fun w => find_user_by_name "AdminUser" (users w)) ;;
  adminId <-
    match adminUser with
    | Some u => ret (Some (user_id u))
    | None =>
        try_catch
          (let adminPasswordHash := hashPassword "adminpassword" in
           adminId <- insert_user "AdminUser" "admin@example.com"
                        adminPasswordHash RoleAdmin Active ;;
           try_catch
             (insert_log c
                (mkLog (Some adminId) "::1" "Initial Admin Seed"
                   "Admin user 'AdminUser' created during setup."
                   "system" (Some adminId)))
             (fun _ => ret tt) ;;;
           ret (Some adminId))
          (fun _ => ret None)
    end ;;
  match adminId with
  | None => ret tt
  | Some adminId =>
      settingsSeededCount <- seed_settings settingsToSeed 0 ;;
      if 0 <? settingsSeededCount then
        try_catch
          (insert_log c
             (mkLog (Some adminId) "::1" "Initial Settings Seed"
                (Js.show_Z settingsSeededCount
                 ++ " default system settings seeded/verified during setup.")
                "system" None))
          (fun _ => ret tt)
      else ret tt
  end.

(** [try { db.transaction(seedData)() } catch { ... }] at module load. *)
Definition seed_database (c : Ctx) : M unit :=
  try_catch (transaction (seedData c)) (fun _ => ret tt).

(** A database nothing was written to. *)
Definition fresh_database (w : World) : Prop :=
  users w = [] /\ next_user_id w = 1 /\ settings w = ∅.

(** The value a setting has after seeding. *)
Definition seeded_value (w : World) (k : string) : option string :=
  match settings w !! k with
  | Some v => Some v
  | None => snd <$> List.find (fun kv => String.eqb (fst kv) k) settingsToSeed
  end.

(** The settings table after [INSERT OR IGNORE] of the rows [l]. *)
Definition seed_map (l : list (string * string)) (m : gmap string string)
    : gmap string string :=
  fold_left (fun m kv => match m !! fst kv with
                         | Some _ => m
                         | None => <[fst kv := snd kv]> m
                         end) l m.

(** The account [seedData] creates, under id [id]. *)
Definition seeded_admin (id : Z) : User :=
  mkUser id "AdminUser" "admin@example.com" (hashPassword "adminpassword")
    RoleAdmin Active.

(** * Properties *)

(** ** The library models on known values *)

Example parseInt_10 : Js.parseInt10 "10" = Some 10.
Proof. reflexivity. Qed.
Example parseInt_trailing : Js.parseInt10 " 12px" = Some 12.
Proof. reflexivity. Qed.
Example parseInt_nan : Js.parseInt10 "abc" = None.
Proof. reflexivity. Qed.
Example parseInt_signed :
  (Js.parseInt10 "-5", Js.parseInt10 "+7", Js.parseInt10 "-", Js.parseInt10 "")
  = (Some (-5), Some 7, None, None).
Proof. reflexivity. Qed.
Example show_Z_42 : Js.show_Z 42 = "42".
Proof. reflexivity. Qed.
Example show_Z_0 : Js.show_Z 0 = "0".
Proof. reflexivity. Qed.
Example show_Z_100 : Js.show_Z 100 = "100".
Proof. reflexivity. Qed.
Example show_Z_neg : Js.show_Z (-7) = "-7".
Proof. reflexivity. Qed.

Example join_plain : Path.join ["uploads"; "a.txt"] = "uploads/a.txt".
Proof. reflexivity. Qed.
Example join_dotdot :
  Path.join ["uploads"; ".."; ".."; "etc"; "passwd"] = "../etc/passwd".
Proof. reflexivity. Qed.
Example resolve_plain :
  Path.resolve "/app" ["/app"; "uploads"] = "/app/uploads".
Proof. reflexivity. Qed.
Example resolve_climb :
  Path.resolve "/app" ["/app"; "../etc/passwd"] = "/etc/passwd".
Proof. reflexivity. Qed.
Example normalize_trailing : Path.normalize "a/./b/../c/" = "a/c/".
Proof. reflexivity. Qed.

Example sha256_constants :
  length Sha256.K = 64%nat
  /\ nth 0 Sha256.K 0 = 0x428a2f98
  /\ nth 63 Sha256.K 0 = 0xc67178f2
  /\ nth 0 Sha256.H0 0 = 0x6a09e667.
Proof. repeat split; reflexivity. Qed.

Example sha256_abc :
  hashPassword "abc"
  = "ba7816bf8f01cfea414140de5dae2223b00361a396177a9cb410ff61f20015ad".
Proof. vm_compute. reflexivity. Qed.

Example sha256_empty :
  hashPassword ""
  = "e3b0c44298fc1c149afbf4c8996fb92427ae41e4649b934ca495991b7852b855".
Proof. vm_compute. reflexivity. Qed.

Example sha256_two_blocks :
  hashPassword "abcdbcdecdefdefgefghfghighijhijkijkljklmklmnlmnomnopnopq"
  = "248d6a61d20638b8e5c026930c3e6039a33ce45964ff2167f6ecedd419db06c1".
Proof. vm_compute. reflexivity. Qed.

Example extname_cases :
  (Str.extname "a.b.TXT", Str.extname ".bashrc", Str.extname "..",
   Str.extname "a.", Str.extname "x/y.z/")
  = (".TXT", "", "", ".", ".z").
Proof. reflexivity. Qed.

Example allowed_extensions_normalized :
  allowed_extensions "jpg, .PNG,, pdf " = ["jpg"; "png"; "pdf"].
Proof. reflexivity. Qed.

(** ** Basic facts about the monad and the primitives *)

Ltac run :=
  cbn [negb andb orb Status_eqb Role_eqb Visibility_eqb];
  cbv beta iota zeta delta
    [bind ret throw gets modify try_catch transaction lift];
  cbn [negb andb orb fst snd Status_eqb Role_eqb Visibility_eqb].

Lemma insert_log_healthy c e w :
  ledger_healthy c ->
  insert_log c e w = (Ret tt, set_logs (fun l => (l ++ [e])%list) w).
Proof. intros H. unfold insert_log. now rewrite H. Qed.

Lemma nonempty_true s : s <> "" -> Str.nonempty s = true.
Proof. destruct s; [congruence | reflexivity]. Qed.

Lemma truthy_Some s : s <> "" -> Js.truthy (Some s) = true.
Proof. destruct s; [congruence | reflexivity]. Qed.

(** ** Credential manager *)

Lemma hashPassword_length p : String.length (hashPassword p) = 64%nat.
Proof.
  unfold hashPassword, Sha256.digest_hex.
  destruct (Sha256.blocks _ _ _) as [[[[[[[a b] c] d] e] f] g] h].
  reflexivity.
Qed.

Lemma verifyPassword_well_formed p d :
  String.length d = 64%nat ->
  verifyPassword p d = Ret (String.eqb (hashPassword p) d).
Proof.
  intros H. unfold verifyPassword, timingSafeEqual.
  rewrite hashPassword_length, H. reflexivity.
Qed.

Lemma verifyPassword_hash p : verifyPassword p (hashPassword p) = Ret true.
Proof.
  rewrite verifyPassword_well_formed by apply hashPassword_length.
  now rewrite String.eqb_refl.
Qed.

Lemma verifyPassword_mismatch p d :
  String.length d = 64%nat -> d <> hashPassword p ->
  verifyPassword p d = Ret false.
Proof.
  intros H Hne. rewrite verifyPassword_well_formed by exact H.
  f_equal. apply String.eqb_neq. congruence.
Qed.

(** C4: a digest that is not 64 bytes long makes [verifyPassword] throw
    the RangeError of [crypto.timingSafeEqual] instead of returning
    false. *)
Theorem verifyPassword_wrong_length_throws p d :
  String.length d <> 64%nat ->
  verifyPassword p d =
    Throw (Error "Input buffers must have the same byte length").
Proof.
  intros H. unfold verifyPassword, timingSafeEqual.
  rewrite hashPassword_length.
  destruct (Nat.eqb_spec 64 (String.length d)); [congruence | reflexivity].
Qed.

Lemma verifyPassword_wrong_length_throws_witness :
  verifyPassword "adminpassword" "abc" =
    Throw (Error "Input buffers must have the same byte length").
Proof.
  apply (verifyPassword_wrong_length_throws "adminpassword" "abc").
  vm_compute. discriminate.
Defined.

(** ** Session registry *)

(** C5: once the instant of the request is past the expiry of a session,
    [verifySession] answers null and deletes the row, and any later
    resolution of the same token answers null as well. *)
Theorem verifySession_lazy_expiry c c' w sid s :
  sid <> "" ->
  sessions w !! sid = Some s ->
  expires_at s < now c ->
  let w1 := snd (verifySession c sid w) in
  let w2 := snd (verifySession c' sid w1) in
  fst (verifySession c sid w) = Ret None
  /\ sessions w1 !! sid = None
  /\ fst (verifySession c' sid w1) = Ret None
  /\ sessions w2 !! sid = None.
Proof.
  intros Hsid Hs Hexp.
  assert (E1 : verifySession c sid w
               = (Ret None, set_sessions (fun m => delete sid m) w)).
  { unfold verifySession. rewrite (nonempty_true _ Hsid). run.
    rewrite Hs. run.
    destruct (Z.ltb_spec (expires_at s) (now c)); [reflexivity | lia]. }
  assert (E2 : verifySession c' sid (set_sessions (fun m => delete sid m) w)
               = (Ret None, set_sessions (fun m => delete sid m) w)).
  { unfold verifySession. rewrite (nonempty_true _ Hsid). run.
    cbn [sessions set_sessions]. now rewrite lookup_delete_eq. }
  cbv zeta. rewrite E1. cbn [fst snd]. rewrite E2. cbn [fst snd sessions set_sessions].
  rewrite lookup_delete_eq. auto.
Qed.

Lemma verifySession_lazy_expiry_witness :
  let c := Scenario.request "s-alice" 1000 in
  let c' := Scenario.request "s-alice" 100 in
  let w1 := snd (verifySession c "s-old" (Scenario.world "false")) in
  let w2 := snd (verifySession c' "s-old" w1) in
  fst (verifySession c "s-old" (Scenario.world "false")) = Ret None
  /\ sessions w1 !! "s-old" = None
  /\ fst (verifySession c' "s-old" w1) = Ret None
  /\ sessions w2 !! "s-old" = None.
Proof.
  apply (verifySession_lazy_expiry _ _ _ "s-old"
           (mkSession 2 500 0 0 "::1" "curl/8")).
  - discriminate.
  - vm_compute. reflexivity.
  - vm_compute. reflexivity.
Defined.

(** ** File byte server *)

Lemma prefix_app_l a b s :
  String.prefix (a ++ b) s = true -> String.prefix a s = true.
Proof.
  revert s. induction a as [|x a IH]; intros s H; [now destruct s |].
  change (String x a ++ b) with (String x (a ++ b)) in H.
  destruct s as [|y s]; cbn in *; [discriminate |].
  destruct (ascii_dec x y); [auto | discriminate].
Qed.

Lemma prefix_refl s : String.prefix s s = true.
Proof.
  induction s as [|x s IH]; cbn; [reflexivity |].
  destruct (ascii_dec x x); [exact IH | congruence].
Qed.

(** The prefix test of the route lets through every path under the
    root: what it refuses is outside. *)
Lemma under_startsWith root p :
  Path.under root p = true -> Path.startsWith p root = true.
Proof.
  unfold Path.under, Path.startsWith. intros H.
  apply orb_true_iff in H as [H | H].
  - apply String.eqb_eq in H. subst. apply prefix_refl.
  - eapply prefix_app_l, H.
Qed.

Lemma actor_session c w uid :
  actor c w = Some uid ->
  truthy_id
    (if Js.truthy (cookie_session_id c)
     then match sessions w !! default "" (cookie_session_id c) with
          | Some s =>
              if later_than_current_timestamp (expires_at s) (now c)
              then Some (session_user_id s) else None
          | None => None
          end
     else None) = Some uid.
Proof. intros H. exact H. Qed.

Lemma actor_None_session c w :
  actor c w = None ->
  truthy_id
    (if Js.truthy (cookie_session_id c)
     then match sessions w !! default "" (cookie_session_id c) with
          | Some s =>
              if later_than_current_timestamp (expires_at s) (now c)
              then Some (session_user_id s) else None
          | None => None
          end
     else None) = None.
Proof. intros H. exact H. Qed.

(** What the route does refuse: a request whose resolved path fails the
    prefix test gets 403, one [security] row, and no look-up of files. *)
Lemma GET_prefix_test_fails c w filepath preview uid :
  ledger_healthy c ->
  actor c w = Some uid ->
  Path.startsWith (resolvedPath_of c filepath) (uploadDirResolved_of c)
    = false ->
  GET c filepath preview w
  = (Ret (text_response "Forbidden" 403),
     set_logs (fun l => (l ++ [traversal_entry c uid filepath])%list) w).
Proof.
  intros Hl Ha Hp. apply actor_session in Ha.
  unfold GET, validateSessionAndGetUserId, getUserIdFromSession. run.
  rewrite Ha.
  unfold resolvedPath_of, uploadDirResolved_of, relativePath_of in Hp.
  rewrite Hp. run. rewrite insert_log_healthy by exact Hl. reflexivity.
Qed.

(** Whoever may read a file is not refused. *)
Lemma may_read_not_refused f uid w :
  may_read f uid w ->
  read_refused f uid (role <$> find_user uid (users w)) = false.
Proof.
  unfold read_refused, may_read, role_of, owner_is, is_admin.
  destruct (visibility f), (uploader_id f) as [o|],
    (role <$> find_user uid (users w)) as [[|]|];
    try destruct (Z.eqb_spec o uid); subst; cbn;
    (intros [H | [H | H]]; congruence).
Qed.

(** For a row that holds one of the two values the application means,
    the refusal is exactly the negation of the policy. *)
Lemma read_refused_spec f uid w :
  visibility f = Private \/ visibility f = Public ->
  read_refused f uid (role <$> find_user uid (users w)) = false
  <-> may_read f uid w.
Proof.
  intros Hv. split; [| apply may_read_not_refused].
  unfold read_refused, may_read, role_of, owner_is, is_admin.
  destruct Hv as [-> | ->]; destruct (uploader_id f) as [o|],
    (role <$> find_user uid (users w)) as [[|]|];
    try destruct (Z.eqb_spec o uid); subst; cbn;
    intros H; try discriminate; auto.
Qed.

(** A row that holds any other text is refused to nobody: the test is
    [visibility === 'private']. *)
Lemma other_visibility_not_refused f uid r text :
  visibility f = OtherVisibility text -> read_refused f uid r = false.
Proof. unfold read_refused. now intros ->. Qed.

(** For an authenticated actor and a file that exists (its row is found
    at the requested path under the upload root and its bytes are on
    disk) whose visibility is one of [private] and [public], the byte
    server answers 200 exactly when the file is public, or the actor
    owns it, or the actor is an administrator; otherwise it answers 403
    and appends one row of category [security]. *)
Lemma GET_read_iff_permitted c w filepath preview uid f bytes :
  ledger_healthy c ->
  actor c w = Some uid ->
  Path.under (uploadDirResolved_of c) (resolvedPath_of c filepath) = true ->
  find_file_by_path (relativePath_of filepath) (files w) = Some f ->
  disk w !! Path.resolve (cwd c) [cwd c; file_path f] = Some bytes ->
  visibility f = Private \/ visibility f = Public ->
  exists resp,
    fst (GET c filepath preview w) = Ret resp
    /\ (resp_status resp = 200 <-> may_read f uid w)
    /\ (may_read f uid w -> resp_body resp = bytes)
    /\ (~ may_read f uid w ->
        resp_status resp = 403
        /\ logs (snd (GET c filepath preview w))
           = (logs w ++ [denied_entry c uid f])%list
        /\ log_type (denied_entry c uid f) = "security").
Proof.
  intros Hl Ha Hu Hf Hd Hv. apply actor_session in Ha.
  apply under_startsWith in Hu.
  unfold resolvedPath_of, uploadDirResolved_of, relativePath_of in *.
  unfold GET, validateSessionAndGetUserId, getUserIdFromSession, getUserRole.
  run. rewrite Ha, Hu. run. rewrite Hf.
  destruct (read_refused f uid (role <$> find_user uid (users w))) eqn:E.
  - assert (Hno : ~ may_read f uid w).
    { intros H. apply may_read_not_refused in H. congruence. }
    rewrite insert_log_healthy by exact Hl. run.
    eexists. split; [reflexivity |]. cbn [resp_status text_response].
    split; [split; [discriminate | contradiction] |].
    split; [contradiction |]. intros _. repeat split.
  - apply (read_refused_spec _ _ _ Hv) in E. rewrite Hd.
    rewrite insert_log_healthy by exact Hl. run.
    eexists. split; [reflexivity |]. cbn [resp_status resp_body].
    split; [split; auto |]. split; [reflexivity | contradiction].
Qed.

Example GET_owner_admin_served :
  let c := Scenario.request "s-root" 1000 in
  let w := Scenario.world "false" in
  may_read Scenario.report 1 w
  /\ (resp_status
        <$> (match fst (GET c ["100-aa-report.pdf"] (Some "true") w) with
             | Ret r => Some r
             | Throw _ => None
             end)) = Some 200.
Proof. split; [right; right |]; vm_compute; reflexivity. Qed.

Example GET_stranger_refused :
  let c := Scenario.request "s-alice" 1000 in
  let w := set_files (fun _ => [mkFile 7 "report.pdf" "application/pdf" 3
                                  100 (Some 1) Private
                                  "uploads/100-aa-report.pdf"])
             (Scenario.world "false") in
  fst (GET c ["100-aa-report.pdf"] None w)
  = Ret (text_response "Forbidden" 403).
Proof. vm_compute. reflexivity. Qed.

(** C2: the read check of the byte server refuses only the exact text
    [private].  [uploadFile] stores the visibility the form sends without
    applying [FileUploadSchema], so a row can hold a text that is
    neither [private] nor [public], such as [Private]; such a file is
    served, status 200 with its bytes and a ledger row of category
    [file], to an authenticated actor who neither owns it nor is an
    administrator, although it is not public: the read succeeds where
    the policy denies it. *)
Theorem GET_serves_unlisted_visibility c w filepath preview uid f bytes
    text :
  ledger_healthy c ->
  actor c w = Some uid ->
  Path.under (uploadDirResolved_of c) (resolvedPath_of c filepath) = true ->
  find_file_by_path (relativePath_of filepath) (files w) = Some f ->
  disk w !! Path.resolve (cwd c) [cwd c; file_path f] = Some bytes ->
  visibility f = OtherVisibility text ->
  text <> "private" ->
  text <> "public" ->
  uploader_id f <> Some uid ->
  role_of uid w <> Some RoleAdmin ->
  ~ may_read f uid w
  /\ exists resp e,
       GET c filepath preview w
       = (Ret resp, set_logs (fun l => (l ++ [e])%list) w)
       /\ resp_status resp = 200
       /\ resp_body resp = bytes
       /\ log_type e = "file".
Proof.
  intros Hl Ha Hu Hf Hd Hv _ _ Hown Hrole. split.
  { unfold may_read. rewrite Hv. intros [H | [H | H]];
      [discriminate H | contradiction | contradiction]. }
  apply actor_session in Ha. apply under_startsWith in Hu.
  unfold resolvedPath_of, uploadDirResolved_of, relativePath_of in *.
  unfold GET, validateSessionAndGetUserId, getUserIdFromSession, getUserRole.
  run. rewrite Ha, Hu. run. rewrite Hf.
  rewrite (other_visibility_not_refused _ _ _ _ Hv), Hd.
  rewrite insert_log_healthy by exact Hl.
  do 2 eexists. split; [reflexivity |]. repeat split.
Qed.

Lemma GET_serves_unlisted_visibility_witness :
  let upload := Scenario.request "s-root" 1000 in
  let form :=
    mkForm (Some Scenario.note) (Some (OtherVisibility "Private")) in
  let w := snd (uploadFile upload form (Scenario.world "false")) in
  let c := Scenario.request "s-alice" 2000 in
  let f :=
    mkFile 8 "note.txt" "text/plain" 5 1000 (Some 1)
      (OtherVisibility "Private") "uploads/1000-c0ffee-note.txt" in
  fst (uploadFile upload form (Scenario.world "false"))
  = Ret (Success "File uploaded successfully.")
  /\ ~ may_read f 2 w
  /\ exists resp e,
       GET c ["1000-c0ffee-note.txt"] None w
       = (Ret resp, set_logs (fun l => (l ++ [e])%list) w)
       /\ resp_status resp = 200
       /\ resp_body resp = "hello"
       /\ log_type e = "file".
Proof.
  split; [vm_compute; reflexivity |].
  apply (GET_serves_unlisted_visibility (Scenario.request "s-alice" 2000)
           (snd (uploadFile (Scenario.request "s-root" 1000)
                   (mkForm (Some Scenario.note)
                      (Some (OtherVisibility "Private")))
                   (Scenario.world "false")))
           ["1000-c0ffee-note.txt"] None 2
           (mkFile 8 "note.txt" "text/plain" 5 1000 (Some 1)
              (OtherVisibility "Private") "uploads/1000-c0ffee-note.txt")
           "hello" "Private").
  - intros e. reflexivity.
  - vm_compute. reflexivity.
  - vm_compute. reflexivity.
  - vm_compute. reflexivity.
  - vm_compute. reflexivity.
  - reflexivity.
  - discriminate.
  - discriminate.
  - discriminate.
  - vm_compute. discriminate.
Defined.

(** The same decision guards the download action. *)
Lemma getDownloadFileInfo_iff_permitted c w fileId uid f bytes :
  ledger_healthy c ->
  actor c w = Some uid ->
  find_file fileId (files w) = Some f ->
  disk w !! Path.resolve (cwd c) [cwd c; file_path f] = Some bytes ->
  visibility f = Private \/ visibility f = Public ->
  (exists info, fst (getDownloadFileInfo c fileId w) = Ret (Success info))
  <-> may_read f uid w.
Proof.
  intros Hl Ha Hf Hd Hv. apply actor_session in Ha.
  unfold getDownloadFileInfo, getUserIdFromSession, getUserRole.
  run. rewrite Ha. run. rewrite Hf.
  destruct (read_refused f uid (role <$> find_user uid (users w))) eqn:E.
  - rewrite insert_log_healthy by exact Hl. run. split.
    + intros [info H]. discriminate.
    + intros H. apply may_read_not_refused in H. congruence.
  - rewrite Hd. rewrite insert_log_healthy by exact Hl. run. split.
    + intros _. now apply (read_refused_spec _ _ _ Hv).
    + intros _. eexists. reflexivity.
Qed.

(** And the preview action. *)
Lemma getPreviewFileInfo_iff_permitted c w fileId uid f bytes :
  ledger_healthy c ->
  actor c w = Some uid ->
  find_file fileId (files w) = Some f ->
  disk w !! Path.resolve (cwd c) [cwd c; file_path f] = Some bytes ->
  visibility f = Private \/ visibility f = Public ->
  (exists info, fst (getPreviewFileInfo c fileId w) = Ret (Success info))
  <-> may_read f uid w.
Proof.
  intros Hl Ha Hf Hd Hv. apply actor_session in Ha.
  unfold getPreviewFileInfo, getUserIdFromSession, getUserRole.
  run. rewrite Ha. run. rewrite Hf.
  destruct (read_refused f uid (role <$> find_user uid (users w))) eqn:E.
  - rewrite insert_log_healthy by exact Hl. run. split.
    + intros [info H]. discriminate.
    + intros H. apply may_read_not_refused in H. congruence.
  - rewrite Hd. run. split.
    + intros _. now apply (read_refused_spec _ _ _ Hv).
    + intros _. eexists. reflexivity.
Qed.

(** C1: a request below [/app] whose path joins to [uploads-evil/x]
    (as [../uploads-evil/x] does) resolves to [/app/uploads-evil/x],
    outside the upload root [/app/uploads], yet it passes the prefix test
    of the route: the answer is 404 with a row of category [file], not
    403 with a [security] row. *)
Theorem GET_sibling_of_upload_root_not_forbidden c w filepath preview uid :
  cwd c = "/app" ->
  relativePath_of filepath = "uploads-evil/x" ->
  ledger_healthy c ->
  actor c w = Some uid ->
  find_file_by_path "uploads-evil/x" (files w) = None ->
  outside_upload_root c filepath
  /\ GET c filepath preview w
     = (Ret (text_response "File not found" 404),
        set_logs (fun l => (l ++ [not_found_entry c uid filepath])%list) w)
  /\ log_type (not_found_entry c uid filepath) = "file".
Proof.
  intros Hc Hrel Hl Ha Hf. apply actor_session in Ha.
  split; [| split; [| reflexivity]].
  - unfold outside_upload_root, uploadDirResolved_of, resolvedPath_of.
    rewrite Hc, Hrel. vm_compute. reflexivity.
  - unfold not_found_entry.
    unfold GET, validateSessionAndGetUserId, getUserIdFromSession. run.
    rewrite Ha, Hc.
    change (Path.join ("uploads" :: filepath))
      with (relativePath_of filepath).
    rewrite Hrel.
    change (Path.startsWith
              (Path.resolve "/app" ["/app"; Path.normalize "uploads-evil/x"])
              (Path.resolve "/app" ["/app"; "uploads"])) with true.
    run. rewrite Hf. rewrite insert_log_healthy by exact Hl. reflexivity.
Qed.

Lemma GET_sibling_of_upload_root_not_forbidden_witness :
  let c := Scenario.request "s-alice" 1000 in
  let w := Scenario.world "false" in
  let filepath := [".."; "uploads-evil"; "x"] in
  outside_upload_root c filepath
  /\ GET c filepath None w
     = (Ret (text_response "File not found" 404),
        set_logs (fun l => (l ++ [not_found_entry c 2 filepath])%list) w)
  /\ log_type (not_found_entry c 2 filepath) = "file".
Proof.
  apply (GET_sibling_of_upload_root_not_forbidden
           (Scenario.request "s-alice" 1000) (Scenario.world "false")
           [".."; "uploads-evil"; "x"] None 2).
  - reflexivity.
  - reflexivity.
  - intros e. reflexivity.
  - vm_compute. reflexivity.
  - vm_compute. reflexivity.
Defined.

(** One segment holding encoded separators joins to the same path. *)
Example relativePath_encoded_slashes :
  relativePath_of ["../uploads-evil/x"] = "uploads-evil/x".
Proof. reflexivity. Qed.

(** A path that leaves the root by its first segments is refused. *)
Example GET_refuses_parent :
  fst (GET (Scenario.request "s-alice" 1000) [".."; "database"; "x.db"] None
         (Scenario.world "false"))
  = Ret (text_response "Forbidden" 403).
Proof. vm_compute. reflexivity. Qed.

(** Bytes stored beside the upload root are served like any upload when
    a row points at them. *)
Example GET_serves_sibling_directory :
  let c := Scenario.request "s-alice" 1000 in
  let w :=
    set_disk (fun d => <["/app/uploads-evil/x" := "secret"]> d)
      (set_files
         (fun l => (l ++ [mkFile 9 "x" "text/plain" 6 0 (Some 2) Private
                            "uploads-evil/x"])%list)
         (Scenario.world "false")) in
  outside_upload_root c [".."; "uploads-evil"; "x"]
  /\ resp_status <$> (match fst (GET c [".."; "uploads-evil"; "x"] None w)
                      with Ret r => Some r | Throw _ => None end)
     = Some 200.
Proof. vm_compute. split; reflexivity. Qed.

(** ** File store: deletion and the ledger *)

Lemma find_some_count {A} (p : A -> bool) l x :
  List.find p l = Some x ->
  (Z.of_nat (length (List.filter p l)) =? 0) = false.
Proof.
  induction l as [|a l IH]; cbn; [discriminate |].
  destruct (p a); cbn [length]; intros H; [| auto].
  apply Z.eqb_neq. lia.
Qed.

Lemma find_filter_negb {A} (p : A -> bool) l :
  List.find p (List.filter (fun a => negb (p a)) l) = None.
Proof.
  induction l as [|a l IH]; cbn; [reflexivity |].
  destruct (p a) eqn:E; cbn; [exact IH |]. now rewrite E.
Qed.

Lemma find_file_id fileId l f :
  find_file fileId l = Some f -> file_id f = fileId.
Proof.
  unfold find_file. intros H. apply List.find_some in H as [_ H].
  now apply Z.eqb_eq.
Qed.

Lemma may_change_spec f uid w :
  may_change f uid w ->
  negb (owner_is f uid) && negb (is_admin (role <$> find_user uid (users w)))
  = false.
Proof.
  unfold may_change, role_of, owner_is. intros [H | H]; rewrite H; cbn.
  - now rewrite Z.eqb_refl.
  - apply andb_false_r.
Qed.

Ltac split_match :=
  match goal with
  | |- context [match ?x with _ => _ end] =>
      lazymatch x with
      | context [match _ with _ => _ end] => fail
      | _ => destruct x eqn:?
      end
  end.

(** C3, as the code has it: once the actor is allowed to delete, the
    row of the file is gone whatever the ledger does (nothing is rolled
    back); with a working ledger the caller is told of the success; when
    the ledger refuses the row that records the deletion, the caller is
    told [Failed to delete file.], or gets the error itself when the
    ledger refuses the error row too. *)
Theorem deleteFile_commits_before_ledger c w fileId uid f :
  actor c w = Some uid ->
  find_file fileId (files w) = Some f ->
  may_change f uid w ->
  files (snd (deleteFile c fileId w))
  = List.filter (fun g => negb (file_id g =? fileId)) (files w)
  /\ find_file fileId (files (snd (deleteFile c fileId w))) = None
  /\ (ledger_healthy c ->
      fst (deleteFile c fileId w)
      = Ret (Success "File deleted successfully."))
  /\ (ledger_fault c (deletion_entry c uid f) <> None ->
      fst (deleteFile c fileId w) = Ret (Failure "Failed to delete file.")
      \/ exists e, fst (deleteFile c fileId w) = Throw e).
Proof.
  intros Ha Hf Hm. apply actor_session in Ha.
  pose proof (find_file_id _ _ _ Hf) as Hid.
  pose proof (find_some_count _ _ _ Hf) as Hcount.
  apply may_change_spec in Hm.
  assert (Hfiles :
    files (snd (deleteFile c fileId w))
    = List.filter (fun g => negb (file_id g =? fileId)) (files w)
    /\ (ledger_healthy c ->
        fst (deleteFile c fileId w)
        = Ret (Success "File deleted successfully."))
    /\ (ledger_fault c (deletion_entry c uid f) <> None ->
        fst (deleteFile c fileId w) = Ret (Failure "Failed to delete file.")
        \/ exists e, fst (deleteFile c fileId w) = Throw e)).
  { unfold deletion_entry. rewrite Hid.
    unfold deleteFile, getUserIdFromSession, getUserRole, delete_file_row,
      unlink, insert_log.
    run. rewrite Ha. run. rewrite Hf, Hm. run.
    cbv beta iota zeta delta [find_file] in Hcount. rewrite Hcount.
    repeat (split_match; run);
      cbn [files set_files set_logs set_disk fst snd];
      (split; [reflexivity |]); split;
      try (intros Hl;
           repeat match goal with
                  | H : ledger_fault c _ = Some _ |- _ =>
                      rewrite Hl in H; discriminate
                  end; reflexivity);
      intros Hne; try congruence; eauto. }
  destruct Hfiles as (H1 & H2 & H3).
  split; [exact H1 |]. split; [| split; assumption].
  rewrite H1. apply (find_filter_negb (fun g => file_id g =? fileId)).
Qed.

Lemma deleteFile_commits_before_ledger_witness :
  let c := Scenario.request_ledger_refusing "File Deletion" "s-alice" 1000 in
  let w := Scenario.world "false" in
  files (snd (deleteFile c 7 w))
  = List.filter (fun g => negb (file_id g =? 7)) (files w)
  /\ find_file 7 (files (snd (deleteFile c 7 w))) = None
  /\ (ledger_healthy c ->
      fst (deleteFile c 7 w) = Ret (Success "File deleted successfully."))
  /\ (ledger_fault c (deletion_entry c 2 Scenario.report) <> None ->
      fst (deleteFile c 7 w) = Ret (Failure "Failed to delete file.")
      \/ exists e, fst (deleteFile c 7 w) = Throw e).
Proof.
  apply (deleteFile_commits_before_ledger
           (Scenario.request_ledger_refusing "File Deletion" "s-alice" 1000)
           (Scenario.world "false") 7 2 Scenario.report).
  - vm_compute. reflexivity.
  - vm_compute. reflexivity.
  - left. reflexivity.
Defined.

(** C3, as stated, fails: the same deletion by the same owner succeeds
    with a working ledger and is reported as failed when the ledger
    refuses the row that records it, although the file row is gone. *)
Lemma deleteFile_ledger_failure_is_reported :
  let w := Scenario.world "false" in
  let ok := Scenario.request "s-alice" 1000 in
  let bad :=
    Scenario.request_ledger_refusing "File Deletion" "s-alice" 1000 in
  fst (deleteFile ok 7 w) = Ret (Success "File deleted successfully.")
  /\ fst (deleteFile bad 7 w) = Ret (Failure "Failed to delete file.")
  /\ find_file 7 (files (snd (deleteFile bad 7 w))) = None.
Proof. vm_compute. repeat split; reflexivity. Qed.

(** ** File store: upload *)

(** C7: an authenticated upload whose size exceeds the limit read from
    [fileSizeLimitMB] is answered with the size error; no file row is
    made, nothing is written to disk, and the ledger is not touched. *)
Theorem uploadFile_too_large c w formData file uid limit :
  upload_dir w = DirPresent \/ upload_dir w = DirAbsent true ->
  actor c w = Some uid ->
  form_file formData = Some file ->
  size_limit_bytes w = Some limit ->
  limit < up_size file ->
  fst (uploadFile c formData w)
  = Ret (Failure
           (too_large_message
              (Js.parseInt10 (default "10" (settings w !! "fileSizeLimitMB")))))
  /\ files (snd (uploadFile c formData w)) = files w
  /\ disk (snd (uploadFile c formData w)) = disk w
  /\ logs (snd (uploadFile c formData w)) = logs w.
Proof.
  intros Hd Ha Hfile Hlim Hgt.
  unfold size_limit_bytes in Hlim.
  assert (Hbig :
    Js.gt_nan (up_size file)
      ((fun m => m * 1024 * 1024)
         <$> Js.parseInt10 (default "10" (settings w !! "fileSizeLimitMB")))
    = true).
  { rewrite Hlim. cbn. now apply Z.ltb_lt. }
  unfold uploadFile, ensureUploadDir, getUserIdFromSession, getSetting.
  run. destruct Hd as [Hd | Hd]; rewrite Hd; run;
    cbn [sessions settings set_upload_dir];
    rewrite (actor_session _ _ _ Ha); rewrite Hfile; run;
    cbn [sessions settings set_upload_dir];
    rewrite Hbig; cbn [fst snd files disk logs set_upload_dir]; auto.
Qed.

Lemma uploadFile_too_large_witness :
  let c := Scenario.request "s-alice" 1000 in
  let w := Scenario.world "false" in
  let formData := mkForm (Some Scenario.big) (Some Public) in
  fst (uploadFile c formData w)
  = Ret (Failure
           (too_large_message
              (Js.parseInt10 (default "10" (settings w !! "fileSizeLimitMB")))))
  /\ files (snd (uploadFile c formData w)) = files w
  /\ disk (snd (uploadFile c formData w)) = disk w
  /\ logs (snd (uploadFile c formData w)) = logs w.
Proof.
  apply (uploadFile_too_large (Scenario.request "s-alice" 1000)
           (Scenario.world "false")
           (mkForm (Some Scenario.big) (Some Public)) Scenario.big 2
           1048576).
  - left. reflexivity.
  - vm_compute. reflexivity.
  - reflexivity.
  - vm_compute. reflexivity.
  - vm_compute. reflexivity.
Defined.

Example too_large_message_1 :
  too_large_message (Some 1) = "File size exceeds the limit of 1 MB.".
Proof. reflexivity. Qed.

(** ** File store: visibility *)

Lemma with_visibility_same f : with_visibility (visibility f) f = f.
Proof. now destruct f. Qed.

Lemma Visibility_eqb_eq a b : Visibility_eqb a b = true <-> a = b.
Proof.
  destruct a as [| |s], b as [| |t]; cbn; try (split; congruence).
  rewrite String.eqb_eq. split; congruence.
Qed.

Lemma Visibility_eqb_refl a : Visibility_eqb a a = true.
Proof. now apply Visibility_eqb_eq. Qed.

(** Updating the rows with one id: the first of them is the one found. *)
Lemma find_file_update fileId g l f :
  (forall x, file_id (g x) = file_id x) ->
  find_file fileId l = Some f ->
  find_file fileId
    (List.map (fun x => if file_id x =? fileId then g x else x) l)
  = Some (g f).
Proof.
  intros Hg. unfold find_file.
  induction l as [|a l IH]; cbn; [discriminate |].
  destruct (file_id a =? fileId) eqn:E.
  - intros [= <-]. cbn. now rewrite Hg, E.
  - intros H. cbn. rewrite E. auto.
Qed.

(** Under the primary key, the row found is the only one with its id. *)
Lemma files_key_unique l fileId f x :
  NoDup (List.map file_id l) ->
  find_file fileId l = Some f ->
  In x l -> file_id x = fileId -> x = f.
Proof.
  unfold find_file. induction l as [|a l IH]; cbn; [contradiction |].
  intros Hnd Hf Hin Hid. inversion Hnd as [|? ? Hnot Hnd']; subst.
  destruct (file_id a =? file_id x) eqn:E.
  - injection Hf as <-. destruct Hin as [-> | Hin]; [reflexivity |].
    apply Z.eqb_eq in E. exfalso. apply Hnot. rewrite E.
    now apply list_elem_of_In, in_map.
  - destruct Hin as [-> | Hin]; [now rewrite Z.eqb_refl in E | eauto].
Qed.

Lemma toggle_back_files l fileId f :
  NoDup (List.map file_id l) ->
  find_file fileId l = Some f ->
  List.map
    (fun x => if file_id x =? fileId
              then with_visibility (visibility f) x else x)
    (List.map
       (fun x => if file_id x =? fileId
                 then with_visibility Public x else x) l)
  = l.
Proof.
  intros Hnd Hf. rewrite List.map_map.
  rewrite <- (List.map_id l) at 2. apply List.map_ext_in.
  intros x Hin. destruct (file_id x =? fileId) eqn:E; cbn.
  - rewrite E. apply Z.eqb_eq in E.
    rewrite (files_key_unique _ _ _ _ Hnd Hf Hin E).
    now destruct f.
  - now rewrite E.
Qed.

Lemma toggle_same c w fileId uid f :
  actor c w = Some uid ->
  find_file fileId (files w) = Some f ->
  may_change f uid w ->
  toggleFileVisibility c fileId (visibility f) w
  = (Ret (Success "Visibility already set."), w).
Proof.
  intros Ha Hf Hm. apply actor_session in Ha. apply may_change_spec in Hm.
  unfold toggleFileVisibility, getUserIdFromSession, getUserRole.
  run. rewrite Ha. run. rewrite Hf, Hm. run.
  now rewrite Visibility_eqb_refl.
Qed.

Lemma toggle_change c w fileId uid f v :
  ledger_healthy c ->
  actor c w = Some uid ->
  find_file fileId (files w) = Some f ->
  may_change f uid w ->
  visibility f <> v ->
  toggleFileVisibility c fileId v w
  = (Ret (Success ("File visibility changed to " ++ show_Visibility v
                   ++ ".")),
     set_logs (fun l => (l ++ [visibility_entry c uid f v])%list)
       (set_files
          (List.map (fun x => if file_id x =? fileId
                              then with_visibility v x else x)) w)).
Proof.
  intros Hl Ha Hf Hm Hv. apply actor_session in Ha.
  apply may_change_spec in Hm.
  pose proof (find_file_id _ _ _ Hf) as Hid.
  unfold toggleFileVisibility, getUserIdFromSession, getUserRole.
  run. rewrite Ha. run. rewrite Hf, Hm. run.
  destruct (Visibility_eqb (visibility f) v) eqn:E.
  { apply Visibility_eqb_eq in E. contradiction. }
  rewrite insert_log_healthy by exact Hl.
  unfold visibility_entry. now rewrite Hid.
Qed.

(** C8: for an actor allowed to change the file, asking for the
    visibility the file already has succeeds and leaves the world as it
    was (no ledger row); making a private file public and private again
    gives back the original row, the original table under the primary
    key, and exactly two more ledger rows. *)
Theorem toggleFileVisibility_same_and_twice c1 c2 w fileId uid1 uid2 f :
  find_file fileId (files w) = Some f ->
  actor c1 w = Some uid1 -> may_change f uid1 w ->
  actor c2 w = Some uid2 -> may_change f uid2 w ->
  toggleFileVisibility c1 fileId (visibility f) w
  = (Ret (Success "Visibility already set."), w)
  /\ (visibility f = Private ->
      ledger_healthy c1 -> ledger_healthy c2 ->
      let w1 := snd (toggleFileVisibility c1 fileId Public w) in
      let w2 := snd (toggleFileVisibility c2 fileId Private w1) in
      fst (toggleFileVisibility c1 fileId Public w)
      = Ret (Success "File visibility changed to public.")
      /\ fst (toggleFileVisibility c2 fileId Private w1)
         = Ret (Success "File visibility changed to private.")
      /\ find_file fileId (files w2) = Some f
      /\ (files_key w -> files w2 = files w)
      /\ logs w2
         = (logs w
            ++ [visibility_entry c1 uid1 f Public;
                visibility_entry c2 uid2 (with_visibility Public f)
                  Private])%list).
Proof.
  intros Hf Ha1 Hm1 Ha2 Hm2.
  split; [eapply toggle_same; eauto |].
  intros Hv Hl1 Hl2.
  assert (Hne : visibility f <> Public) by congruence.
  rewrite (toggle_change c1 w fileId uid1 f Public Hl1 Ha1 Hf Hm1 Hne).
  cbv zeta. cbn [fst snd].
  set (w1 := set_logs _ _).
  assert (Hf1 : find_file fileId (files w1)
                = Some (with_visibility Public f)).
  { subst w1. cbn [files set_logs set_files].
    now apply find_file_update. }
  assert (Ha2' : actor c2 w1 = Some uid2) by exact Ha2.
  assert (Hm2' : may_change (with_visibility Public f) uid2 w1)
    by exact Hm2.
  assert (Hne' : visibility (with_visibility Public f) <> Private)
    by (cbn; congruence).
  rewrite (toggle_change c2 w1 fileId uid2 _ Private Hl2 Ha2' Hf1 Hm2' Hne').
  cbn [fst snd]. split; [reflexivity |]. split; [reflexivity |].
  subst w1. cbn [files logs set_logs set_files].
  split; [| split].
  - rewrite (find_file_update fileId (with_visibility Private)
               _ (with_visibility Public f)); [| reflexivity |].
    + f_equal. destruct f. cbn in *. now subst.
    + now apply find_file_update.
  - intros Hk. rewrite <- Hv. now apply toggle_back_files.
  - now rewrite <- app_assoc.
Qed.

Lemma toggleFileVisibility_same_and_twice_witness :
  let c1 := Scenario.request "s-alice" 1000 in
  let c2 := Scenario.request "s-root" 2000 in
  let w := Scenario.world "false" in
  let f := Scenario.report in
  toggleFileVisibility c1 7 (visibility f) w
  = (Ret (Success "Visibility already set."), w)
  /\ (visibility f = Private ->
      ledger_healthy c1 -> ledger_healthy c2 ->
      let w1 := snd (toggleFileVisibility c1 7 Public w) in
      let w2 := snd (toggleFileVisibility c2 7 Private w1) in
      fst (toggleFileVisibility c1 7 Public w)
      = Ret (Success "File visibility changed to public.")
      /\ fst (toggleFileVisibility c2 7 Private w1)
         = Ret (Success "File visibility changed to private.")
      /\ find_file 7 (files w2) = Some f
      /\ (files_key w -> files w2 = files w)
      /\ logs w2
         = (logs w
            ++ [visibility_entry c1 2 f Public;
                visibility_entry c2 1 (with_visibility Public f)
                  Private])%list).
Proof.
  apply (toggleFileVisibility_same_and_twice
           (Scenario.request "s-alice" 1000) (Scenario.request "s-root" 2000)
           (Scenario.world "false") 7 2 1 Scenario.report).
  - vm_compute. reflexivity.
  - vm_compute. reflexivity.
  - left. reflexivity.
  - vm_compute. reflexivity.
  - right. vm_compute. reflexivity.
Defined.

(** ** Login *)

Lemma Status_eqb_eq a b : Status_eqb a b = true <-> a = b.
Proof. destruct a, b; cbn; split; congruence. Qed.

Lemma Role_eqb_eq a b : Role_eqb a b = true <-> a = b.
Proof. destruct a, b; cbn; split; congruence. Qed.

(** C10, as the code has it: for an inactive account and a login whose
    username and password are not empty, the outcome and the world left
    behind do not depend on the password, whatever the ledger does; with
    a working ledger the answer is [Account is inactive.] and one row is
    appended. *)
Theorem loginUser_inactive_ignores_password c w uname p1 p2 u :
  uname <> "" -> p1 <> "" -> p2 <> "" ->
  find_user_by_name uname (users w) = Some u ->
  status u = Inactive ->
  loginUser c (mkLogin uname p1) w = loginUser c (mkLogin uname p2) w
  /\ (ledger_healthy c ->
      loginUser c (mkLogin uname p1) w
      = (Ret (Failure "Account is inactive."),
         set_logs (fun l => (l ++ [inactive_entry c u])%list) w)).
Proof.
  intros Hn H1 H2 Hu Hs.
  assert (E : forall p, p <> "" ->
    loginUser c (mkLogin uname p) w
    = try_catch
        (insert_log c (inactive_entry c u) ;;;
         ret (Failure "Account is inactive."))
        (fun error =>
           insert_log c
             (mkLog None (getIpAddress c) "Login Error"
                ("Server error during login attempt for '" ++ uname
                 ++ "': " ++ err_message error ++ ". UA: "
                 ++ user_agent_of c)
                "system" None) ;;;
           ret (Failure "An internal server error occurred.")) w).
  { intros p Hp. unfold loginUser. cbn [login_username login_password].
    rewrite (nonempty_true _ Hn), (nonempty_true _ Hp). run.
    rewrite Hu, Hs. reflexivity. }
  split.
  - now rewrite (E p1 H1), (E p2 H2).
  - intros Hl. rewrite (E p1 H1). run.
    now rewrite insert_log_healthy by exact Hl.
Qed.

Lemma loginUser_inactive_ignores_password_witness :
  let c := Scenario.request "" 1000 in
  let w := Scenario.world "false" in
  loginUser c (mkLogin "bob" "builder") w
  = loginUser c (mkLogin "bob" "guess") w
  /\ (ledger_healthy c ->
      loginUser c (mkLogin "bob" "builder") w
      = (Ret (Failure "Account is inactive."),
         set_logs (fun l => (l ++ [inactive_entry c Scenario.bob])%list) w)).
Proof.
  apply (loginUser_inactive_ignores_password (Scenario.request "" 1000)
           (Scenario.world "false") "bob" "builder" "guess" Scenario.bob).
  - discriminate.
  - discriminate.
  - discriminate.
  - vm_compute. reflexivity.
  - reflexivity.
Defined.

(** C10, as stated, fails: for the inactive account of bob, the empty
    password is answered [Invalid input.] and any other one
    [Account is inactive.]. *)
Lemma loginUser_inactive_empty_password_differs :
  let c := Scenario.request "" 1000 in
  let w := Scenario.world "false" in
  status Scenario.bob = Inactive
  /\ find_user_by_name "bob" (users w) = Some Scenario.bob
  /\ fst (loginUser c (mkLogin "bob" "") w) = Ret (Failure "Invalid input.")
  /\ fst (loginUser c (mkLogin "bob" "builder") w)
     = Ret (Failure "Account is inactive.").
Proof. vm_compute. repeat split; reflexivity. Qed.

(** C6, as the code has it: while [maintenanceMode] is on, a login for
    an account that is not an administrator never succeeds and opens no
    session, whatever the ledger does; with valid credentials and a
    working ledger the answer is the maintenance message. *)
Theorem loginUser_maintenance_blocks_non_admin c w values u :
  maintenance_on w ->
  find_user_by_name (login_username values) (users w) = Some u ->
  role u <> RoleAdmin ->
  (forall r, fst (loginUser c values w) <> Ret (Success r))
  /\ sessions (snd (loginUser c values w)) = sessions w
  /\ (ledger_healthy c ->
      login_username values <> "" ->
      login_password values <> "" ->
      status u = Active ->
      verifyPassword (login_password values) (password_hash u) = Ret true ->
      fst (loginUser c values w)
      = Ret (Failure
          "Platform is currently under maintenance. Please try again later.")).
Proof.
  intros Hm Hu Hr. unfold maintenance_on in Hm.
  assert (Hrole : negb (Role_eqb (role u) RoleAdmin) = true).
  { destruct (Role_eqb (role u) RoleAdmin) eqn:E; [| reflexivity].
    apply Role_eqb_eq in E. contradiction. }
  assert (Hm' : bool_decide (settings w !! "maintenanceMode" = Some "true")
                = true) by now apply bool_decide_eq_true_2.
  split; [| split].
  - intros r. unfold loginUser, createSession, insert_log. run.
    repeat (first [rewrite Hu | rewrite Hm' | rewrite Hrole | split_match];
            run);
      cbn [fst]; congruence.
  - unfold loginUser, createSession, insert_log. run.
    repeat (first [rewrite Hu | rewrite Hm' | rewrite Hrole | split_match];
            run);
      cbn [snd sessions set_logs]; reflexivity.
  - intros Hl Hn Hp Hs Hv. unfold loginUser. run.
    rewrite (nonempty_true _ Hn), (nonempty_true _ Hp). run.
    rewrite Hu, Hs, Hv. run. rewrite Hm', Hrole. run.
    now rewrite insert_log_healthy by exact Hl.
Qed.

Lemma loginUser_maintenance_blocks_non_admin_witness :
  let c := Scenario.request "" 1000 in
  let w := Scenario.world "true" in
  let values := mkLogin "alice" "wonderland" in
  (forall r, fst (loginUser c values w) <> Ret (Success r))
  /\ sessions (snd (loginUser c values w)) = sessions w
  /\ (ledger_healthy c ->
      login_username values <> "" ->
      login_password values <> "" ->
      status Scenario.alice = Active ->
      verifyPassword (login_password values)
        (password_hash Scenario.alice) = Ret true ->
      fst (loginUser c values w)
      = Ret (Failure
          "Platform is currently under maintenance. Please try again later.")).
Proof.
  apply (loginUser_maintenance_blocks_non_admin (Scenario.request "" 1000)
           (Scenario.world "true") (mkLogin "alice" "wonderland")
           Scenario.alice).
  - vm_compute. reflexivity.
  - vm_compute. reflexivity.
  - discriminate.
Defined.

Example loginUser_maintenance_message :
  fst (loginUser (Scenario.request "" 1000) (mkLogin "alice" "wonderland")
         (Scenario.world "true"))
  = Ret (Failure
      "Platform is currently under maintenance. Please try again later.").
Proof. vm_compute. reflexivity. Qed.

Example loginUser_maintenance_admin :
  fst (loginUser (Scenario.request "" 1000)
         (mkLogin "AdminUser" "adminpassword") (Scenario.world "true"))
  = Ret (Success (mkLoggedIn 1 "AdminUser" RoleAdmin)).
Proof. vm_compute. reflexivity. Qed.

(** C6, as stated, fails: with [maintenanceMode] on, alice, who is not
    an administrator, uploads a file, makes it public and deletes it. *)
Lemma file_actions_ignore_maintenance :
  let c := Scenario.request "s-alice" 1000 in
  let w := Scenario.world "true" in
  maintenance_on w
  /\ actor c w = Some 2
  /\ role_of 2 w = Some RoleUser
  /\ fst (uploadFile c (mkForm (Some Scenario.note) None) w)
     = Ret (Success "File uploaded successfully.")
  /\ fst (toggleFileVisibility c 7 Public w)
     = Ret (Success "File visibility changed to public.")
  /\ fst (getDownloadFileInfo c 7 w)
     = Ret (Success (mkFileInfo "report.pdf" "uploads/100-aa-report.pdf"
                       "application/pdf"))
  /\ fst (deleteFile c 7 w) = Ret (Success "File deleted successfully.").
Proof. vm_compute. repeat split; reflexivity. Qed.

(** ** User management: the protected accounts *)

Lemma getUserFromSession_caller c w :
  getUserFromSession c w = (Ret (caller c w), w).
Proof. reflexivity. Qed.

Lemma caller_admin c w id :
  caller c w = Some (id, RoleAdmin) -> admin_account id w.
Proof.
  unfold caller, getUserFromSession, gets, admin_account.
  destruct (Js.truthy _); [| discriminate].
  destruct (sessions w !! _) as [s|]; [| discriminate].
  destruct (later_than_current_timestamp (expires_at s) (now c));
    [| discriminate].
  destruct (find_user _ _) as [u|] eqn:E; [| discriminate].
  intros [= <- Hr]. eauto.
Qed.

Lemma find_user_map id t g l u :
  (forall x, user_id (g x) = user_id x) ->
  find_user id l = Some u ->
  find_user id (List.map (fun x => if user_id x =? t then g x else x) l)
  = Some (if user_id u =? t then g u else u).
Proof.
  intros Hg. unfold find_user.
  induction l as [|a l IH]; cbn; [discriminate |].
  assert (Ha : user_id (if user_id a =? t then g a else a) = user_id a)
    by (destruct (user_id a =? t); auto).
  rewrite Ha. destruct (user_id a =? id); [now intros [= <-] | exact IH].
Qed.

Lemma find_user_app id l n u :
  find_user id l = Some u -> find_user id (l ++ [n])%list = Some u.
Proof.
  unfold find_user. induction l as [|a l IH]; cbn; [discriminate |].
  destruct (user_id a =? id); auto.
Qed.

Lemma find_user_filter id t l :
  t <> id ->
  find_user id (List.filter (fun u => negb (user_id u =? t)) l)
  = find_user id l.
Proof.
  intros Hne. unfold find_user. induction l as [|a l IH]; cbn; [reflexivity |].
  destruct (Z.eqb_spec (user_id a) t) as [-> | Hat]; cbn.
  - destruct (Z.eqb_spec t id); [contradiction | exact IH].
  - destruct (user_id a =? id); [reflexivity | exact IH].
Qed.

Lemma keep_same id w W :
  users W = users w -> admin_account id w -> admin_account id W.
Proof. unfold admin_account. now intros ->. Qed.

Lemma keep_update id t g w W :
  users W
  = List.map (fun x => if user_id x =? t then g x else x) (users w) ->
  (forall x, user_id (g x) = user_id x) ->
  (forall x, t = id -> role x = RoleAdmin -> role (g x) = RoleAdmin) ->
  admin_account id w -> admin_account id W.
Proof.
  unfold admin_account. intros -> Hid Hrole (u & Hu & Hr).
  exists (if user_id u =? t then g u else u).
  split; [now apply find_user_map |].
  destruct (Z.eqb_spec (user_id u) t) as [E | E]; auto.
  apply Hrole; auto. unfold find_user in Hu.
  apply List.find_some in Hu as [_ Hu]. apply Z.eqb_eq in Hu. congruence.
Qed.

Lemma keep_app id n w W :
  users W = (users w ++ [n])%list ->
  admin_account id w -> admin_account id W.
Proof.
  unfold admin_account. intros -> (u & Hu & Hr).
  exists u. split; [now apply find_user_app | exact Hr].
Qed.

Lemma keep_filter id t w W :
  users W = List.filter (fun u => negb (user_id u =? t)) (users w) ->
  t <> id ->
  admin_account id w -> admin_account id W.
Proof.
  unfold admin_account. intros -> Hne (u & Hu & Hr).
  exists u. split; [now rewrite find_user_filter | exact Hr].
Qed.

Lemma apply_updates_role upd x :
  demotes upd = false -> role x = RoleAdmin ->
  role (apply_updates upd x) = RoleAdmin.
Proof.
  unfold demotes, apply_updates. cbn.
  destruct (upd_role upd) as [[|]|]; cbn; auto; discriminate.
Qed.

Lemma protected_not_caller c w id t aid arole :
  protected_target c w id ->
  caller c w = Some (aid, arole) ->
  (t =? aid) = false -> (t =? 1) = false -> t <> id.
Proof.
  intros Hprot Hc Ha H1 ->. destruct Hprot as [-> | Hp].
  - discriminate.
  - rewrite Hc in Hp. injection Hp as ->. now rewrite Z.eqb_refl in Ha.
Qed.

Lemma protected_not_demoted c w id t upd aid arole :
  protected_target c w id ->
  caller c w = Some (aid, arole) ->
  (t =? aid) && demotes upd = false ->
  (t =? 1) && demotes upd = false ->
  t = id -> demotes upd = false.
Proof.
  intros Hprot Hc Ha H1 ->. destruct Hprot as [-> | Hp].
  - exact H1.
  - rewrite Hc in Hp. injection Hp as ->. now rewrite Z.eqb_refl in Ha.
Qed.

Ltac open_action :=
  run; rewrite getUserFromSession_caller; run;
  destruct (caller _ _) as [[aid arole]|] eqn:Hcaller; run.

Ltac world_fields :=
  cbn [users files sessions settings logs notifications disk upload_dir
       next_user_id next_file_id cookie_out
       set_users set_files set_sessions set_logs set_notifications
       set_disk set_upload_dir set_next_user_id set_next_file_id
       set_cookie_out fst snd].

Ltac split_all := world_fields; repeat (split_match; run; world_fields).

Ltac unchanged :=
  solve [eapply keep_same; [world_fields; reflexivity | eassumption]].

Section Keeps.

Variables (c : Ctx) (w : World) (id : Z).
Hypothesis Hadmin : admin_account id w.

Lemma loginUser_keeps v : admin_account id (snd (loginUser c v w)).
Proof.
  unfold loginUser, createSession, insert_log. run. split_all; unchanged.
Qed.

Lemma logoutUser_keeps : admin_account id (snd (logoutUser c w)).
Proof.
  unfold logoutUser, deleteSession, insert_log. open_action;
    split_all; unchanged.
Qed.

Lemma registerUser_keeps v : admin_account id (snd (registerUser c v w)).
Proof.
  unfold registerUser, unauthorized, passwordMinLength, insert_log.
  open_action; split_all; try unchanged;
    (eapply keep_app; [world_fields; reflexivity | eassumption]).
Qed.

Lemma updateUserStatus_keeps t s :
  admin_account id (snd (updateUserStatus c t s w)).
Proof.
  unfold updateUserStatus, unauthorized, update_user, insert_log.
  open_action; split_all; try unchanged;
    (eapply keep_update;
     [world_fields; reflexivity | reflexivity | auto | eassumption]).
Qed.

Lemma resetUserPassword_keeps t p :
  admin_account id (snd (resetUserPassword c t p w)).
Proof.
  unfold resetUserPassword, unauthorized, passwordMinLength, update_user,
    delete_sessions_of, insert_log.
  open_action; split_all; try unchanged;
    (eapply keep_update;
     [world_fields; reflexivity | reflexivity | auto | eassumption]).
Qed.

Lemma updateOwnProfile_keeps v :
  admin_account id (snd (updateOwnProfile c v w)).
Proof.
  unfold updateOwnProfile, passwordMinLength, update_user,
    delete_sessions_of, insert_log.
  open_action; split_all; try unchanged;
    (eapply keep_update;
     [world_fields; reflexivity
     | intros x; try destruct (match own_email v with _ => _ end);
       reflexivity
     | intros x _ Hx; try destruct (match own_email v with _ => _ end);
       exact Hx
     | eassumption]).
Qed.

Hypothesis Hprot : protected_target c w id.

Lemma updateUserProfile_keeps t upd :
  admin_account id (snd (updateUserProfile c t upd w)).
Proof.
  unfold updateUserProfile, unauthorized, update_user, insert_log.
  open_action; split_all; try unchanged;
    (eapply keep_update;
     [world_fields; reflexivity | reflexivity | | eassumption];
     intros x Ht Hx; apply apply_updates_role; [| exact Hx];
     eapply protected_not_demoted; eassumption).
Qed.

Lemma deleteUser_keeps t : admin_account id (snd (deleteUser c t w)).
Proof.
  unfold deleteUser, unauthorized, delete_user_row, delete_sessions_of,
    insert_log.
  open_action; split_all; try unchanged;
    (eapply keep_filter;
     [world_fields; reflexivity
     | eapply protected_not_caller; eassumption
     | eassumption]).
Qed.

Lemma run_op_keeps op : admin_account id (run_op c op w).
Proof.
  destruct op; cbn [run_op];
    auto using loginUser_keeps, logoutUser_keeps, registerUser_keeps,
      updateUserStatus_keeps, resetUserPassword_keeps,
      updateUserProfile_keeps, deleteUser_keeps, updateOwnProfile_keeps.
Qed.

End Keeps.

Lemma run_ops_keep_seed reqs w :
  admin_account seed_admin_id w ->
  admin_account seed_admin_id (run_ops reqs w).
Proof.
  revert w. induction reqs as [|[c op] reqs IH]; intros w H; [exact H |].
  cbn [run_ops]. apply IH, run_op_keeps; [exact H | now left].
Qed.

Lemma protected_caught c w t aid arole :
  protected_target c w t ->
  caller c w = Some (aid, arole) ->
  (t =? aid) = false -> (t =? 1) = false -> False.
Proof.
  intros Hp Hc Ha H1.
  now apply (protected_not_caller c w t t aid arole Hp Hc Ha H1).
Qed.

Lemma deleteUser_refuses_protected c w t :
  protected_target c w t ->
  (forall m, fst (deleteUser c t w) <> Ret (Success m))
  /\ users (snd (deleteUser c t w)) = users w.
Proof.
  intros Hp.
  unfold deleteUser, unauthorized, delete_user_row, delete_sessions_of,
    insert_log.
  open_action; split_all;
    try (exfalso; eapply protected_caught; eassumption);
    (split; [intros m; discriminate | reflexivity]).
Qed.

Lemma updateUserProfile_refuses_demotion c w t upd :
  protected_target c w t ->
  demotes upd = true ->
  (forall m, fst (updateUserProfile c t upd w) <> Ret (Success m))
  /\ users (snd (updateUserProfile c t upd w)) = users w.
Proof.
  intros Hp Hd.
  unfold updateUserProfile, unauthorized, update_user, insert_log.
  rewrite Hd.
  open_action; split_all;
    try (exfalso; rewrite !andb_true_r in *;
         eapply protected_caught; eassumption);
    (split; [intros m; discriminate | reflexivity]).
Qed.

(** C9: no sequence of requests to the user-management actions removes
    the seed administrator (id 1) or takes its role away, and no request
    does so to the administrator who sends it; [deleteUser] never
    succeeds on the seed id or on the caller's own id, [updateUserProfile]
    never succeeds with a role other than admin for these two targets,
    and both leave the users table as it was; so an administrator
    account always remains. *)
Theorem protected_accounts_stay_admin reqs c op w t upd :
  admin_account seed_admin_id w ->
  protected_target c w t ->
  admin_account seed_admin_id (run_ops reqs w)
  /\ (exists u, In u (users (run_ops reqs w)) /\ role u = RoleAdmin)
  /\ (forall id, caller c w = Some (id, RoleAdmin) ->
      admin_account id (run_op c op w))
  /\ (forall m, fst (deleteUser c t w) <> Ret (Success m))
  /\ users (snd (deleteUser c t w)) = users w
  /\ (demotes upd = true ->
      (forall m, fst (updateUserProfile c t upd w) <> Ret (Success m))
      /\ users (snd (updateUserProfile c t upd w)) = users w).
Proof.
  intros Hseed Hp.
  pose proof (run_ops_keep_seed reqs w Hseed) as Hkeep.
  split; [exact Hkeep |]. split.
  { destruct Hkeep as (u & Hu & Hr). exists u. split; [| exact Hr].
    unfold find_user in Hu. now apply List.find_some in Hu as [Hu _]. }
  split.
  { intros id Hc. apply run_op_keeps.
    - eapply caller_admin, Hc.
    - right. now rewrite Hc. }
  destruct (deleteUser_refuses_protected c w t Hp) as [H1 H2].
  split; [exact H1 |]. split; [exact H2 |].
  intros Hd. now apply updateUserProfile_refuses_demotion.
Qed.

Lemma protected_accounts_stay_admin_witness :
  let c := Scenario.request "s-root" 1000 in
  let w := Scenario.world "false" in
  let reqs :=
    [(c, OpProfile 1 (mkUpdates None None (Some RoleUser)));
     (c, OpDelete 1);
     (c, OpProfile 2 (mkUpdates None None (Some RoleAdmin)));
     (Scenario.request "s-alice" 1500, OpDelete 1);
     (Scenario.request "s-alice" 1600,
      OpProfile 1 (mkUpdates None None (Some RoleUser)))] in
  let op := OpDelete 1 in
  let upd := mkUpdates None None (Some RoleUser) in
  admin_account seed_admin_id (run_ops reqs w)
  /\ (exists u, In u (users (run_ops reqs w)) /\ role u = RoleAdmin)
  /\ (forall id, caller c w = Some (id, RoleAdmin) ->
      admin_account id (run_op c op w))
  /\ (forall m, fst (deleteUser c 1 w) <> Ret (Success m))
  /\ users (snd (deleteUser c 1 w)) = users w
  /\ (demotes upd = true ->
      (forall m, fst (updateUserProfile c 1 upd w) <> Ret (Success m))
      /\ users (snd (updateUserProfile c 1 upd w)) = users w).
Proof.
  apply (protected_accounts_stay_admin _ (Scenario.request "s-root" 1000)
           (OpDelete 1) (Scenario.world "false") 1
           (mkUpdates None None (Some RoleUser))).
  - exists Scenario.root. split; reflexivity.
  - left. reflexivity.
Defined.

Example deleteUser_seed_refused :
  fst (deleteUser (Scenario.request "s-root" 1000) 1 (Scenario.world "false"))
  = Ret (Failure "Administrators cannot delete their own account.").
Proof. vm_compute. reflexivity. Qed.

Example deleteUser_other_admin_on_seed :
  let w :=
    snd (updateUserProfile (Scenario.request "s-root" 1000) 2
           (mkUpdates None None (Some RoleAdmin)) (Scenario.world "false")) in
  role_of 2 w = Some RoleAdmin
  /\ fst (deleteUser (Scenario.request "s-alice" 1500) 1 w)
     = Ret (Failure "The initial administrator account cannot be deleted.")
  /\ fst (updateUserProfile (Scenario.request "s-alice" 1500) 1
            (mkUpdates None None (Some RoleUser)) w)
     = Ret (Failure
         "The initial administrator account's role cannot be changed.")
  /\ fst (deleteUser (Scenario.request "s-root" 1500) 2 w)
     = Ret (Success "User 'alice' has been deleted.").
Proof. vm_compute. repeat split; reflexivity. Qed.

(** * Properties across the actions *)

(** ** Credentials *)

Lemma hex_digit_lower n :
  0 <= n < 16 -> is_hex_lower (Sha256.hex_digit n) = true.
Proof.
  intros H. replace n with (Z.of_nat (Z.to_nat n)) by lia.
  assert (Hk : (Z.to_nat n < 16)%nat) by lia.
  revert Hk. generalize (Z.to_nat n). clear H. intros k Hk.
  do 16 (destruct k as [|k]; [reflexivity |]). lia.
Qed.

Lemma hex32_lower x : all_chars is_hex_lower (Sha256.hex32 x) = true.
Proof.
  unfold Sha256.hex32, Sha256.hex_nibble. cbn [all_chars].
  rewrite !hex_digit_lower by (apply Z.mod_pos_bound; lia). reflexivity.
Qed.

Lemma all_chars_app p a b :
  all_chars p (a ++ b) = all_chars p a && all_chars p b.
Proof.
  induction a as [|c a IH]; [reflexivity |].
  change (String c a ++ b) with (String c (a ++ b)). cbn [all_chars].
  now rewrite IH, andb_assoc.
Qed.

(** X1: the digest [hashPassword] returns is always 64 lower-case
    hexadecimal digits, whatever the password. *)
Theorem hashPassword_hex_digest p :
  String.length (hashPassword p) = 64%nat
  /\ all_chars is_hex_lower (hashPassword p) = true.
Proof.
  split; [apply hashPassword_length |].
  unfold hashPassword, Sha256.digest_hex.
  destruct (Sha256.blocks _ _ _) as [[[[[[[a b] c] d] e] f] g] h].
  rewrite !all_chars_app, !hex32_lower. reflexivity.
Qed.

Lemma hashPassword_hex_digest_witness :
  String.length (hashPassword "adminpassword") = 64%nat
  /\ all_chars is_hex_lower (hashPassword "adminpassword") = true.
Proof. apply (hashPassword_hex_digest "adminpassword"). Defined.

(** X2: [verifyPassword] answers true exactly for the digest of the
    password: the stored digest of a password always verifies, and no
    other stored string of any length is accepted. *)
Theorem verifyPassword_true_iff p d :
  verifyPassword p d = Ret true <-> d = hashPassword p.
Proof.
  split.
  - unfold verifyPassword, timingSafeEqual.
    destruct (String.length (hashPassword p) =? String.length d)%nat;
      [| discriminate].
    intros [= H]. symmetry. now apply String.eqb_eq.
  - intros ->. apply verifyPassword_hash.
Qed.

Lemma verifyPassword_true_iff_witness :
  verifyPassword "wonderland" (hashPassword "adminpassword") = Ret true
  <-> hashPassword "adminpassword" = hashPassword "wonderland".
Proof.
  apply (verifyPassword_true_iff "wonderland" (hashPassword "adminpassword")).
Defined.

(** ** Sessions *)

Lemma createSession_opens c w uid ip ua t :
  sessions w !! random_hex c = None ->
  expiry_of c w = Some t ->
  Z.abs t <= max_date ->
  createSession c uid ip ua w
  = (Ret (random_hex c),
     set_cookie_out (Some (random_hex c, t))
       (set_sessions
          (fun s => <[random_hex c := mkSession uid t (now c) (now c) ip ua]> s)
          w)).
Proof.
  intros Hfree Ht Hr. unfold expiry_of in Ht.
  unfold createSession. run. rewrite Ht.
  destruct (Z.ltb_spec max_date (Z.abs t)); [lia |]. run.
  now rewrite Hfree.
Qed.

(** X3: a session opened by [createSession] (fresh token, readable
    timeout setting) is returned in the cookie and resolves to its user
    for every later request carrying the token up to the end of the UTC
    day of its expiry: at every instant before the expiry, and after it
    until midnight; from the next day on it resolves to nobody.  A
    session whose expiry lies outside the years 0000 to 9999 never
    resolves.  The other sessions are left as they were. *)
Theorem createSession_then_resolve c c' w uid ip ua t :
  random_hex c <> "" ->
  sessions w !! random_hex c = None ->
  expiry_of c w = Some t ->
  Z.abs t <= max_date ->
  cookie_session_id c' = Some (random_hex c) ->
  let w' := snd (createSession c uid ip ua w) in
  fst (createSession c uid ip ua w) = Ret (random_hex c)
  /\ cookie_out w' = Some (random_hex c, t)
  /\ (four_digit_year t = true -> utc_day (now c') <= utc_day t ->
      fst (getUserIdFromSession c' w') = Ret (Some uid))
  /\ (four_digit_year t = true -> now c' <= t ->
      fst (getUserIdFromSession c' w') = Ret (Some uid))
  /\ (utc_day t < utc_day (now c') ->
      fst (getUserIdFromSession c' w') = Ret None)
  /\ (four_digit_year t = false ->
      fst (getUserIdFromSession c' w') = Ret None)
  /\ (forall sid, sid <> random_hex c ->
      sessions w' !! sid = sessions w !! sid).
Proof.
  intros Hne Hfree Ht Hr Hck. cbv zeta.
  rewrite (createSession_opens c w uid ip ua t Hfree Ht Hr).
  cbn [fst snd cookie_out set_cookie_out].
  split; [reflexivity |]. split; [reflexivity |].
  unfold getUserIdFromSession, gets.
  cbn [fst sessions set_cookie_out set_sessions].
  rewrite Hck, (truthy_Some _ Hne). cbn [default].
  rewrite lookup_insert_eq. cbn [expires_at session_user_id].
  unfold later_than_current_timestamp.
  assert (Hday : four_digit_year t = true ->
                 utc_day (now c') <= utc_day t ->
                 (if four_digit_year t && (utc_day (now c') <=? utc_day t)
                  then Some uid else None) = Some uid).
  { intros -> H. now destruct (Z.leb_spec (utc_day (now c')) (utc_day t));
      [| lia]. }
  split; [intros Hy H; now rewrite Hday |].
  split; [| split; [| split]].
  - intros Hy H. rewrite Hday; [reflexivity | exact Hy |].
    unfold utc_day, ms_per_day. now apply Z.div_le_mono.
  - intros H. destruct (Z.leb_spec (utc_day (now c')) (utc_day t)); [lia |].
    now rewrite andb_false_r.
  - intros ->. reflexivity.
  - intros sid Hsid. now rewrite lookup_insert_ne.
Qed.

Lemma createSession_then_resolve_witness :
  let c :=
    mkCtx "/app" 1000 None None None None None "c0ffee"
      Scenario.no_fault Scenario.no_fault Scenario.no_fault
      (fun _ => None) (fun s => s) (fun _ => true) in
  let c' := Scenario.request "c0ffee" 2000 in
  let w := Scenario.world "false" in
  let w' := snd (createSession c 2 "::1" "curl/8" w) in
  fst (createSession c 2 "::1" "curl/8" w) = Ret (random_hex c)
  /\ cookie_out w' = Some (random_hex c, 1801000)
  /\ (four_digit_year 1801000 = true -> utc_day (now c') <= utc_day 1801000 ->
      fst (getUserIdFromSession c' w') = Ret (Some 2))
  /\ (four_digit_year 1801000 = true -> now c' <= 1801000 ->
      fst (getUserIdFromSession c' w') = Ret (Some 2))
  /\ (utc_day 1801000 < utc_day (now c') ->
      fst (getUserIdFromSession c' w') = Ret None)
  /\ (four_digit_year 1801000 = false ->
      fst (getUserIdFromSession c' w') = Ret None)
  /\ (forall sid, sid <> random_hex c ->
      sessions w' !! sid = sessions w !! sid).
Proof.
  apply (createSession_then_resolve
           (mkCtx "/app" 1000 None None None None None "c0ffee"
              Scenario.no_fault Scenario.no_fault Scenario.no_fault
              (fun _ => None) (fun s => s) (fun _ => true))
           (Scenario.request "c0ffee" 2000) (Scenario.world "false")
           2 "::1" "curl/8" 1801000).
  - discriminate.
  - vm_compute. reflexivity.
  - vm_compute. reflexivity.
  - vm_compute. discriminate.
  - reflexivity.
Defined.

(** The look-ups accept a session after its expiry: a session that
    expired a minute ago still authenticates, on the following day it
    does not; [verifySession] compares instants and refuses it at once. *)
Example session_outlives_expiry :
  let c :=
    mkCtx "/app" 1000 None None None None None "c0ffee"
      Scenario.no_fault Scenario.no_fault Scenario.no_fault
      (fun _ => None) (fun s => s) (fun _ => true) in
  let w' := snd (createSession c 2 "::1" "curl/8" (Scenario.world "false")) in
  cookie_out w' = Some ("c0ffee", 1801000)
  /\ actor (Scenario.request "c0ffee" (1801000 + 60000)) w' = Some 2
  /\ caller (Scenario.request "c0ffee" (1801000 + 60000)) w'
     = Some (2, RoleUser)
  /\ actor (Scenario.request "c0ffee" (1801000 + 86400000)) w' = None
  /\ fst (verifySession (Scenario.request "c0ffee" (1801000 + 60000))
            "c0ffee" w') = Ret None.
Proof. vm_compute. repeat split; reflexivity. Qed.

(** X4: when the token drawn is already a session id, or the timeout
    setting does not parse to a number, [createSession] throws
    [Session creation failed.] and changes nothing: no row, no cookie. *)
Theorem createSession_failure_changes_nothing c w uid ip ua :
  is_Some (sessions w !! random_hex c) \/ expiry_of c w = None ->
  createSession c uid ip ua w
  = (Throw (Error "Session creation failed."), w).
Proof.
  intros H. unfold expiry_of in H. unfold createSession. run.
  destruct (_ <$> Js.parseInt10 _) as [t|] eqn:E; run.
  - destruct H as [[s Hs] | H]; [| discriminate].
    destruct (max_date <? Z.abs t); run; [reflexivity |].
    now rewrite Hs.
  - reflexivity.
Qed.

Lemma createSession_failure_changes_nothing_witness :
  createSession (Scenario.request "" 1000 ) 2 "::1" "curl/8"
    (set_sessions
       (fun s => <["c0ffee" := mkSession 1 5000 0 0 "::1" "curl/8"]> s)
       (Scenario.world "false"))
  = (Throw (Error "Session creation failed."),
     set_sessions
       (fun s => <["c0ffee" := mkSession 1 5000 0 0 "::1" "curl/8"]> s)
       (Scenario.world "false")).
Proof.
  apply (createSession_failure_changes_nothing (Scenario.request "" 1000)).
  left. vm_compute. eauto.
Defined.

(** X5: after [logoutUser] the session of the cookie is gone, whatever
    the ledger does and whatever the action answers: no later request
    with that cookie has a caller; every other session and the users
    table are left as they were. *)
Theorem logoutUser_revokes c c' w sid :
  cookie_session_id c = Some sid ->
  cookie_session_id c' = Some sid ->
  let w' := snd (logoutUser c w) in
  caller c' w' = None
  /\ actor c' w' = None
  /\ (forall other, other <> sid ->
      sessions w' !! other = sessions w !! other)
  /\ users w' = users w.
Proof.
  intros Hc Hc'. cbv zeta.
  assert (Hs : sessions (snd (logoutUser c w)) !! sid = None
               \/ sid = "").
  { destruct sid as [|a sid]; [now right | left].
    unfold logoutUser, deleteSession, insert_log.
    run. rewrite getUserFromSession_caller, Hc. run. cbn [Js.truthy]. run.
    split_all; apply lookup_delete_eq. }
  assert (Hother : forall other, other <> sid ->
            sessions (snd (logoutUser c w)) !! other = sessions w !! other).
  { intros other Ho.
    unfold logoutUser, deleteSession, insert_log.
    run. rewrite getUserFromSession_caller, Hc. run.
    split_all; try reflexivity; cbn [default];
      now rewrite lookup_delete_ne. }
  assert (Hu : users (snd (logoutUser c w)) = users w).
  { unfold logoutUser, deleteSession, insert_log.
    run. rewrite getUserFromSession_caller. run.
    split_all; reflexivity. }
  set (w' := snd (logoutUser c w)) in *.
  unfold caller, actor, getUserFromSession, getUserIdFromSession, gets.
  cbv beta iota. rewrite Hc'. change (default "" (Some sid)) with sid.
  destruct Hs as [Hs | ->]; [rewrite Hs; destruct (Js.truthy _) | ];
    auto.
Qed.

Lemma logoutUser_revokes_witness :
  let c := Scenario.request "s-alice" 1000 in
  let c' := Scenario.request "s-alice" 1001 in
  let w := Scenario.world "false" in
  let w' := snd (logoutUser c w) in
  caller c' w' = None
  /\ actor c' w' = None
  /\ (forall other, other <> "s-alice" ->
      sessions w' !! other = sessions w !! other)
  /\ users w' = users w.
Proof.
  apply (logoutUser_revokes (Scenario.request "s-alice" 1000)
           (Scenario.request "s-alice" 1001) (Scenario.world "false")
           "s-alice"); reflexivity.
Defined.

(** ** Login *)

(** X6: with a working ledger, an active account, its own password, a
    fresh token and a readable timeout, and unless maintenance shuts a
    non-administrator out, [loginUser] answers with the account, opens
    exactly the session the cookie names, and appends one
    [Login Success] row. *)
Theorem loginUser_opens_session c w values u t :
  ledger_healthy c ->
  login_username values <> "" ->
  login_password values <> "" ->
  find_user_by_name (login_username values) (users w) = Some u ->
  status u = Active ->
  password_hash u = hashPassword (login_password values) ->
  (settings w !! "maintenanceMode" <> Some "true" \/ role u = RoleAdmin) ->
  sessions w !! random_hex c = None ->
  expiry_of c w = Some t ->
  Z.abs t <= max_date ->
  let w' := snd (loginUser c values w) in
  fst (loginUser c values w)
  = Ret (Success (mkLoggedIn (user_id u) (username u) (role u)))
  /\ sessions w'
     = <[random_hex c :=
           mkSession (user_id u) t (now c) (now c) (getIpAddress c)
             (user_agent_of c)]> (sessions w)
  /\ cookie_out w' = Some (random_hex c, t)
  /\ logs w' = (logs w ++ [login_success_entry c u])%list.
Proof.
  intros Hl Hn Hp Hu Hs Hh Hm Hfree Ht Hr. cbv zeta.
  assert (Hgate :
    bool_decide (settings w !! "maintenanceMode" = Some "true")
    && negb (Role_eqb (role u) RoleAdmin) = false).
  { destruct Hm as [Hm | Hm].
    - now rewrite bool_decide_eq_false_2.
    - rewrite Hm. apply andb_false_r. }
  unfold loginUser. run.
  rewrite (nonempty_true _ Hn), (nonempty_true _ Hp). run.
  rewrite Hu, Hs, Hh, verifyPassword_hash. run. rewrite Hgate.
  rewrite (createSession_opens c w _ _ _ t Hfree Ht Hr).
  rewrite insert_log_healthy by exact Hl.
  cbn [fst snd]. repeat split.
Qed.

Lemma loginUser_opens_session_witness :
  let c := Scenario.request "" 1000 in
  let w := Scenario.world "false" in
  let values := mkLogin "alice" "wonderland" in
  let w' := snd (loginUser c values w) in
  fst (loginUser c values w)
  = Ret (Success (mkLoggedIn 2 "alice" RoleUser))
  /\ sessions w'
     = <[random_hex c :=
           mkSession 2 1801000 (now c) (now c) (getIpAddress c)
             (user_agent_of c)]> (sessions w)
  /\ cookie_out w' = Some (random_hex c, 1801000)
  /\ logs w' = (logs w ++ [login_success_entry c Scenario.alice])%list.
Proof.
  apply (loginUser_opens_session (Scenario.request "" 1000)
           (Scenario.world "false") (mkLogin "alice" "wonderland")
           Scenario.alice 1801000).
  - intros e. reflexivity.
  - discriminate.
  - discriminate.
  - vm_compute. reflexivity.
  - reflexivity.
  - reflexivity.
  - left. vm_compute. discriminate.
  - vm_compute. reflexivity.
  - vm_compute. reflexivity.
  - vm_compute. discriminate.
Defined.

(** X7: an unknown user name and a wrong password for an active account
    (whose stored digest is well formed) get the same answer,
    [Invalid username or password.]; no session is opened and one
    [Login Failure] row of category [auth] is appended. *)
Theorem loginUser_bad_credentials_alike c w values :
  ledger_healthy c ->
  login_username values <> "" ->
  login_password values <> "" ->
  (find_user_by_name (login_username values) (users w) = None
   \/ exists u,
        find_user_by_name (login_username values) (users w) = Some u
        /\ status u = Active
        /\ String.length (password_hash u) = 64%nat
        /\ password_hash u <> hashPassword (login_password values)) ->
  let w' := snd (loginUser c values w) in
  fst (loginUser c values w) = Ret bad_credentials
  /\ sessions w' = sessions w
  /\ cookie_out w' = cookie_out w
  /\ exists e, logs w' = (logs w ++ [e])%list
               /\ log_action e = "Login Failure" /\ log_type e = "auth".
Proof.
  intros Hl Hn Hp H. cbv zeta. unfold loginUser. run.
  rewrite (nonempty_true _ Hn), (nonempty_true _ Hp). run.
  destruct H as [H | (u & Hu & Hs & Hlen & Hne)].
  - rewrite H. rewrite insert_log_healthy by exact Hl.
    cbn [fst snd sessions cookie_out logs set_logs]. eauto 10.
  - rewrite Hu, Hs. run.
    rewrite (verifyPassword_mismatch _ _ Hlen Hne). run.
    rewrite insert_log_healthy by exact Hl.
    cbn [fst snd sessions cookie_out logs set_logs]. eauto 10.
Qed.

Lemma loginUser_bad_credentials_alike_witness :
  let c := Scenario.request "" 1000 in
  let w := Scenario.world "false" in
  let values := mkLogin "alice" "guess" in
  let w' := snd (loginUser c values w) in
  fst (loginUser c values w) = Ret bad_credentials
  /\ sessions w' = sessions w
  /\ cookie_out w' = cookie_out w
  /\ exists e, logs w' = (logs w ++ [e])%list
               /\ log_action e = "Login Failure" /\ log_type e = "auth".
Proof.
  apply (loginUser_bad_credentials_alike (Scenario.request "" 1000)
           (Scenario.world "false") (mkLogin "alice" "guess")).
  - intros e. reflexivity.
  - discriminate.
  - discriminate.
  - right. exists Scenario.alice.
    split; [vm_compute; reflexivity |].
    split; [reflexivity |].
    split; [vm_compute; reflexivity |].
    vm_compute. discriminate.
Defined.

(** ** Errors stay inside the actions *)

Ltac ledger_contradiction Hl :=
  match goal with
  | H : ledger_fault _ _ = Some _ |- _ => rewrite Hl in H; discriminate H
  end.

Ltac returns_leaf Hl :=
  first [ ledger_contradiction Hl
        | eexists; reflexivity ].

Section Returns.

Variables (c : Ctx) (w : World).
Hypothesis Hl : ledger_healthy c.

Lemma loginUser_returns v : returns (loginUser c v) w.
Proof.
  unfold returns, loginUser, createSession, verifyPassword, timingSafeEqual,
    insert_log.
  run. split_all; returns_leaf Hl.
Qed.

Lemma logoutUser_returns : returns (logoutUser c) w.
Proof.
  unfold returns, logoutUser, deleteSession, insert_log.
  open_action; split_all; returns_leaf Hl.
Qed.

Lemma registerUser_returns v : returns (registerUser c v) w.
Proof.
  unfold returns, registerUser, unauthorized, passwordMinLength, insert_log.
  open_action; split_all; returns_leaf Hl.
Qed.

Lemma updateUserStatus_returns t s : returns (updateUserStatus c t s) w.
Proof.
  unfold returns, updateUserStatus, unauthorized, update_user, insert_log.
  open_action; split_all; returns_leaf Hl.
Qed.

Lemma resetUserPassword_returns t p : returns (resetUserPassword c t p) w.
Proof.
  unfold returns, resetUserPassword, unauthorized, passwordMinLength,
    update_user, delete_sessions_of, insert_log.
  open_action; split_all; returns_leaf Hl.
Qed.

Lemma updateUserProfile_returns t u : returns (updateUserProfile c t u) w.
Proof.
  unfold returns, updateUserProfile, unauthorized, update_user, insert_log.
  open_action; split_all; returns_leaf Hl.
Qed.

Lemma deleteUser_returns t : returns (deleteUser c t) w.
Proof.
  unfold returns, deleteUser, unauthorized, delete_user_row,
    delete_sessions_of, insert_log.
  open_action; split_all; returns_leaf Hl.
Qed.

Lemma updateOwnProfile_returns v : returns (updateOwnProfile c v) w.
Proof.
  unfold returns, updateOwnProfile, passwordMinLength, update_user,
    delete_sessions_of, verifyPassword, timingSafeEqual, insert_log.
  open_action; split_all; returns_leaf Hl.
Qed.

Lemma toggleFileVisibility_returns id v :
  returns (toggleFileVisibility c id v) w.
Proof.
  unfold returns, toggleFileVisibility, getUserIdFromSession, getUserRole,
    insert_log.
  run. split_all; returns_leaf Hl.
Qed.

Lemma deleteFile_returns id : returns (deleteFile c id) w.
Proof.
  unfold returns, deleteFile, getUserIdFromSession, getUserRole,
    delete_file_row, unlink, insert_log.
  run. split_all; returns_leaf Hl.
Qed.

Lemma getDownloadFileInfo_returns id : returns (getDownloadFileInfo c id) w.
Proof.
  unfold returns, getDownloadFileInfo, getUserIdFromSession, getUserRole,
    insert_log.
  run. split_all; returns_leaf Hl.
Qed.

Lemma getPreviewFileInfo_returns id : returns (getPreviewFileInfo c id) w.
Proof.
  unfold returns, getPreviewFileInfo, getUserIdFromSession, getUserRole,
    insert_log.
  run. split_all; returns_leaf Hl.
Qed.

Lemma GET_returns fp pv : returns (GET c fp pv) w.
Proof.
  unfold returns, GET, validateSessionAndGetUserId, getUserIdFromSession,
    getUserRole, insert_log.
  run. split_all; returns_leaf Hl.
Qed.

Lemma uploadFile_returns fd :
  upload_dir w = DirPresent \/ upload_dir w = DirAbsent true ->
  returns (uploadFile c fd) w.
Proof.
  intros Hd.
  unfold returns, uploadFile, ensureUploadDir, getUserIdFromSession,
    getSetting, writeFile, insert_file, unlink, insert_log.
  run. destruct Hd as [Hd | Hd]; rewrite Hd; run;
    split_all; returns_leaf Hl.
Qed.

End Returns.

Lemma uploadFile_field_returns c w field v :
  ledger_healthy c ->
  upload_dir w = DirPresent \/ upload_dir w = DirAbsent true ->
  (forall text, field = Some (TextField text) ->
                text = "" \/ actor c w = None) ->
  returns (uploadFile_field c field v) w.
Proof.
  intros Hl Hd Hfield. unfold uploadFile_field.
  destruct field as [[f | text] |]; try now apply uploadFile_returns.
  destruct text as [|x text]; [now apply uploadFile_returns |].
  destruct (Hfield _ eq_refl) as [H | Ha]; [discriminate H |].
  apply actor_None_session in Ha.
  unfold returns, ensureUploadDir, getUserIdFromSession.
  cbn [Str.nonempty]. run.
  destruct Hd as [Hd | Hd]; rewrite Hd; run;
    cbn [sessions set_upload_dir]; rewrite Ha; eexists; reflexivity.
Qed.

Lemma uploadFile_field_throws c w text v :
  upload_dir w = DirPresent \/ upload_dir w = DirAbsent true ->
  text <> "" -> actor c w <> None ->
  fst (uploadFile_field c (Some (TextField text)) v w)
  = Throw ERR_INVALID_ARG_TYPE.
Proof.
  intros Hd Ht Ha. unfold uploadFile_field.
  rewrite (nonempty_true _ Ht).
  destruct (actor c w) as [uid|] eqn:E; [clear Ha | now destruct Ha].
  apply actor_session in E.
  unfold ensureUploadDir, getUserIdFromSession. run.
  destruct Hd as [Hd | Hd]; rewrite Hd; run;
    cbn [sessions set_upload_dir]; rewrite E; reflexivity.
Qed.

(** X8: with a working ledger no action throws at its caller, with one
    exception.  Whatever goes wrong inside (a malformed stored digest, a
    session that cannot be created, a file-system failure, a duplicate
    path) comes back as a result.  [uploadFile], given a directory that
    exists or can be created, returns when the [file] entry of the form
    is a [File], missing or empty; when it is a non-empty text and the
    caller is signed in, the action throws a TypeError at its caller. *)
Theorem actions_return_when_ledger_works c w :
  ledger_healthy c ->
  (forall v, returns (loginUser c v) w)
  /\ returns (logoutUser c) w
  /\ (forall v, returns (registerUser c v) w)
  /\ (forall t s, returns (updateUserStatus c t s) w)
  /\ (forall t p, returns (resetUserPassword c t p) w)
  /\ (forall t u, returns (updateUserProfile c t u) w)
  /\ (forall t, returns (deleteUser c t) w)
  /\ (forall v, returns (updateOwnProfile c v) w)
  /\ (forall id v, returns (toggleFileVisibility c id v) w)
  /\ (forall id, returns (deleteFile c id) w)
  /\ (forall id, returns (getDownloadFileInfo c id) w)
  /\ (forall id, returns (getPreviewFileInfo c id) w)
  /\ (forall fp pv, returns (GET c fp pv) w)
  /\ (upload_dir w = DirPresent \/ upload_dir w = DirAbsent true ->
      (forall field v,
         (forall text, field = Some (TextField text) ->
                       text = "" \/ actor c w = None) ->
         returns (uploadFile_field c field v) w)
      /\ (forall text v,
            text <> "" -> actor c w <> None ->
            fst (uploadFile_field c (Some (TextField text)) v w)
            = Throw ERR_INVALID_ARG_TYPE)).
Proof.
  intros Hl.
  repeat split;
    auto using loginUser_returns, logoutUser_returns, registerUser_returns,
      updateUserStatus_returns, resetUserPassword_returns,
      updateUserProfile_returns, deleteUser_returns,
      updateOwnProfile_returns, toggleFileVisibility_returns,
      deleteFile_returns, getDownloadFileInfo_returns,
      getPreviewFileInfo_returns, GET_returns.
  - intros field v Hfield. now apply uploadFile_field_returns.
  - intros text v Ht Ha. now apply uploadFile_field_throws.
Qed.

Lemma actions_return_when_ledger_works_witness :
  let c := Scenario.request "s-alice" 1000 in
  let w := Scenario.world "false" in
  (forall v, returns (loginUser c v) w)
  /\ returns (logoutUser c) w
  /\ (forall v, returns (registerUser c v) w)
  /\ (forall t s, returns (updateUserStatus c t s) w)
  /\ (forall t p, returns (resetUserPassword c t p) w)
  /\ (forall t u, returns (updateUserProfile c t u) w)
  /\ (forall t, returns (deleteUser c t) w)
  /\ (forall v, returns (updateOwnProfile c v) w)
  /\ (forall id v, returns (toggleFileVisibility c id v) w)
  /\ (forall id, returns (deleteFile c id) w)
  /\ (forall id, returns (getDownloadFileInfo c id) w)
  /\ (forall id, returns (getPreviewFileInfo c id) w)
  /\ (forall fp pv, returns (GET c fp pv) w)
  /\ (upload_dir w = DirPresent \/ upload_dir w = DirAbsent true ->
      (forall field v,
         (forall text, field = Some (TextField text) ->
                       text = "" \/ actor c w = None) ->
         returns (uploadFile_field c field v) w)
      /\ (forall text v,
            text <> "" -> actor c w <> None ->
            fst (uploadFile_field c (Some (TextField text)) v w)
            = Throw ERR_INVALID_ARG_TYPE)).
Proof.
  apply (actions_return_when_ledger_works (Scenario.request "s-alice" 1000)
           (Scenario.world "false")).
  intros e. reflexivity.
Defined.

Example uploadFile_text_in_file_entry :
  fst (uploadFile_field (Scenario.request "s-alice" 1000)
         (Some (TextField "not a file")) None (Scenario.world "false"))
  = Throw ERR_INVALID_ARG_TYPE
  /\ fst (uploadFile_field (Scenario.request "s-alice" 1000)
            (Some (TextField EmptyString)) None (Scenario.world "false"))
     = Ret (Failure "No file provided.")
  /\ fst (uploadFile_field (Scenario.request "s-alice" 1000)
            (Some (FileField Scenario.note)) None (Scenario.world "false"))
     = Ret (Success "File uploaded successfully.").
Proof. vm_compute. repeat split; reflexivity. Qed.

(** A login against a stored digest of the wrong length: the error of
    the comparison is caught and reported as a server error. *)
Example loginUser_malformed_digest :
  fst (loginUser (Scenario.request "" 1000) (mkLogin "alice" "wonderland")
         (set_users (List.map (with_password_hash "abc"))
            (Scenario.world "false")))
  = Ret (Failure "An internal server error occurred.").
Proof. vm_compute. reflexivity. Qed.

(** ** Who may call the administrative actions *)

(** X9: a caller who is not an administrator is refused by each of the
    five administrative actions: the answer is a permission error, the
    world is as before except for one [Unauthorized Action] row of
    category [security] under the caller's id. *)
Theorem admin_actions_refuse_non_admin c w id :
  ledger_healthy c ->
  caller c w = Some (id, RoleUser) ->
  (forall v,
     refused_with (registerUser c v w) w
       "Permission denied. Only administrators can create users."
       (unauthorized_entry c id
          "User attempted to register new user without admin rights"))
  /\ (forall t s,
      refused_with (updateUserStatus c t s w) w "Permission denied."
        (unauthorized_entry c id
           "User attempted to update user status without admin rights"))
  /\ (forall t p,
      refused_with (resetUserPassword c t p w) w "Permission denied."
        (unauthorized_entry c id
           "User attempted to reset password without admin rights"))
  /\ (forall t u,
      refused_with (updateUserProfile c t u w) w "Permission denied."
        (unauthorized_entry c id
           "User attempted to update profile without admin rights"))
  /\ (forall t,
      refused_with (deleteUser c t w) w "Permission denied."
        (unauthorized_entry c id
           "User attempted to delete user without admin rights")).
Proof.
  intros Hl Hc. unfold refused_with, unauthorized_entry.
  repeat split; intros;
    unfold registerUser, updateUserStatus, resetUserPassword,
      updateUserProfile, deleteUser, unauthorized;
    run; rewrite getUserFromSession_caller, Hc; run;
    now rewrite insert_log_healthy by exact Hl.
Qed.

Lemma admin_actions_refuse_non_admin_witness :
  let c := Scenario.request "s-alice" 1000 in
  let w := Scenario.world "false" in
  (forall v,
     refused_with (registerUser c v w) w
       "Permission denied. Only administrators can create users."
       (unauthorized_entry c 2
          "User attempted to register new user without admin rights"))
  /\ (forall t s,
      refused_with (updateUserStatus c t s w) w "Permission denied."
        (unauthorized_entry c 2
           "User attempted to update user status without admin rights"))
  /\ (forall t p,
      refused_with (resetUserPassword c t p w) w "Permission denied."
        (unauthorized_entry c 2
           "User attempted to reset password without admin rights"))
  /\ (forall t u,
      refused_with (updateUserProfile c t u w) w "Permission denied."
        (unauthorized_entry c 2
           "User attempted to update profile without admin rights"))
  /\ (forall t,
      refused_with (deleteUser c t w) w "Permission denied."
        (unauthorized_entry c 2
           "User attempted to delete user without admin rights")).
Proof.
  apply (admin_actions_refuse_non_admin (Scenario.request "s-alice" 1000)
           (Scenario.world "false") 2).
  - intros e. reflexivity.
  - vm_compute. reflexivity.
Defined.

(** X10: a request the session look-ups resolve to nobody (no cookie, an
    unknown token, or a session whose day of expiry has passed) is
    answered [Authentication required.] by every user and file action,
    and 401 by the byte server; nothing is changed and nothing is
    written to the ledger. *)
Theorem no_session_no_action c w :
  caller c w = None ->
  actor c w = None ->
  (forall v, unauthenticated (registerUser c v w) w)
  /\ (forall t s, unauthenticated (updateUserStatus c t s w) w)
  /\ (forall t p, unauthenticated (resetUserPassword c t p w) w)
  /\ (forall t u, unauthenticated (updateUserProfile c t u w) w)
  /\ (forall t, unauthenticated (deleteUser c t w) w)
  /\ (forall v, unauthenticated (updateOwnProfile c v w) w)
  /\ (forall id v, unauthenticated (toggleFileVisibility c id v w) w)
  /\ (forall id, unauthenticated (deleteFile c id w) w)
  /\ (forall id, unauthenticated (getDownloadFileInfo c id w) w)
  /\ (forall id, unauthenticated (getPreviewFileInfo c id w) w)
  /\ (upload_dir w = DirPresent ->
      forall fd, unauthenticated (uploadFile c fd w) w)
  /\ (forall fp pv,
      GET c fp pv w = (Ret (text_response "Unauthorized" 401), w)).
Proof.
  intros Hc Ha. apply actor_None_session in Ha. unfold unauthenticated.
  repeat split; intros;
    unfold registerUser, updateUserStatus, resetUserPassword,
      updateUserProfile, deleteUser, updateOwnProfile,
      toggleFileVisibility, deleteFile, getDownloadFileInfo,
      getPreviewFileInfo, uploadFile, GET, validateSessionAndGetUserId,
      getUserIdFromSession, ensureUploadDir;
    run;
    try (rewrite getUserFromSession_caller, Hc; reflexivity);
    try (rewrite Ha; reflexivity).
  match goal with H : upload_dir w = _ |- _ => rewrite H end.
  run. now rewrite Ha.
Qed.

Lemma no_session_no_action_witness :
  let c := Scenario.request "s-old" 86401000 in
  let w := Scenario.world "false" in
  (forall v, unauthenticated (registerUser c v w) w)
  /\ (forall t s, unauthenticated (updateUserStatus c t s w) w)
  /\ (forall t p, unauthenticated (resetUserPassword c t p w) w)
  /\ (forall t u, unauthenticated (updateUserProfile c t u w) w)
  /\ (forall t, unauthenticated (deleteUser c t w) w)
  /\ (forall v, unauthenticated (updateOwnProfile c v w) w)
  /\ (forall id v, unauthenticated (toggleFileVisibility c id v w) w)
  /\ (forall id, unauthenticated (deleteFile c id w) w)
  /\ (forall id, unauthenticated (getDownloadFileInfo c id w) w)
  /\ (forall id, unauthenticated (getPreviewFileInfo c id w) w)
  /\ (upload_dir w = DirPresent ->
      forall fd, unauthenticated (uploadFile c fd w) w)
  /\ (forall fp pv,
      GET c fp pv w = (Ret (text_response "Unauthorized" 401), w)).
Proof.
  apply (no_session_no_action (Scenario.request "s-old" 86401000)
           (Scenario.world "false")).
  - vm_compute. reflexivity.
  - vm_compute. reflexivity.
Defined.

(** ** What the administrative actions do to sessions and rows *)

Lemma find_user_fmap id g l :
  (forall x, user_id (g x) = user_id x) ->
  find_user id (List.map g l) = g <$> find_user id l.
Proof.
  intros Hg. unfold find_user.
  induction l as [|a l IH]; cbn; [reflexivity |].
  rewrite Hg. now destruct (user_id a =? id).
Qed.

Lemma find_user_id id l u : find_user id l = Some u -> user_id u = id.
Proof.
  unfold find_user. intros H. apply List.find_some in H as [_ H].
  now apply Z.eqb_eq.
Qed.

Lemma kept_session (t : Z) (except : option string)
    (m : gmap string Session) sid s :
  filter
    (fun kv : string * Session =>
       bool_decide (session_user_id kv.2 = t /\ except <> Some kv.1) = false)
    m !! sid = Some s
  <-> m !! sid = Some s /\ (session_user_id s <> t \/ except = Some sid).
Proof.
  rewrite map_lookup_filter_Some. cbn.
  rewrite bool_decide_eq_false. split; intros [H1 H2]; split; auto.
  - destruct (decide (session_user_id s = t)); [| now left].
    destruct (decide (except = Some sid)); [now right |].
    exfalso. apply H2. auto.
  - intros [Ht Hne]. destruct H2; contradiction.
Qed.

(** X11: when [resetUserPassword] reports success, the target account
    carries the digest of the new password, which verifies, and no
    session of the target is left; the sessions of everybody else are
    kept. *)
Theorem resetUserPassword_revokes_sessions c w t p msg :
  fst (resetUserPassword c t p w) = Ret (Success msg) ->
  let w' := snd (resetUserPassword c t p w) in
  (exists u, find_user t (users w') = Some u
             /\ password_hash u = hashPassword p
             /\ verifyPassword p (password_hash u) = Ret true)
  /\ (forall sid s,
      sessions w' !! sid = Some s
      <-> sessions w !! sid = Some s /\ session_user_id s <> t).
Proof.
  cbv zeta.
  unfold resetUserPassword, unauthorized, passwordMinLength, update_user,
    delete_sessions_of, insert_log.
  open_action; split_all; intros H; try discriminate H;
    (split;
     [ match goal with
       | Hf : find_user t (users w) = Some ?u |- _ =>
           exists (with_password_hash (hashPassword p) u);
           rewrite (find_user_map t t _ _ u) by (reflexivity || exact Hf);
           rewrite (find_user_id _ _ _ Hf), Z.eqb_refl;
           repeat split; apply verifyPassword_hash
       end
     | intros sid0 ses; rewrite kept_session; split;
       [ intros [H1 [H2 | H2]]; [auto | discriminate H2]
       | intros [H1 H2]; auto ] ]).
Qed.

Lemma resetUserPassword_revokes_sessions_witness :
  let c := Scenario.request "s-root" 1000 in
  let w := Scenario.world "false" in
  let w' := snd (resetUserPassword c 2 "looking-glass" w) in
  (exists u, find_user 2 (users w') = Some u
             /\ password_hash u = hashPassword "looking-glass"
             /\ verifyPassword "looking-glass" (password_hash u) = Ret true)
  /\ (forall sid s,
      sessions w' !! sid = Some s
      <-> sessions w !! sid = Some s /\ session_user_id s <> 2).
Proof.
  apply (resetUserPassword_revokes_sessions (Scenario.request "s-root" 1000)
           (Scenario.world "false") 2 "looking-glass"
           "Password for user 'alice' has been reset successfully.").
  vm_compute. reflexivity.
Defined.

(** The old token of the account no longer resolves. *)
Example resetUserPassword_old_token :
  actor (Scenario.request "s-alice" 1001)
    (snd (resetUserPassword (Scenario.request "s-root" 1000) 2
            "looking-glass" (Scenario.world "false")))
  = None.
Proof. vm_compute. reflexivity. Qed.

(** X12: when [updateOwnProfile] reports success for a change of
    password, the caller's account carries the digest of the new
    password, every other session of the caller is gone, and the session
    of the request itself, like the sessions of other users, is kept. *)
Theorem updateOwnProfile_keeps_current_session c w values np id r msg :
  own_newPassword values = Some np ->
  np <> "" ->
  caller c w = Some (id, r) ->
  fst (updateOwnProfile c values w) = Ret (Success msg) ->
  let w' := snd (updateOwnProfile c values w) in
  (exists u, find_user id (users w') = Some u
             /\ password_hash u = hashPassword np)
  /\ (forall sid s,
      sessions w' !! sid = Some s
      <-> sessions w !! sid = Some s
          /\ (session_user_id s <> id \/ cookie_session_id c = Some sid)).
Proof.
  intros Hnp Hne Hc. cbv zeta.
  assert (Hck : Some (default "" (cookie_session_id c)) = cookie_session_id c).
  { unfold caller, getUserFromSession, gets in Hc.
    destruct (cookie_session_id c); [reflexivity | discriminate Hc]. }
  unfold updateOwnProfile, passwordMinLength, update_user,
    delete_sessions_of, insert_log.
  run. rewrite getUserFromSession_caller, Hc, Hnp. run.
  cbn [default]. rewrite (truthy_Some _ Hne). run.
  split_all; intros H; try discriminate H;
    (split;
     [ match goal with
       | Hf : find_user id (users w) = Some ?u |- _ =>
           eexists;
           rewrite (find_user_map id id _ _ u) by (reflexivity || exact Hf);
           rewrite (find_user_id _ _ _ Hf), Z.eqb_refl;
           split; reflexivity
       end
     | intros sid0 ses; rewrite kept_session, Hck; reflexivity ]).
Qed.

Lemma updateOwnProfile_keeps_current_session_witness :
  let c := Scenario.request "s-alice" 400 in
  let w := Scenario.world "false" in
  let values :=
    mkOwnProfile None (Some "wonderland") (Some "looking-glass") in
  let w' := snd (updateOwnProfile c values w) in
  (exists u, find_user 2 (users w') = Some u
             /\ password_hash u = hashPassword "looking-glass")
  /\ (forall sid s,
      sessions w' !! sid = Some s
      <-> sessions w !! sid = Some s
          /\ (session_user_id s <> 2 \/ cookie_session_id c = Some sid)).
Proof.
  apply (updateOwnProfile_keeps_current_session
           (Scenario.request "s-alice" 400) (Scenario.world "false")
           (mkOwnProfile None (Some "wonderland") (Some "looking-glass"))
           "looking-glass" 2 RoleUser "Profile updated successfully.").
  - reflexivity.
  - discriminate.
  - vm_compute. reflexivity.
  - vm_compute. reflexivity.
Defined.

Example updateOwnProfile_other_session_closed :
  let w' :=
    snd (updateOwnProfile (Scenario.request "s-alice" 400)
           (mkOwnProfile None (Some "wonderland") (Some "looking-glass"))
           (Scenario.world "false")) in
  actor (Scenario.request "s-old" 401) w' = None
  /\ actor (Scenario.request "s-alice" 401) w' = Some 2.
Proof. vm_compute. split; reflexivity. Qed.

(** X13: [updateUserStatus] never touches the sessions table, and every
    request resolves to the same caller before and after it, whatever
    the action answers: deactivating an account does not close the
    sessions it has open. *)
Theorem updateUserStatus_keeps_sessions c c' w t s :
  let w' := snd (updateUserStatus c t s w) in
  sessions w' = sessions w
  /\ caller c' w' = caller c' w
  /\ actor c' w' = actor c' w.
Proof.
  cbv zeta.
  assert (H : sessions (snd (updateUserStatus c t s w)) = sessions w
              /\ (users (snd (updateUserStatus c t s w)) = users w
                  \/ users (snd (updateUserStatus c t s w))
                     = List.map
                         (fun u => if user_id u =? t then with_status s u
                                   else u) (users w))).
  { unfold updateUserStatus, unauthorized, update_user, insert_log.
    open_action; split_all; split; auto. }
  destruct H as [Hs Hu].
  split; [exact Hs |].
  unfold caller, actor, getUserFromSession, getUserIdFromSession, gets.
  cbv beta iota. rewrite Hs. split; [| reflexivity].
  destruct Hu as [-> | ->]; [reflexivity |].
  destruct (Js.truthy _); [| reflexivity].
  destruct (sessions w !! _) as [x|]; [| reflexivity].
  destruct (later_than_current_timestamp (expires_at x) (now c'));
    [| reflexivity].
  rewrite find_user_fmap
    by (intros u; destruct (user_id u =? t); reflexivity).
  destruct (find_user (session_user_id x) (users w)) as [u|];
    [| reflexivity].
  cbn. now destruct (user_id u =? t).
Qed.

Lemma updateUserStatus_keeps_sessions_witness :
  let c := Scenario.request "s-root" 1000 in
  let c' := Scenario.request "s-alice" 1500 in
  let w := Scenario.world "false" in
  let w' := snd (updateUserStatus c 2 Inactive w) in
  sessions w' = sessions w
  /\ caller c' w' = caller c' w
  /\ actor c' w' = actor c' w.
Proof.
  apply (updateUserStatus_keeps_sessions (Scenario.request "s-root" 1000)
           (Scenario.request "s-alice" 1500) (Scenario.world "false") 2
           Inactive).
Defined.

Example deactivated_user_still_acts :
  let w' :=
    snd (updateUserStatus (Scenario.request "s-root" 1000) 2 Inactive
           (Scenario.world "false")) in
  status <$> find_user 2 (users w') = Some Inactive
  /\ fst (toggleFileVisibility (Scenario.request "s-alice" 1001) 7 Public w')
     = Ret (Success "File visibility changed to public.").
Proof. vm_compute. split; reflexivity. Qed.

(** X14: when [deleteUser] reports success, the account is gone together
    with its sessions and notifications, while every file is still
    there, the files of the deleted account now without an owner. *)
Theorem deleteUser_cascade c w t msg :
  fst (deleteUser c t w) = Ret (Success msg) ->
  let w' := snd (deleteUser c t w) in
  find_user t (users w') = None
  /\ (forall sid s,
      sessions w' !! sid = Some s
      <-> sessions w !! sid = Some s /\ session_user_id s <> t)
  /\ (forall n, In n (notifications w')
      <-> In n (notifications w) /\ notification_user_id n <> t)
  /\ files w' = List.map (orphan_file t) (files w)
  /\ (forall f, In f (files w') -> uploader_id f <> Some t).
Proof.
  cbv zeta.
  unfold deleteUser, unauthorized, delete_user_row, delete_sessions_of,
    insert_log.
  open_action; split_all; intros H; try discriminate H.
  all: split; [apply (find_filter_negb (fun u => user_id u =? t)) |].
  all: split;
    [ intros sid0 ses; rewrite map_lookup_filter_Some, kept_session; cbn;
      intuition congruence |].
  all: split;
    [ intros n0; rewrite !List.filter_In, negb_true_iff, Z.eqb_neq;
      tauto |].
  all: split; [reflexivity |].
  all: intros f0 Hf0; apply List.in_map_iff in Hf0 as (g0 & <- & _);
    unfold orphan_file; case_bool_decide; cbn; congruence.
Qed.

Lemma deleteUser_cascade_witness :
  let c := Scenario.request "s-root" 1000 in
  let w := Scenario.world "false" in
  let w' := snd (deleteUser c 2 w) in
  find_user 2 (users w') = None
  /\ (forall sid s,
      sessions w' !! sid = Some s
      <-> sessions w !! sid = Some s /\ session_user_id s <> 2)
  /\ (forall n, In n (notifications w')
      <-> In n (notifications w) /\ notification_user_id n <> 2)
  /\ files w' = List.map (orphan_file 2) (files w)
  /\ (forall f, In f (files w') -> uploader_id f <> Some 2).
Proof.
  apply (deleteUser_cascade (Scenario.request "s-root" 1000)
           (Scenario.world "false") 2 "User 'alice' has been deleted.").
  vm_compute. reflexivity.
Defined.

(** The private file of a deleted account can then be read by
    administrators only. *)
Example orphaned_file_admin_only :
  let w' :=
    snd (deleteUser (Scenario.request "s-root" 1000) 3
           (set_files (List.map (fun f =>
              mkFile (file_id f) (file_name f) (file_type f) (file_size f)
                (upload_date f) (Some 3) Private (file_path f)))
              (Scenario.world "false"))) in
  resp_status <$> (match fst (GET (Scenario.request "s-alice" 1001)
                                ["100-aa-report.pdf"] None w')
                   with Ret r => Some r | Throw _ => None end) = Some 403
  /\ resp_status <$> (match fst (GET (Scenario.request "s-root" 1001)
                                   ["100-aa-report.pdf"] None w')
                      with Ret r => Some r | Throw _ => None end) = Some 200.
Proof. vm_compute. split; reflexivity. Qed.

(** ** Files: refusals *)

Lemma may_not_change_spec f uid w :
  ~ may_change f uid w ->
  negb (owner_is f uid) && negb (is_admin (role <$> find_user uid (users w)))
  = true.
Proof.
  unfold may_change, role_of, owner_is, is_admin. intros H.
  destruct (uploader_id f) as [o|]; cbn.
  - destruct (Z.eqb_spec o uid) as [-> | Hne]; [tauto |]. cbn.
    destruct (role <$> find_user uid (users w)) as [[|]|]; tauto.
  - destruct (role <$> find_user uid (users w)) as [[|]|]; tauto.
Qed.

(** X15: an actor who neither owns a file nor is an administrator can
    neither change its visibility nor delete it: both actions answer
    with a permission error and leave files and disk as they were; the
    only trace is one [Unauthorized Action] row of category [security]. *)
Theorem stranger_cannot_change_file c w fileId uid f :
  ledger_healthy c ->
  actor c w = Some uid ->
  find_file fileId (files w) = Some f ->
  ~ may_change f uid w ->
  (forall v,
     refused_with (toggleFileVisibility c fileId v w) w "Permission denied."
       (toggle_refused_entry c uid fileId))
  /\ refused_with (deleteFile c fileId w) w
       "Permission denied to delete this file."
       (delete_refused_entry c uid fileId).
Proof.
  intros Hl Ha Hf Hm. apply actor_session in Ha.
  apply may_not_change_spec in Hm.
  unfold refused_with, toggle_refused_entry, delete_refused_entry.
  split; [intros v |];
    unfold toggleFileVisibility, deleteFile, getUserIdFromSession,
      getUserRole;
    run; rewrite Ha; run; rewrite Hf, Hm;
    now rewrite insert_log_healthy by exact Hl.
Qed.

Lemma stranger_cannot_change_file_witness :
  let c := Scenario.request "s-alice" 1000 in
  let w :=
    set_files (fun _ => [mkFile 7 "report.pdf" "application/pdf" 3 100
                           (Some 3) Private "uploads/100-aa-report.pdf"])
      (Scenario.world "false") in
  (forall v,
     refused_with (toggleFileVisibility c 7 v w) w "Permission denied."
       (toggle_refused_entry c 2 7))
  /\ refused_with (deleteFile c 7 w) w
       "Permission denied to delete this file."
       (delete_refused_entry c 2 7).
Proof.
  apply (stranger_cannot_change_file (Scenario.request "s-alice" 1000) _ 7 2
           (mkFile 7 "report.pdf" "application/pdf" 3 100 (Some 3) Private
              "uploads/100-aa-report.pdf")).
  - intros e. reflexivity.
  - vm_compute. reflexivity.
  - vm_compute. reflexivity.
  - intros [H | H]; vm_compute in H; discriminate H.
Defined.

(** X16: for a file name and an allow-list made of ASCII characters, an
    upload whose extension is not on a non-empty allow-list is answered
    with the type error and leaves no trace: no file row, nothing on
    disk, no ledger row.  (Outside ASCII JavaScript folds and trims more
    than the comparison here does.) *)
Theorem uploadFile_type_refused c w formData file uid :
  upload_dir w = DirPresent \/ upload_dir w = DirAbsent true ->
  actor c w = Some uid ->
  form_file formData = Some file ->
  ascii_text (up_name file) = true ->
  ascii_text (default "" (settings w !! "allowedFileTypes")) = true ->
  Js.gt_nan (up_size file) (size_limit_bytes w) = false ->
  type_refused w file = true ->
  let w' := snd (uploadFile c formData w) in
  fst (uploadFile c formData w)
  = Ret (Failure ("File type '." ++ upload_extension file
                  ++ "' is not allowed."))
  /\ files w' = files w /\ disk w' = disk w /\ logs w' = logs w.
Proof.
  intros Hd Ha Hfile _ _ Hsize Htype. cbv zeta.
  unfold size_limit_bytes in Hsize.
  unfold type_refused, upload_extension in *.
  unfold uploadFile, ensureUploadDir, getUserIdFromSession, getSetting.
  run. destruct Hd as [Hd | Hd]; rewrite Hd; run;
    cbn [sessions settings set_upload_dir];
    rewrite (actor_session _ _ _ Ha); rewrite Hfile; run;
    cbn [sessions settings set_upload_dir];
    rewrite Hsize; cbv zeta in Htype; rewrite Htype;
    cbn [fst snd files disk logs set_upload_dir]; auto.
Qed.

Lemma uploadFile_type_refused_witness :
  let c := Scenario.request "s-alice" 1000 in
  let w :=
    mkWorld [Scenario.alice] []
      (<["s-alice" := mkSession 2 5000 0 0 "::1" "curl/8"]> ∅)
      (<["allowedFileTypes" := "jpg, .PNG, pdf"]> ∅)
      [] [] ∅ DirPresent 3 1 None in
  let formData :=
    mkForm (Some (mkUpload "run.EXE" "application/x-msdownload" "MZ"))
      None in
  let w' := snd (uploadFile c formData w) in
  fst (uploadFile c formData w)
  = Ret (Failure ("File type '."
                  ++ upload_extension
                       (mkUpload "run.EXE" "application/x-msdownload" "MZ")
                  ++ "' is not allowed."))
  /\ files w' = files w /\ disk w' = disk w /\ logs w' = logs w.
Proof.
  apply (uploadFile_type_refused (Scenario.request "s-alice" 1000) _ _
           (mkUpload "run.EXE" "application/x-msdownload" "MZ") 2).
  - left. reflexivity.
  - vm_compute. reflexivity.
  - reflexivity.
  - reflexivity.
  - vm_compute. reflexivity.
  - vm_compute. reflexivity.
  - vm_compute. reflexivity.
Defined.

Example upload_extension_case :
  upload_extension (mkUpload "Photo.JPG" "image/jpeg" "x") = "jpg"
  /\ upload_extension (mkUpload "archive.tar.gz" "" "x") = "gz"
  /\ upload_extension (mkUpload "Makefile" "" "x") = ""
  /\ upload_extension (mkUpload ".env" "" "x") = "".
Proof. repeat split; reflexivity. Qed.

(** ** The byte server: what a request leaves behind and what it sends *)

(** X17: with a working ledger, every request of an authenticated actor
    to the byte server appends exactly one ledger row, under the actor's
    id, and changes nothing else; the row is of category [file] for a
    served file (labelled preview or download after the query
    parameter) and of category [security] for a 403. *)
Theorem GET_one_ledger_row c w filepath preview uid :
  ledger_healthy c ->
  actor c w = Some uid ->
  exists resp e,
    GET c filepath preview w
    = (Ret resp, set_logs (fun l => (l ++ [e])%list) w)
    /\ log_user_id e = Some uid
    /\ (resp_status resp = 200 ->
        log_type e = "file"
        /\ log_action e
           = if bool_decide (preview = Some "true")
             then "File Preview" else "File Download")
    /\ (resp_status resp = 403 -> log_type e = "security")
    /\ (resp_status resp = 200 \/ resp_status resp = 403
        \/ resp_status resp = 404).
Proof.
  intros Hl Ha. apply actor_session in Ha.
  unfold GET, validateSessionAndGetUserId, getUserIdFromSession,
    getUserRole, insert_log.
  run. rewrite Ha. run.
  split_all; try ledger_contradiction Hl;
    do 2 eexists; (split; [reflexivity |]);
    cbn [log_user_id log_type log_action resp_status text_response];
    repeat split; auto; try discriminate; try (intros; lia).
Qed.

Lemma GET_one_ledger_row_witness :
  let c := Scenario.request "s-alice" 1000 in
  let w := Scenario.world "false" in
  exists resp e,
    GET c ["100-aa-report.pdf"] (Some "true") w
    = (Ret resp, set_logs (fun l => (l ++ [e])%list) w)
    /\ log_user_id e = Some 2
    /\ (resp_status resp = 200 ->
        log_type e = "file"
        /\ log_action e
           = if bool_decide (Some "true" = Some "true")
             then "File Preview" else "File Download")
    /\ (resp_status resp = 403 -> log_type e = "security")
    /\ (resp_status resp = 200 \/ resp_status resp = 403
        \/ resp_status resp = 404).
Proof.
  apply (GET_one_ledger_row (Scenario.request "s-alice" 1000)
           (Scenario.world "false") ["100-aa-report.pdf"] (Some "true") 2).
  - intros e. reflexivity.
  - vm_compute. reflexivity.
Defined.

(** X18: the two 404 answers are told apart.  A path under the root
    without a row is [File not found] with a row of category [file]; a
    readable row whose bytes are not on disk is [File data missing] with
    a row of category [system]. *)
Theorem GET_missing_row_or_missing_bytes c w filepath preview uid :
  ledger_healthy c ->
  actor c w = Some uid ->
  Path.under (uploadDirResolved_of c) (resolvedPath_of c filepath) = true ->
  (find_file_by_path (relativePath_of filepath) (files w) = None ->
   exists e,
     GET c filepath preview w
     = (Ret (text_response "File not found" 404),
        set_logs (fun l => (l ++ [e])%list) w)
     /\ log_type e = "file")
  /\ (forall f,
      find_file_by_path (relativePath_of filepath) (files w) = Some f ->
      may_read f uid w ->
      disk w !! Path.resolve (cwd c) [cwd c; file_path f] = None ->
      exists e,
        GET c filepath preview w
        = (Ret (text_response "File data missing" 404),
           set_logs (fun l => (l ++ [e])%list) w)
        /\ log_type e = "system"
        /\ log_resource_id e = Some (file_id f)).
Proof.
  intros Hl Ha Hu. apply actor_session in Ha. apply under_startsWith in Hu.
  unfold resolvedPath_of, uploadDirResolved_of, relativePath_of in *.
  split.
  - intros Hf.
    unfold GET, validateSessionAndGetUserId, getUserIdFromSession.
    run. rewrite Ha, Hu. run. rewrite Hf.
    rewrite insert_log_healthy by exact Hl. eauto.
  - intros f Hf Hm Hd. apply may_read_not_refused in Hm.
    unfold GET, validateSessionAndGetUserId, getUserIdFromSession,
      getUserRole.
    run. rewrite Ha, Hu. run. rewrite Hf, Hm, Hd.
    rewrite insert_log_healthy by exact Hl. eauto.
Qed.

Lemma GET_missing_row_or_missing_bytes_witness :
  let c := Scenario.request "s-alice" 1000 in
  let w := set_disk (fun _ => ∅) (Scenario.world "false") in
  (find_file_by_path (relativePath_of ["100-aa-report.pdf"]) (files w)
   = None ->
   exists e,
     GET c ["100-aa-report.pdf"] None w
     = (Ret (text_response "File not found" 404),
        set_logs (fun l => (l ++ [e])%list) w)
     /\ log_type e = "file")
  /\ (forall f,
      find_file_by_path (relativePath_of ["100-aa-report.pdf"]) (files w)
      = Some f ->
      may_read f 2 w ->
      disk w !! Path.resolve (cwd c) [cwd c; file_path f] = None ->
      exists e,
        GET c ["100-aa-report.pdf"] None w
        = (Ret (text_response "File data missing" 404),
           set_logs (fun l => (l ++ [e])%list) w)
        /\ log_type e = "system"
        /\ log_resource_id e = Some (file_id f)).
Proof.
  apply (GET_missing_row_or_missing_bytes (Scenario.request "s-alice" 1000)
           (set_disk (fun _ => ∅) (Scenario.world "false"))
           ["100-aa-report.pdf"] None 2).
  - intros e. reflexivity.
  - vm_compute. reflexivity.
  - vm_compute. reflexivity.
Defined.

Example GET_data_missing :
  fst (GET (Scenario.request "s-alice" 1000) ["100-aa-report.pdf"] None
         (set_disk (fun _ => ∅) (Scenario.world "false")))
  = Ret (text_response "File data missing" 404).
Proof. vm_compute. reflexivity. Qed.

(** X19: what a served file is sent with.  The body is the bytes on
    disk and the length is theirs; the type comes from the stored name,
    then the stored type, never from the request; the disposition is
    [inline] only when the request asks for a preview and the type is an
    image, a PDF or text, and [attachment] otherwise; a private file is
    sent with [no-store], every other file with a bounded [max-age]. *)
Theorem GET_served_headers c w filepath preview uid f bytes :
  ledger_healthy c ->
  actor c w = Some uid ->
  Path.under (uploadDirResolved_of c) (resolvedPath_of c filepath) = true ->
  find_file_by_path (relativePath_of filepath) (files w) = Some f ->
  may_read f uid w ->
  disk w !! Path.resolve (cwd c) [cwd c; file_path f] = Some bytes ->
  fst (GET c filepath preview w)
  = Ret (mkResponse 200 bytes
           (Some (content_type_of c f))
           (Some (Z.of_nat (String.length bytes)))
           (Some ((if bool_decide (preview = Some "true")
                      && previewable (content_type_of c f)
                   then "inline" else "attachment")
                  ++ "; filename=" ++ dquote
                  ++ encodeURIComponent c (file_name f) ++ dquote))
           (Some (match visibility f with
                  | Private => "private, no-store, must-revalidate"
                  | _ => "public, max-age=3600"
                  end))).
Proof.
  intros Hl Ha Hu Hf Hm Hd. apply actor_session in Ha.
  apply under_startsWith in Hu. apply may_read_not_refused in Hm.
  unfold resolvedPath_of, uploadDirResolved_of, relativePath_of in *.
  unfold GET, validateSessionAndGetUserId, getUserIdFromSession,
    getUserRole.
  run. rewrite Ha, Hu. run. rewrite Hf, Hm, Hd.
  rewrite insert_log_healthy by exact Hl. reflexivity.
Qed.

Lemma GET_served_headers_witness :
  let c := Scenario.request "s-alice" 1000 in
  let w := Scenario.world "false" in
  let f := Scenario.report in
  fst (GET c ["100-aa-report.pdf"] (Some "true") w)
  = Ret (mkResponse 200 "pdf"
           (Some (content_type_of c f))
           (Some (Z.of_nat (String.length "pdf")))
           (Some ((if bool_decide (Some "true" = Some "true")
                      && previewable (content_type_of c f)
                   then "inline" else "attachment")
                  ++ "; filename=" ++ dquote
                  ++ encodeURIComponent c (file_name f) ++ dquote))
           (Some (match visibility f with
                  | Private => "private, no-store, must-revalidate"
                  | _ => "public, max-age=3600"
                  end))).
Proof.
  apply (GET_served_headers (Scenario.request "s-alice" 1000)
           (Scenario.world "false") ["100-aa-report.pdf"] (Some "true") 2
           Scenario.report "pdf").
  - intros e. reflexivity.
  - vm_compute. reflexivity.
  - vm_compute. reflexivity.
  - vm_compute. reflexivity.
  - right. left. reflexivity.
  - vm_compute. reflexivity.
Defined.

Example GET_preview_of_binary_is_attachment :
  resp_content_disposition
    <$> (match fst (GET (Scenario.request "s-alice" 1000)
                      ["100-aa-report.pdf"] (Some "true")
                      (set_files (List.map (fun f =>
                         mkFile (file_id f) "setup.exe"
                           "application/x-msdownload" (file_size f)
                           (upload_date f) (uploader_id f) (visibility f)
                           (file_path f)))
                         (Scenario.world "false")))
         with Ret r => Some r | Throw _ => None end)
  = Some (Some ("attachment; filename=" ++ dquote ++ "setup.exe" ++ dquote)).
Proof. vm_compute. reflexivity. Qed.

(** ** Stored file names *)

Lemma sanitize_safe s : all_chars Str.safe_char (Str.sanitize s) = true.
Proof.
  induction s as [|c s IH]; [reflexivity |]. cbn [Str.sanitize].
  destruct (Str.safe_char c) eqn:E; cbn [all_chars].
  - now rewrite E.
  - destruct (Str.is_cont c); [exact IH |].
    destruct (Str.is_lead4 c); cbn [all_chars]; now rewrite IH.
Qed.

Lemma sanitize_fixed s :
  all_chars Str.safe_char s = true -> Str.sanitize s = s.
Proof.
  induction s as [|c s IH]; [reflexivity |]. cbn [all_chars Str.sanitize].
  intros H. apply andb_true_iff in H as [Hc Hs].
  now rewrite Hc, IH.
Qed.

(** X20: the name [uploadFile] stores a file under is made of letters,
    digits, [_], [.] and [-] only, so it holds no separator and no
    control character; sanitizing keeps an already safe name as it is,
    so doing it twice is doing it once. *)
Theorem sanitize_safe_and_idempotent s :
  all_chars Str.safe_char (Str.sanitize s) = true
  /\ all_chars (fun c => negb (Ascii.eqb c Path.slash)) (Str.sanitize s)
     = true
  /\ Str.sanitize (Str.sanitize s) = Str.sanitize s
  /\ (all_chars Str.safe_char s = true -> Str.sanitize s = s).
Proof.
  split; [apply sanitize_safe |]. split.
  - pose proof (sanitize_safe s) as H.
    induction (Str.sanitize s) as [|c r IH]; [reflexivity |].
    cbn [all_chars] in *. apply andb_true_iff in H as [Hc Hr].
    rewrite (IH Hr), andb_true_r.
    destruct (Ascii.eqb_spec c Path.slash) as [-> | _];
      [discriminate Hc | reflexivity].
  - split; [apply sanitize_fixed, sanitize_safe | apply sanitize_fixed].
Qed.

Lemma sanitize_safe_and_idempotent_witness :
  let s := "../my file.pdf" in
  all_chars Str.safe_char (Str.sanitize s) = true
  /\ all_chars (fun c => negb (Ascii.eqb c Path.slash)) (Str.sanitize s)
     = true
  /\ Str.sanitize (Str.sanitize s) = Str.sanitize s
  /\ (all_chars Str.safe_char s = true -> Str.sanitize s = s).
Proof. apply (sanitize_safe_and_idempotent "../my file.pdf"). Defined.

Example sanitize_cases :
  Str.sanitize "../../etc/passwd" = ".._.._etc_passwd"
  /\ Str.sanitize "my file (1).txt" = "my_file__1_.txt"
  /\ Str.sanitize "résumé.pdf" = "r_sum_.pdf".
Proof. repeat split; reflexivity. Qed.

(** ** The ledger only grows *)

Ltac extends_leaf :=
  unfold ledger_extends; world_fields; eexists;
  rewrite <- ?app_assoc;
  first [ reflexivity | symmetry; apply app_nil_r ].

Section Ledger.

Variables (c : Ctx) (w : World).

Lemma loginUser_extends v : ledger_extends w (snd (loginUser c v w)).
Proof.
  unfold loginUser, createSession, verifyPassword, timingSafeEqual,
    insert_log.
  run. split_all; extends_leaf.
Qed.

Lemma logoutUser_extends : ledger_extends w (snd (logoutUser c w)).
Proof.
  unfold logoutUser, deleteSession, insert_log.
  open_action; split_all; extends_leaf.
Qed.

Lemma registerUser_extends v : ledger_extends w (snd (registerUser c v w)).
Proof.
  unfold registerUser, unauthorized, passwordMinLength, insert_log.
  open_action; split_all; extends_leaf.
Qed.

Lemma updateUserStatus_extends t s :
  ledger_extends w (snd (updateUserStatus c t s w)).
Proof.
  unfold updateUserStatus, unauthorized, update_user, insert_log.
  open_action; split_all; extends_leaf.
Qed.

Lemma resetUserPassword_extends t p :
  ledger_extends w (snd (resetUserPassword c t p w)).
Proof.
  unfold resetUserPassword, unauthorized, passwordMinLength, update_user,
    delete_sessions_of, insert_log.
  open_action; split_all; extends_leaf.
Qed.

Lemma updateUserProfile_extends t u :
  ledger_extends w (snd (updateUserProfile c t u w)).
Proof.
  unfold updateUserProfile, unauthorized, update_user, insert_log.
  open_action; split_all; extends_leaf.
Qed.

Lemma updateOwnProfile_extends v :
  ledger_extends w (snd (updateOwnProfile c v w)).
Proof.
  unfold updateOwnProfile, passwordMinLength, update_user,
    delete_sessions_of, verifyPassword, timingSafeEqual, insert_log.
  open_action; split_all; extends_leaf.
Qed.

Lemma toggleFileVisibility_extends id v :
  ledger_extends w (snd (toggleFileVisibility c id v w)).
Proof.
  unfold toggleFileVisibility, getUserIdFromSession, getUserRole,
    insert_log.
  run. split_all; extends_leaf.
Qed.

Lemma deleteFile_extends id : ledger_extends w (snd (deleteFile c id w)).
Proof.
  unfold deleteFile, getUserIdFromSession, getUserRole, delete_file_row,
    unlink, insert_log.
  run. split_all; extends_leaf.
Qed.

Lemma getDownloadFileInfo_extends id :
  ledger_extends w (snd (getDownloadFileInfo c id w)).
Proof.
  unfold getDownloadFileInfo, getUserIdFromSession, getUserRole, insert_log.
  run. split_all; extends_leaf.
Qed.

Lemma getPreviewFileInfo_extends id :
  ledger_extends w (snd (getPreviewFileInfo c id w)).
Proof.
  unfold getPreviewFileInfo, getUserIdFromSession, getUserRole, insert_log.
  run. split_all; extends_leaf.
Qed.

Lemma uploadFile_extends fd : ledger_extends w (snd (uploadFile c fd w)).
Proof.
  unfold uploadFile, ensureUploadDir, getUserIdFromSession, getSetting,
    writeFile, insert_file, unlink, insert_log.
  run. split_all; extends_leaf.
Qed.

Lemma GET_extends fp pv : ledger_extends w (snd (GET c fp pv w)).
Proof.
  unfold GET, validateSessionAndGetUserId, getUserIdFromSession,
    getUserRole, insert_log.
  run. split_all; extends_leaf.
Qed.

Lemma deleteUser_ledger t :
  exists l,
    logs (snd (deleteUser c t w)) = (logs w ++ l)%list
    \/ logs (snd (deleteUser c t w))
       = (List.map (orphan_log t) (logs w) ++ l)%list.
Proof.
  unfold deleteUser, unauthorized, delete_user_row, delete_sessions_of,
    insert_log.
  open_action; split_all; eexists; rewrite <- ?app_assoc;
    first [ left; reflexivity
          | left; symmetry; apply app_nil_r
          | right; reflexivity
          | right; symmetry; apply app_nil_r ].
Qed.

End Ledger.

(** X21: no action removes or rewrites a ledger row: after every user
    action, file action and request to the byte server, whatever it
    answers, the ledger is the old one with rows added at the end.  The
    one exception is [deleteUser], after which the old rows are all
    still there in order, those of the deleted account without its id. *)
Theorem ledger_only_grows c w :
  (forall v, ledger_extends w (snd (loginUser c v w)))
  /\ ledger_extends w (snd (logoutUser c w))
  /\ (forall v, ledger_extends w (snd (registerUser c v w)))
  /\ (forall t s, ledger_extends w (snd (updateUserStatus c t s w)))
  /\ (forall t p, ledger_extends w (snd (resetUserPassword c t p w)))
  /\ (forall t u, ledger_extends w (snd (updateUserProfile c t u w)))
  /\ (forall v, ledger_extends w (snd (updateOwnProfile c v w)))
  /\ (forall id v, ledger_extends w (snd (toggleFileVisibility c id v w)))
  /\ (forall id, ledger_extends w (snd (deleteFile c id w)))
  /\ (forall id, ledger_extends w (snd (getDownloadFileInfo c id w)))
  /\ (forall id, ledger_extends w (snd (getPreviewFileInfo c id w)))
  /\ (forall fd, ledger_extends w (snd (uploadFile c fd w)))
  /\ (forall fp pv, ledger_extends w (snd (GET c fp pv w)))
  /\ (forall t, exists l,
        logs (snd (deleteUser c t w)) = (logs w ++ l)%list
        \/ logs (snd (deleteUser c t w))
           = (List.map (orphan_log t) (logs w) ++ l)%list).
Proof.
  repeat split;
    auto using loginUser_extends, logoutUser_extends, registerUser_extends,
      updateUserStatus_extends, resetUserPassword_extends,
      updateUserProfile_extends, updateOwnProfile_extends,
      toggleFileVisibility_extends, deleteFile_extends,
      getDownloadFileInfo_extends, getPreviewFileInfo_extends,
      uploadFile_extends, GET_extends, deleteUser_ledger.
Qed.

Lemma ledger_only_grows_witness :
  let c := Scenario.request "s-alice" 1000 in
  let w := Scenario.world "false" in
  (forall v, ledger_extends w (snd (loginUser c v w)))
  /\ ledger_extends w (snd (logoutUser c w))
  /\ (forall v, ledger_extends w (snd (registerUser c v w)))
  /\ (forall t s, ledger_extends w (snd (updateUserStatus c t s w)))
  /\ (forall t p, ledger_extends w (snd (resetUserPassword c t p w)))
  /\ (forall t u, ledger_extends w (snd (updateUserProfile c t u w)))
  /\ (forall v, ledger_extends w (snd (updateOwnProfile c v w)))
  /\ (forall id v, ledger_extends w (snd (toggleFileVisibility c id v w)))
  /\ (forall id, ledger_extends w (snd (deleteFile c id w)))
  /\ (forall id, ledger_extends w (snd (getDownloadFileInfo c id w)))
  /\ (forall id, ledger_extends w (snd (getPreviewFileInfo c id w)))
  /\ (forall fd, ledger_extends w (snd (uploadFile c fd w)))
  /\ (forall fp pv, ledger_extends w (snd (GET c fp pv w)))
  /\ (forall t, exists l,
        logs (snd (deleteUser c t w)) = (logs w ++ l)%list
        \/ logs (snd (deleteUser c t w))
           = (List.map (orphan_log t) (logs w) ++ l)%list).
Proof.
  apply (ledger_only_grows (Scenario.request "s-alice" 1000)
           (Scenario.world "false")).
Defined.

(** ** Paths of stored files *)

Lemma str_app_assoc (a b c : string) : (a ++ b) ++ c = a ++ (b ++ c).
Proof.
  induction a as [|x a IH]; [reflexivity |].
  change (String x ((a ++ b) ++ c) = String x (a ++ (b ++ c))).
  now rewrite IH.
Qed.

Lemma str_app_nil_r (a : string) : a ++ "" = a.
Proof.
  induction a as [|x a IH]; [reflexivity |].
  change (String x (a ++ "") = String x a). now rewrite IH.
Qed.

Lemma str_app_cons x (a b : string) : String x a ++ b = String x (a ++ b).
Proof. reflexivity. Qed.

Lemma prefix_app a b : String.prefix a (a ++ b) = true.
Proof.
  induction a as [|x a IH]; [now destruct b |].
  rewrite str_app_cons. cbn. destruct (ascii_dec x x); [exact IH | congruence].
Qed.

Lemma split_slash_app cur a b :
  Path.split_slash cur (a ++ String Path.slash b)
  = (Path.split_slash cur a ++ Path.split_slash "" b)%list.
Proof.
  revert cur. induction a as [|x a IH]; intros cur.
  - change ("" ++ String Path.slash b) with (String Path.slash b).
    cbn [Path.split_slash]. now rewrite Ascii.eqb_refl.
  - rewrite str_app_cons. cbn [Path.split_slash].
    destruct (Ascii.eqb x Path.slash); [| apply IH].
    now rewrite IH.
Qed.

Lemma split_slash_plain cur a :
  no_slash a = true -> Path.split_slash cur a = [cur ++ a].
Proof.
  unfold no_slash. revert cur. induction a as [|x a IH]; intros cur H.
  - now rewrite str_app_nil_r.
  - cbn [all_chars] in H. apply andb_true_iff in H as [Hx Ha].
    cbn [Path.split_slash]. apply negb_true_iff in Hx. rewrite Hx.
    rewrite (IH _ Ha), str_app_assoc. reflexivity.
Qed.

Lemma split_slash_no_slash cur s :
  no_slash cur = true ->
  Forall (fun x => no_slash x = true) (Path.split_slash cur s).
Proof.
  unfold no_slash. revert cur. induction s as [|x s IH]; intros cur H.
  - cbn. auto.
  - cbn [Path.split_slash]. destruct (Ascii.eqb x Path.slash) eqn:E.
    + constructor; [exact H | now apply IH].
    + apply IH. rewrite all_chars_app, H. cbn. now rewrite E.
Qed.

Lemma normalize_segs_app a st l1 l2 :
  Path.normalize_segs a st (l1 ++ l2)%list
  = Path.normalize_segs a (rev (Path.normalize_segs a st l1)) l2.
Proof.
  revert st. induction l1 as [|x l1 IH]; intros st.
  - cbn. now rewrite rev_involutive.
  - cbn [app Path.normalize_segs].
    destruct (String.eqb x "" || String.eqb x "."); [apply IH |].
    destruct (String.eqb x "..").
    + destruct st as [|top st]; [apply IH |].
      destruct (String.eqb top ".."); apply IH.
    + apply IH.
Qed.

Lemma normalize_segs_plain a st l :
  forallb plain_segment l = true ->
  Path.normalize_segs a st l = (rev st ++ l)%list.
Proof.
  revert st. induction l as [|x l IH]; intros st H.
  - cbn. now rewrite app_nil_r.
  - cbn [forallb] in H. apply andb_true_iff in H as [Hx Hl].
    unfold plain_segment in Hx. apply negb_true_iff in Hx.
    apply orb_false_iff in Hx as [Hx H2].
    cbn [Path.normalize_segs]. rewrite Hx, H2.
    rewrite (IH _ Hl). cbn [rev]. now rewrite <- app_assoc.
Qed.

Lemma normalize_segs_trailing a st l :
  forallb plain_segment l = true ->
  Path.normalize_segs a st (l ++ [""])%list = (rev st ++ l)%list.
Proof.
  intros H. rewrite normalize_segs_app, (normalize_segs_plain _ _ _ H).
  cbn. now rewrite rev_involutive.
Qed.

Lemma forallb_rev_true {A} (p : A -> bool) l :
  forallb p l = true -> forallb p (rev l) = true.
Proof.
  rewrite !List.forallb_forall. intros H x Hx. apply H.
  now apply List.in_rev.
Qed.

(** Normalizing below the root leaves plain segments only. *)
Lemma normalize_segs_is_plain st l :
  forallb plain_segment st = true ->
  forallb plain_segment (Path.normalize_segs false st l) = true.
Proof.
  revert st. induction l as [|x l IH]; intros st H.
  - cbn. now apply forallb_rev_true.
  - cbn [Path.normalize_segs].
    destruct (String.eqb x "" || String.eqb x ".") eqn:E1; [now apply IH |].
    destruct (String.eqb x "..") eqn:E2.
    + destruct st as [|top st]; [now apply IH |].
      cbn [forallb] in H. apply andb_true_iff in H as [Ht Hst].
      destruct (String.eqb top ".."); apply IH; [| exact Hst].
      cbn [forallb]. now rewrite Ht.
    + apply IH. cbn [forallb]. rewrite H, andb_true_r.
      unfold plain_segment. now rewrite E1, E2.
Qed.

Lemma normalize_segs_no_slash a st l :
  Forall (fun x => no_slash x = true) st ->
  Forall (fun x => no_slash x = true) l ->
  Forall (fun x => no_slash x = true) (Path.normalize_segs a st l).
Proof.
  intros Hst Hl. revert st Hst.
  induction Hl as [|x l Hx Hl IH]; intros st Hst.
  - cbn. now apply Forall_rev.
  - cbn [Path.normalize_segs].
    destruct (String.eqb x "" || String.eqb x "."); [now apply IH |].
    destruct (String.eqb x "..") eqn:E.
    + destruct st as [|top st]; [destruct a; apply IH; auto |].
      inversion Hst; subst.
      destruct (String.eqb top ".."); [destruct a |]; apply IH; auto.
    + apply IH. auto.
Qed.

Lemma join_slash_snoc l x :
  l <> [] -> Path.join_slash (l ++ [x])%list = Path.join_slash l ++ "/" ++ x.
Proof.
  induction l as [|a l IH]; [congruence |]. intros _.
  destruct l as [|b l]; [reflexivity |].
  change (Path.join_slash ((a :: b :: l) ++ [x])%list)
    with (a ++ "/" ++ Path.join_slash ((b :: l) ++ [x])%list).
  rewrite IH by discriminate.
  change (Path.join_slash (a :: b :: l))
    with (a ++ "/" ++ Path.join_slash (b :: l)).
  now rewrite !str_app_assoc.
Qed.

Lemma segments_join_slash l :
  l <> [] ->
  Forall (fun x => no_slash x = true) l ->
  Path.segments (Path.join_slash l) = l.
Proof.
  unfold Path.segments. intros Hne H.
  induction H as [|a l Ha Hl IH]; [congruence |].
  destruct l as [|b l].
  - cbn [Path.join_slash]. now rewrite split_slash_plain.
  - change (Path.join_slash (a :: b :: l))
      with (a ++ String Path.slash (Path.join_slash (b :: l))).
    rewrite split_slash_app, (split_slash_plain _ _ Ha), IH by discriminate.
    reflexivity.
Qed.

Lemma ends_with_slash_app a b :
  b <> "" -> Path.ends_with_slash (a ++ b) = Path.ends_with_slash b.
Proof.
  intros Hb. induction a as [|x a IH]; [reflexivity |].
  rewrite str_app_cons. cbn [Path.ends_with_slash].
  destruct (a ++ b) as [|y r] eqn:E; [| exact IH].
  destruct a; [change (b = "") in E; congruence |].
  rewrite str_app_cons in E. discriminate E.
Qed.

Lemma ends_with_slash_plain s :
  no_slash s = true -> Path.ends_with_slash s = false.
Proof.
  unfold no_slash. induction s as [|x s IH]; [reflexivity |].
  cbn [all_chars]. intros H. apply andb_true_iff in H as [Hx Hs].
  cbn [Path.ends_with_slash]. destruct s; [now apply negb_true_iff | auto].
Qed.

Lemma simple_name_spec fn :
  simple_name fn = true ->
  fn <> "" /\ no_slash fn = true /\ plain_segment fn = true.
Proof.
  unfold simple_name, plain_segment. intros H.
  apply andb_true_iff in H as [H H4]. apply andb_true_iff in H as [H H3].
  apply andb_true_iff in H as [H1 H2].
  split; [now destruct fn |]. split; [exact H2 |].
  apply negb_true_iff in H3, H4. rewrite H3, H4.
  destruct fn; [discriminate H1 | reflexivity].
Qed.

Lemma resolve_args_below p cwd :
  p <> "" -> Path.isAbsolute p = false -> Path.isAbsolute cwd = true ->
  Path.resolve_args [p; cwd; cwd] ""
  = (cwd ++ String Path.slash (p ++ String Path.slash ""), true).
Proof.
  intros Hp Hrel Habs.
  destruct p as [|x p]; [congruence |].
  destruct cwd as [|y r]; [discriminate Habs |].
  cbn [Path.resolve_args]. rewrite Hrel. cbn [Path.resolve_args].
  now rewrite Habs.
Qed.

Lemma join_args_two a b :
  a <> "" -> b <> "" ->
  Path.join_args None [a; b] = Some (a ++ "/" ++ b).
Proof. destruct a, b; congruence || reflexivity. Qed.

Lemma normalize_absolute r q :
  Path.ends_with_slash (String Path.slash r) = false ->
  Path.normalizeString (String Path.slash r) false = q ->
  q <> "" ->
  Path.normalize (String Path.slash r) = "/" ++ q.
Proof.
  intros Ht Hq Hne. unfold Path.normalize. cbv beta iota zeta.
  cbn [Path.isAbsolute]. change (Ascii.eqb Path.slash Path.slash) with true.
  cbn [negb]. rewrite Ht, Hq. destruct q; [congruence | reflexivity].
Qed.

Section StoredPaths.

Variables (cwd fn : string).
Hypothesis Habs : Path.isAbsolute cwd = true.
Hypothesis Hfn : simple_name fn = true.

Lemma cwd_segments_plain : forallb plain_segment (cwd_segments cwd) = true.
Proof. now apply normalize_segs_is_plain. Qed.

Lemma cwd_segments_no_slash :
  Forall (fun x => no_slash x = true) (cwd_segments cwd).
Proof.
  apply normalize_segs_no_slash; [constructor |].
  now apply split_slash_no_slash.
Qed.

Lemma resolve_below (p : string) (S : list string) :
  p <> "" -> Path.isAbsolute p = false ->
  Path.split_slash "" p = S ->
  forallb plain_segment S = true ->
  Path.resolve cwd [cwd; p]
  = "/" ++ Path.join_slash (cwd_segments cwd ++ S)%list.
Proof.
  intros Hp Hrel Hseg Hplain.
  unfold Path.resolve. cbn [rev app].
  rewrite (resolve_args_below _ _ Hp Hrel Habs). cbn [negb].
  unfold Path.normalizeString, Path.segments.
  rewrite !split_slash_app, Hseg. cbn [Path.split_slash].
  rewrite normalize_segs_app. fold (Path.segments cwd). fold (cwd_segments cwd).
  rewrite normalize_segs_trailing by exact Hplain.
  now rewrite rev_involutive.
Qed.

Lemma upload_root_resolved :
  Path.resolve cwd [cwd; "uploads"]
  = "/" ++ Path.join_slash (cwd_segments cwd ++ ["uploads"])%list.
Proof. now apply resolve_below. Qed.

Lemma relative_segments :
  Path.split_slash "" ("uploads/" ++ fn) = ["uploads"; fn].
Proof.
  destruct (simple_name_spec _ Hfn) as (_ & Hs & _).
  change ("uploads/" ++ fn) with ("uploads" ++ String Path.slash fn).
  now rewrite split_slash_app, (split_slash_plain _ _ Hs).
Qed.

Lemma relative_plain : forallb plain_segment ["uploads"; fn] = true.
Proof.
  destruct (simple_name_spec _ Hfn) as (_ & _ & Hp).
  cbn. now rewrite Hp.
Qed.

Lemma stored_resolved :
  Path.resolve cwd [cwd; "uploads/" ++ fn]
  = "/" ++ Path.join_slash (cwd_segments cwd ++ ["uploads"; fn])%list.
Proof.
  apply resolve_below;
    [discriminate | reflexivity | apply relative_segments
    | apply relative_plain].
Qed.

Lemma normalize_relative : Path.normalize ("uploads/" ++ fn) = "uploads/" ++ fn.
Proof.
  destruct (simple_name_spec _ Hfn) as (Hne & Hs & _).
  unfold Path.normalize.
  change ("uploads/" ++ fn) with (String "u" ("ploads/" ++ fn)) at 1.
  cbv beta iota zeta.
  change (String "u" ("ploads/" ++ fn)) with ("uploads/" ++ fn).
  assert (Ht : Path.ends_with_slash ("uploads/" ++ fn) = false).
  { rewrite ends_with_slash_app by exact Hne.
    now apply ends_with_slash_plain. }
  rewrite Ht.
  unfold Path.normalizeString, Path.segments.
  rewrite relative_segments, (normalize_segs_plain _ _ _ relative_plain).
  reflexivity.
Qed.

Lemma join_relative : Path.join ["uploads"; fn] = "uploads/" ++ fn.
Proof.
  destruct (simple_name_spec _ Hfn) as (Hne & _ & _).
  unfold Path.join. rewrite join_args_two by (discriminate || exact Hne).
  apply normalize_relative.
Qed.

Lemma stored_under_root :
  Path.startsWith (Path.resolve cwd [cwd; "uploads/" ++ fn])
    (Path.resolve cwd [cwd; "uploads"]) = true
  /\ Path.under (Path.resolve cwd [cwd; "uploads"])
       (Path.resolve cwd [cwd; "uploads/" ++ fn]) = true.
Proof.
  rewrite stored_resolved, upload_root_resolved.
  change (cwd_segments cwd ++ ["uploads"; fn])%list
    with (cwd_segments cwd ++ ["uploads"] ++ [fn])%list.
  rewrite app_assoc, join_slash_snoc by (now destruct (cwd_segments cwd)).
  unfold Path.startsWith, Path.under.
  set (J := Path.join_slash (cwd_segments cwd ++ ["uploads"])%list).
  assert (E1 : "/" ++ J ++ "/" ++ fn = ("/" ++ J) ++ ("/" ++ fn))
    by now rewrite str_app_assoc.
  assert (E2 : "/" ++ J ++ "/" ++ fn = (("/" ++ J) ++ "/") ++ fn)
    by now rewrite !str_app_assoc.
  split.
  - rewrite E1. apply prefix_app.
  - rewrite E2 at 2. rewrite prefix_app. apply orb_true_r.
Qed.

Lemma join_root :
  Path.join [Path.resolve cwd [cwd; "uploads"]; fn]
  = Path.resolve cwd [cwd; "uploads/" ++ fn].
Proof.
  destruct (simple_name_spec _ Hfn) as (Hne & Hs & Hp).
  rewrite stored_resolved, upload_root_resolved.
  set (J := Path.join_slash (cwd_segments cwd ++ ["uploads"])%list).
  assert (HJ : Path.join_slash (cwd_segments cwd ++ ["uploads"; fn])%list
               = J ++ String Path.slash fn).
  { change (cwd_segments cwd ++ ["uploads"; fn])%list
      with (cwd_segments cwd ++ ["uploads"] ++ [fn])%list.
    rewrite app_assoc, join_slash_snoc by (now destruct (cwd_segments cwd)).
    reflexivity. }
  unfold Path.join.
  change ("/" ++ J) with (String Path.slash J).
  rewrite join_args_two by (discriminate || exact Hne).
  change (String Path.slash J ++ "/" ++ fn)
    with (String Path.slash (J ++ String Path.slash fn)).
  apply normalize_absolute.
  - replace (String Path.slash (J ++ String Path.slash fn))
      with ((String Path.slash J ++ "/") ++ fn)
      by (now rewrite str_app_assoc).
    rewrite ends_with_slash_app by exact Hne.
    now apply ends_with_slash_plain.
  - unfold Path.normalizeString, Path.segments.
    change (String Path.slash (J ++ String Path.slash fn))
      with ("" ++ String Path.slash (J ++ String Path.slash fn)).
    rewrite !split_slash_app, (split_slash_plain _ _ Hs).
    change (Path.split_slash "" J) with (Path.segments J).
    unfold J at 1.
    rewrite segments_join_slash;
      [| now destruct (cwd_segments cwd)
       | apply Forall_app; split;
         [apply cwd_segments_no_slash | repeat constructor]].
    cbn [Path.split_slash].
    rewrite normalize_segs_app. cbn [Path.normalize_segs String.eqb orb rev].
    rewrite normalize_segs_plain.
    2: { change ("" ++ fn) with fn. rewrite !forallb_app, cwd_segments_plain.
         cbn [forallb andb plain_segment String.eqb orb negb].
         now rewrite Hp. }
    cbn [rev app]. change ("" ++ fn) with fn.
    rewrite <- app_assoc. reflexivity.
  - rewrite HJ. destruct J; discriminate.
Qed.

End StoredPaths.

(** ** Stored names are plain path segments *)

Lemma all_chars_impl (p q : ascii -> bool) s :
  (forall c, p c = true -> q c = true) ->
  all_chars p s = true -> all_chars q s = true.
Proof.
  intros Hpq. induction s as [|c s IH]; [reflexivity |]. cbn [all_chars].
  intros H. apply andb_true_iff in H as [Hc Hs].
  now rewrite (Hpq _ Hc), IH.
Qed.

Lemma decimal_digit_char (p : ascii -> bool) n :
  (forall c, Js.is_digit c = true -> p c = true) ->
  p (ascii_of_nat (Z.to_nat (48 + n mod 10))) = true.
Proof.
  intros Hp. apply Hp.
  pose proof (Z.mod_pos_bound n 10 eq_refl) as Hb.
  set (k := Z.to_nat (n mod 10)).
  replace (Z.to_nat (48 + n mod 10)) with (48 + k)%nat by lia.
  assert (Hk : (k < 10)%nat) by lia. clearbody k.
  do 10 (destruct k as [|k]; [reflexivity |]). lia.
Qed.

Lemma show_pos_fuel_chars (p : ascii -> bool) fuel n acc :
  (forall c, Js.is_digit c = true -> p c = true) ->
  all_chars p acc = true ->
  all_chars p (Js.show_pos_fuel fuel n acc) = true.
Proof.
  intros Hp. revert n acc.
  induction fuel as [|fuel IH]; intros n acc Hacc; [exact Hacc |].
  cbn [Js.show_pos_fuel].
  assert (Hd : all_chars p
                 (String (ascii_of_nat (Z.to_nat (48 + n mod 10))) acc)
               = true).
  { cbn [all_chars]. now rewrite decimal_digit_char, Hacc. }
  destruct (n <? 10); [exact Hd | now apply IH].
Qed.

Lemma show_pos_fuel_nonempty fuel n acc :
  Js.show_pos_fuel (S fuel) n acc <> "".
Proof.
  revert n acc. induction fuel as [|fuel IH]; intros n acc.
  - cbn [Js.show_pos_fuel]. now destruct (n <? 10).
  - change (Js.show_pos_fuel (S (S fuel)) n acc)
      with (if n <? 10
            then String (ascii_of_nat (Z.to_nat (48 + n mod 10))) acc
            else Js.show_pos_fuel (S fuel) (n / 10)
                   (String (ascii_of_nat (Z.to_nat (48 + n mod 10))) acc)).
    destruct (n <? 10); [discriminate | apply IH].
Qed.

(** A decimal rendering is made of digits and a sign, and is not empty. *)
Lemma show_Z_chars (p : ascii -> bool) n :
  (forall c, Js.is_digit c = true -> p c = true) -> p "-"%char = true ->
  all_chars p (Js.show_Z n) = true /\ Js.show_Z n <> "".
Proof.
  intros Hp Hm. unfold Js.show_Z. destruct (n <? 0).
  - split; [| discriminate]. cbn [all_chars]. rewrite Hm.
    now apply show_pos_fuel_chars.
  - split; [now apply show_pos_fuel_chars | apply show_pos_fuel_nonempty].
Qed.

Lemma stored_name_simple c file :
  no_slash (random_hex c) = true -> simple_name (stored_name c file) = true.
Proof.
  intros Hhex.
  destruct (show_Z_chars
              (fun x => negb (Ascii.eqb x Path.slash)
                        && negb (Ascii.eqb x "."%char)) (now c))
    as [Hchars Hne].
  { intros x Hx. destruct (Ascii.eqb_spec x Path.slash) as [-> |];
      [discriminate Hx |].
    destruct (Ascii.eqb_spec x "."%char) as [-> |];
      [discriminate Hx | reflexivity]. }
  { reflexivity. }
  unfold simple_name, stored_name.
  destruct (Js.show_Z (now c)) as [|x r] eqn:E; [congruence |].
  cbn [all_chars] in Hchars.
  apply andb_true_iff in Hchars as [Hx Hr].
  apply andb_true_iff in Hx as [Hx1 Hx2].
  rewrite str_app_cons. cbn [Str.nonempty String.eqb].
  apply negb_true_iff in Hx2. rewrite Hx2. cbn [andb negb].
  rewrite !andb_true_r. unfold no_slash. cbn [all_chars]. rewrite Hx1.
  rewrite !all_chars_app. cbn [all_chars andb].
  fold (no_slash (random_hex c)). rewrite Hhex.
  rewrite (all_chars_impl _ (fun x => negb (Ascii.eqb x Path.slash)) r
             (fun x H => proj1 (proj1 (andb_true_iff _ _) H)) Hr).
  cbn [andb Ascii.eqb negb].
  apply (all_chars_impl Str.safe_char); [| apply sanitize_safe].
  intros y Hs. destruct (Ascii.eqb_spec y Path.slash) as [-> |];
    [discriminate Hs | reflexivity].
Qed.

(** ** Upload, then download *)

Lemma uploadFile_success_inv c form w msg w' :
  uploadFile c form w = (Ret (Success msg), w') ->
  exists file uid,
    form_file form = Some file /\ actor c w = Some uid
    /\ find_file_by_path (Path.join ["uploads"; stored_name c file])
         (files w) = None
    /\ files w'
       = (files w
          ++ [mkFile (next_file_id w) (up_name file) (up_type file)
                (up_size file) (now c) (Some uid)
                (default Private (form_visibility form))
                (Path.join ["uploads"; stored_name c file])])%list
    /\ disk w'
       = <[Path.join [UPLOAD_DIR c; stored_name c file] := up_bytes file]>
           (disk w)
    /\ users w' = users w /\ sessions w' = sessions w
    /\ logs w'
       = (logs w
          ++ [upload_entry c uid (next_file_id w) file
                (default Private (form_visibility form))])%list.
Proof.
  unfold actor, uploadFile, ensureUploadDir, getUserIdFromSession,
    getSetting, writeFile, insert_file, insert_log, unlink, stored_name,
    upload_entry.
  run. split_all; (intros [= <- <-] || intros [= ]); world_fields.
  all: do 2 eexists; split; [reflexivity |]; split; [reflexivity |].
  all: split; [eassumption |]; repeat split; reflexivity.
Qed.

Lemma find_file_by_path_new p fs f :
  find_file_by_path p fs = None -> file_path f = p ->
  find_file_by_path p (fs ++ [f])%list = Some f.
Proof.
  unfold find_file_by_path. intros Hnone <-.
  induction fs as [|g fs IH]; cbn [app List.find] in *.
  - now rewrite String.eqb_refl.
  - destruct (String.eqb (file_path g) (file_path f));
      [discriminate Hnone | exact (IH Hnone)].
Qed.

(** X22: what was uploaded can be downloaded.  After a successful upload
    (working directory absolute, random suffix without a separator), a
    later request for the stored name by the uploader, by an
    administrator, or by anyone signed in when the file was uploaded as
    public, passes the containment check, finds the new row and is
    answered 200 with exactly the uploaded bytes. *)
Theorem upload_then_download c c' form file w w' msg preview uid :
  Path.isAbsolute (cwd c) = true ->
  no_slash (random_hex c) = true ->
  form_file form = Some file ->
  uploadFile c form w = (Ret (Success msg), w') ->
  cwd c' = cwd c ->
  ledger_healthy c' ->
  actor c' w' = Some uid ->
  actor c w = Some uid \/ form_visibility form = Some Public
  \/ role_of uid w' = Some RoleAdmin ->
  exists r,
    fst (GET c' [stored_name c file] preview w') = Ret r
    /\ resp_status r = 200
    /\ resp_body r = up_bytes file
    /\ resp_content_length r = Some (up_size file).
Proof.
  intros Habs Hhex Hfile Hup Hcwd Hl Ha' Hwho.
  destruct (uploadFile_success_inv _ _ _ _ _ Hup)
    as (file0 & owner & Hf & Ha & Hfresh & Hfiles & Hdisk & _ & _ & _).
  rewrite Hfile in Hf. injection Hf as <-.
  pose proof (stored_name_simple c file Hhex) as Hsimple.
  set (fn := stored_name c file) in *.
  rewrite (join_relative _ Hsimple) in Hfresh, Hfiles.
  set (row := mkFile _ _ _ _ _ _ _ _) in Hfiles.
  assert (Hrow : find_file_by_path ("uploads/" ++ fn) (files w') = Some row).
  { rewrite Hfiles. now apply find_file_by_path_new. }
  assert (Hread : read_refused row uid (role <$> find_user uid (users w'))
                  = false).
  { apply may_read_not_refused. unfold may_read.
    destruct Hwho as [H | [H | H]].
    - right. left. cbn. congruence.
    - left. cbn. now rewrite H.
    - right. right. exact H. }
  assert (Hbytes : disk w' !! Path.resolve (cwd c) [cwd c; file_path row]
                   = Some (up_bytes file)).
  { rewrite Hdisk. unfold UPLOAD_DIR. cbn [file_path row].
    rewrite (join_root _ _ Habs Hsimple). apply lookup_insert_eq. }
  unfold GET, validateSessionAndGetUserId, getUserIdFromSession,
    getUserRole.
  run. rewrite (actor_session _ _ _ Ha'). rewrite Hcwd.
  rewrite (join_relative _ Hsimple), (normalize_relative _ Hsimple).
  rewrite (proj1 (stored_under_root _ _ Habs Hsimple)). run.
  rewrite Hrow, Hread, Hbytes.
  rewrite insert_log_healthy by exact Hl.
  eexists. split; [reflexivity |]. repeat split.
Qed.

Lemma upload_then_download_witness :
  let c := Scenario.request "s-alice" 1000 in
  let c' := Scenario.request "s-root" 2000 in
  let form := mkForm (Some Scenario.note) None in
  exists r,
    fst (GET c' [stored_name c Scenario.note] None
           (snd (uploadFile c form (Scenario.world "false")))) = Ret r
    /\ resp_status r = 200
    /\ resp_body r = up_bytes Scenario.note
    /\ resp_content_length r = Some (up_size Scenario.note).
Proof.
  apply (upload_then_download (Scenario.request "s-alice" 1000)
           (Scenario.request "s-root" 2000)
           (mkForm (Some Scenario.note) None) Scenario.note
           (Scenario.world "false") _ "File uploaded successfully." None 1).
  - reflexivity.
  - reflexivity.
  - reflexivity.
  - vm_compute. reflexivity.
  - reflexivity.
  - intros e. reflexivity.
  - vm_compute. reflexivity.
  - right. right. vm_compute. reflexivity.
Defined.

(** X23: with a working ledger, an upload that reports a failure has
    added no row to the files table; unless the failure is the one of
    the storing step itself, the disk and the ledger are untouched
    too. *)
Theorem uploadFile_failure_adds_no_row c form w e :
  ledger_healthy c ->
  fst (uploadFile c form w) = Ret (Failure e) ->
  let w' := snd (uploadFile c form w) in
  files w' = files w
  /\ next_file_id w' = next_file_id w
  /\ (e <> "Failed to upload file. Please try again." ->
      disk w' = disk w /\ logs w' = logs w).
Proof.
  intros Hl. cbv zeta.
  unfold uploadFile, ensureUploadDir, getUserIdFromSession, getSetting,
    writeFile, insert_file, insert_log, unlink.
  run. split_all; try ledger_contradiction Hl;
    (intros [= <-] || intros [= ]);
    (split; [reflexivity |]; split; [reflexivity |]);
    intros He; solve [split; reflexivity | now destruct He].
Qed.

Lemma uploadFile_failure_adds_no_row_witness :
  let c := Scenario.request "s-alice" 1000 in
  let w := Scenario.world "false" in
  let form := mkForm None None in
  let w' := snd (uploadFile c form w) in
  files w' = files w
  /\ next_file_id w' = next_file_id w
  /\ ("No file provided." <> "Failed to upload file. Please try again." ->
      disk w' = disk w /\ logs w' = logs w).
Proof.
  apply (uploadFile_failure_adds_no_row (Scenario.request "s-alice" 1000)
           (mkForm None None) (Scenario.world "false") "No file provided.").
  - intros e. reflexivity.
  - vm_compute. reflexivity.
Defined.

(** The write precedes the INSERT: an upload whose stored path is taken
    fails on the UNIQUE constraint after it has replaced the bytes of the
    file that holds the path. *)
Example uploadFile_path_taken :
  let c := Scenario.request "s-alice" 1000 in
  let taken :=
    mkFile 9 "note.txt" "text/plain" 3 1000 (Some 1) Private
      "uploads/1000-c0ffee-note.txt" in
  let w :=
    set_disk (fun d => <["/app/uploads/1000-c0ffee-note.txt" := "old"]> d)
      (set_files (fun l => (l ++ [taken])%list) (Scenario.world "false")) in
  let r := uploadFile c (mkForm (Some Scenario.note) None) w in
  fst r = Ret (Failure "Failed to upload file. Please try again.")
  /\ files (snd r) = files w
  /\ disk (snd r) !! "/app/uploads/1000-c0ffee-note.txt" = Some "hello".
Proof. vm_compute. repeat split; reflexivity. Qed.

(** When the ledger refuses the row that records the upload, the caller is
    told of a failure although the file is stored and listed. *)
Example uploadFile_ledger_refusal :
  let c := Scenario.request_ledger_refusing "File Upload" "s-alice" 1000 in
  let w := Scenario.world "false" in
  let r := uploadFile c (mkForm (Some Scenario.note) None) w in
  fst r = Ret (Failure "Failed to upload file. Please try again.")
  /\ length (files (snd r)) = S (length (files w))
  /\ disk (snd r) !! "/app/uploads/1000-c0ffee-note.txt" = Some "hello".
Proof. vm_compute. repeat split; reflexivity. Qed.

(** ** The listing *)

Lemma insert_by_date_In x y l :
  In x (insert_by_date y l) <-> x = y \/ In x l.
Proof.
  induction l as [|z l IH]; cbn [insert_by_date In].
  - intuition.
  - destruct (_ <=? _); cbn [In]; [intuition | rewrite IH; intuition].
Qed.

Lemma order_by_date_desc_In x l : In x (order_by_date_desc l) <-> In x l.
Proof.
  induction l as [|y l IH]; [reflexivity |].
  cbn [order_by_date_desc fold_right In].
  rewrite insert_by_date_In. fold (order_by_date_desc l).
  rewrite IH. intuition.
Qed.

Lemma insert_by_date_length y l :
  length (insert_by_date y l) = S (length l).
Proof.
  induction l as [|z l IH]; [reflexivity |]. cbn [insert_by_date].
  destruct (_ <=? _); cbn [length]; [reflexivity | now rewrite IH].
Qed.

Lemma order_by_date_desc_length l :
  length (order_by_date_desc l) = length l.
Proof.
  induction l as [|y l IH]; [reflexivity |].
  cbn [order_by_date_desc fold_right]. rewrite insert_by_date_length.
  fold (order_by_date_desc l). now rewrite IH.
Qed.

Lemma insert_by_date_descend tl y l :
  dates_descend (List.map (format_listed tl) l) ->
  dates_descend (List.map (format_listed tl) (insert_by_date y l)).
Proof.
  induction l as [|z l IH]; cbn [insert_by_date List.map dates_descend].
  - intros _. split; [constructor | exact I].
  - intros [Hz Hl]. destruct (Z.leb_spec (upload_date (fst z))
                                (upload_date (fst y))) as [Hlt | Hge];
      cbn [List.map dates_descend].
    + split; [| split; assumption].
      constructor; [cbn; lia |].
      eapply List.Forall_impl; [| exact Hz]. cbn. intros a Ha. lia.
    + split; [| auto].
      apply List.Forall_forall. intros a Ha.
      apply in_map_iff in Ha as (b & <- & Hb).
      apply insert_by_date_In in Hb as [-> | Hb]; [cbn; lia |].
      rewrite List.Forall_forall in Hz. apply Hz.
      apply in_map_iff. eauto.
Qed.

Lemma order_by_date_desc_descend tl l :
  dates_descend (List.map (format_listed tl) (order_by_date_desc l)).
Proof.
  induction l as [|y l IH]; [exact I |].
  cbn [order_by_date_desc fold_right]. now apply insert_by_date_descend.
Qed.

Lemma format_listed_shows tl f who : shows (format_listed tl (f, who)) f.
Proof. repeat split. Qed.

Lemma select_files_In isAdminView uid r w row :
  In row (select_files isAdminView uid r w) <->
  In (fst row) (files w)
  /\ if isAdminView && is_admin r
     then snd row = uploader_name (users w) (fst row)
     else (owner_is (fst row) uid = true /\ snd row = "You")
          \/ (public_of_others uid (fst row) = true
              /\ snd row = uploader_name (users w) (fst row)).
Proof.
  unfold select_files. destruct row as [f who]. cbn [fst snd].
  destruct (isAdminView && is_admin r); rewrite order_by_date_desc_In.
  - rewrite List.in_map_iff. split.
    + intros (g & [= <- <-] & Hg). auto.
    + intros [Hf ->]. eauto.
  - rewrite List.in_app_iff, !List.in_map_iff. split.
    + intros [(g & [= <- <-] & Hg) | (g & [= <- <-] & Hg)];
        apply List.filter_In in Hg as [Hg Ht]; auto.
    + intros [Hf [[Ht ->] | [Ht ->]]]; [left | right];
        exists f; (split; [reflexivity |]); apply List.filter_In; auto.
Qed.

(** X24: the listing never shows a file its caller could not read.  For a
    signed-in caller, in either view, [listFiles] succeeds, changes
    nothing, and every row shows a file of the table that is public, the
    caller's own, or listed for an administrator; without the
    administrator view (or for a caller who is no administrator) every
    row is the caller's own file or a public one; the rows come in
    descending order of upload date. *)
Theorem listFiles_shows_only_readable tl c w isAdminView uid :
  actor c w = Some uid ->
  exists l,
    listFiles tl c isAdminView w = (Ret (mkList true None l), w)
    /\ (forall x, In x l ->
          exists f, In f (files w) /\ shows x f /\ may_read f uid w)
    /\ (isAdminView = false \/ role_of uid w <> Some RoleAdmin ->
        forall x, In x l ->
          exists f, In f (files w) /\ shows x f
            /\ (uploader_id f = Some uid \/ visibility f = Public))
    /\ dates_descend l.
Proof.
  intros Ha. unfold listFiles, getUserIdFromSession, getUserRole.
  run. rewrite (actor_session _ _ _ Ha).
  eexists. split; [reflexivity |].
  fold (role_of uid w).
  assert (Hown : forall f, owner_is f uid = true -> uploader_id f = Some uid).
  { unfold owner_is. intros f. destruct (uploader_id f) as [o|];
      [| discriminate]. intros H. apply Z.eqb_eq in H. now subst. }
  assert (Hpub : forall f, public_of_others uid f = true ->
                           visibility f = Public).
  { unfold public_of_others. intros f H.
    apply andb_true_iff in H as [H _]. now destruct (visibility f). }
  split; [| split].
  - intros x Hx. apply List.in_map_iff in Hx as ([f who] & <- & Hrow).
    apply select_files_In in Hrow as [Hf Hsel]. cbn [fst snd] in *.
    exists f. split; [exact Hf |]. split; [apply format_listed_shows |].
    unfold may_read. destruct (isAdminView && is_admin (role_of uid w)) eqn:E.
    + right. right. apply andb_true_iff in E as [_ E].
      now destruct (role_of uid w) as [[|]|].
    + destruct Hsel as [[Ht _] | [Ht _]]; auto.
  - intros Hview x Hx.
    apply List.in_map_iff in Hx as ([f who] & <- & Hrow).
    apply select_files_In in Hrow as [Hf Hsel]. cbn [fst snd] in *.
    exists f. split; [exact Hf |]. split; [apply format_listed_shows |].
    destruct (isAdminView && is_admin (role_of uid w)) eqn:E.
    + apply andb_true_iff in E as [E1 E2].
      destruct Hview as [-> | Hrole]; [discriminate E1 |].
      now destruct (role_of uid w) as [[|]|].
    + destruct Hsel as [[Ht _] | [Ht _]]; auto.
  - unfold select_files. destruct (_ && _);
      apply order_by_date_desc_descend.
Qed.

Lemma listFiles_shows_only_readable_witness :
  exists l,
    listFiles Js.show_Z (Scenario.request "s-alice" 1000) true
      (Scenario.world "false")
    = (Ret (mkList true None l), Scenario.world "false")
    /\ (forall x, In x l ->
          exists f, In f (files (Scenario.world "false")) /\ shows x f
            /\ may_read f 2 (Scenario.world "false"))
    /\ (true = false \/ role_of 2 (Scenario.world "false") <> Some RoleAdmin ->
        forall x, In x l ->
          exists f, In f (files (Scenario.world "false")) /\ shows x f
            /\ (uploader_id f = Some 2 \/ visibility f = Public))
    /\ dates_descend l.
Proof.
  apply (listFiles_shows_only_readable Js.show_Z
           (Scenario.request "s-alice" 1000) (Scenario.world "false") true 2).
  vm_compute. reflexivity.
Defined.

(** X25: what the listing holds.  The caller's own files are always
    listed (as uploaded by [You] outside the administrator's view); so
    is every public file that has an uploader; with the administrator
    view an administrator gets one row for every file of the table.
    Outside that view no row has an empty uploader: a public file whose
    uploader was deleted is not listed. *)
Theorem listFiles_complete tl c w isAdminView uid :
  actor c w = Some uid ->
  exists l,
    fst (listFiles tl c isAdminView w) = Ret (mkList true None l)
    /\ (forall f, In f (files w) -> uploader_id f = Some uid ->
          exists x, In x l /\ shows x f
            /\ (isAdminView && is_admin (role_of uid w) = false ->
                lf_uploader x = "You"))
    /\ (forall f o, In f (files w) -> visibility f = Public ->
          uploader_id f = Some o -> exists x, In x l /\ shows x f)
    /\ (isAdminView = true -> role_of uid w = Some RoleAdmin ->
        length l = length (files w)
        /\ forall f, In f (files w) -> exists x, In x l /\ shows x f)
    /\ (isAdminView && is_admin (role_of uid w) = false ->
        forall x, In x l -> lf_uploader_id x <> None).
Proof.
  intros Ha. unfold listFiles, getUserIdFromSession, getUserRole.
  run. rewrite (actor_session _ _ _ Ha).
  eexists. split; [reflexivity |].
  fold (role_of uid w).
  assert (Hlisted : forall f who,
            In (f, who) (select_files isAdminView uid (role_of uid w) w) ->
            exists x,
              In x (List.map (format_listed tl)
                      (select_files isAdminView uid (role_of uid w) w))
              /\ shows x f /\ lf_uploader x = who).
  { intros f who H. exists (format_listed tl (f, who)).
    split; [now apply List.in_map | split; [apply format_listed_shows |]].
    reflexivity. }
  assert (Hown : forall f, uploader_id f = Some uid -> owner_is f uid = true).
  { unfold owner_is. intros f ->. apply Z.eqb_refl. }
  split; [| split; [| split]].
  - intros f Hf Hu.
    destruct (isAdminView && is_admin (role_of uid w)) eqn:E.
    + destruct (Hlisted f (uploader_name (users w) f)) as (x & Hx & Hs & _).
      { apply select_files_In. rewrite E. auto. }
      exists x. repeat split; try apply Hs; [exact Hx | discriminate].
    + destruct (Hlisted f "You") as (x & Hx & Hs & Hwho).
      { apply select_files_In. rewrite E. cbn [fst snd]. auto. }
      exists x. repeat split; try apply Hs; auto.
  - intros f o Hf Hv Hu.
    destruct (Z.eq_dec o uid) as [-> | Hne].
    + destruct (isAdminView && is_admin (role_of uid w)) eqn:E.
      * destruct (Hlisted f (uploader_name (users w) f)) as (x & Hx & Hs & _);
          [apply select_files_In; rewrite E; auto | eauto].
      * destruct (Hlisted f "You") as (x & Hx & Hs & _);
          [apply select_files_In; rewrite E; cbn [fst snd]; auto | eauto].
    + destruct (Hlisted f (uploader_name (users w) f)) as (x & Hx & Hs & _);
        [| eauto].
      apply select_files_In. cbn [fst snd]. split; [exact Hf |].
      destruct (isAdminView && is_admin (role_of uid w)); [reflexivity |].
      right. split; [| reflexivity].
      unfold public_of_others. rewrite Hv, Hu. cbn.
      apply negb_true_iff, Z.eqb_neq, Hne.
  - intros -> Hr. split.
    + rewrite List.length_map. unfold select_files. rewrite Hr.
      cbn [andb is_admin].
      now rewrite order_by_date_desc_length, List.length_map.
    + intros f Hf.
      destruct (Hlisted f (uploader_name (users w) f)) as (x & Hx & Hs & _);
        [| eauto].
      apply select_files_In. rewrite Hr. cbn. auto.
  - intros E x Hx. apply List.in_map_iff in Hx as ([f who] & <- & Hrow).
    apply select_files_In in Hrow as [_ Hsel]. rewrite E in Hsel.
    cbn [fst snd format_listed lf_uploader_id] in *.
    destruct Hsel as [[Ht _] | [Ht _]].
    + unfold owner_is in Ht. now destruct (uploader_id f).
    + unfold public_of_others in Ht. apply andb_true_iff in Ht as [_ Ht].
      now destruct (uploader_id f).
Qed.

Lemma listFiles_complete_witness :
  exists l,
    fst (listFiles Js.show_Z (Scenario.request "s-root" 1000) true
           (Scenario.world "false")) = Ret (mkList true None l)
    /\ (forall f, In f (files (Scenario.world "false")) ->
          uploader_id f = Some 1 ->
          exists x, In x l /\ shows x f
            /\ (true && is_admin (role_of 1 (Scenario.world "false")) = false
                -> lf_uploader x = "You"))
    /\ (forall f o, In f (files (Scenario.world "false")) ->
          visibility f = Public ->
          uploader_id f = Some o -> exists x, In x l /\ shows x f)
    /\ (true = true -> role_of 1 (Scenario.world "false") = Some RoleAdmin ->
        length l = length (files (Scenario.world "false"))
        /\ forall f, In f (files (Scenario.world "false")) ->
             exists x, In x l /\ shows x f)
    /\ (true && is_admin (role_of 1 (Scenario.world "false")) = false ->
        forall x, In x l -> lf_uploader_id x <> None).
Proof.
  apply (listFiles_complete Js.show_Z (Scenario.request "s-root" 1000)
           (Scenario.world "false") true 1).
  vm_compute. reflexivity.
Defined.

(** A public file whose uploader was deleted: served to any signed-in
    user, absent from that user's listing, present in the
    administrator's. *)
Example listFiles_orphaned_public :
  let orphan :=
    mkFile 9 "flyer.png" "image/png" 3 200 None Public
      "uploads/200-bb-flyer.png" in
  let w :=
    set_disk (fun d => <["/app/uploads/200-bb-flyer.png" := "png"]> d)
      (set_files (fun l => (l ++ [orphan])%list) (Scenario.world "false")) in
  (resp_status <$> (match fst (GET (Scenario.request "s-alice" 1000)
                                 ["200-bb-flyer.png"] None w)
                    with Ret r => Some r | Throw _ => None end)) = Some 200
  /\ (List.map lf_id
        <$> (match fst (listFiles Js.show_Z
                          (Scenario.request "s-alice" 1000) false w)
             with Ret r => Some (list_files r) | Throw _ => None end))
     = Some [7]
  /\ (List.map (fun x => (lf_id x, lf_uploader x, lf_key x))
        <$> (match fst (listFiles Js.show_Z
                          (Scenario.request "s-root" 1000) true w)
             with Ret r => Some (list_files r) | Throw _ => None end))
     = Some [(9, "Deleted User", "file-9"); (7, "alice", "file-7")].
Proof. vm_compute. repeat split; reflexivity. Qed.

(** ** Registration, then login *)

Lemma registerUser_success_inv c values w msg u w' :
  registerUser c values w = (Ret (Success (msg, u)), w') ->
  (exists aid, caller c w = Some (aid, RoleAdmin))
  /\ u = mkUser (next_user_id w) (reg_username values) (reg_email values)
           (hashPassword (reg_password values))
           (default RoleUser (reg_role values)) Active
  /\ users w' = (users w ++ [u])%list
  /\ next_user_id w' = next_user_id w + 1
  /\ sessions w' = sessions w /\ settings w' = settings w
  /\ files w' = files w
  /\ 3 <= Str.js_length (reg_username values)
  /\ zod_email c (reg_email values) = true
  /\ List.find (fun v => String.eqb (username v) (reg_username values)
                         || String.eqb (email v) (reg_email values))
       (users w) = None.
Proof.
  unfold registerUser, unauthorized, passwordMinLength, insert_log.
  open_action; split_all; (intros [= <- <- <-] || intros [= ]);
    world_fields.
  all: destruct arole; try discriminate.
  all: match goal with
       | H : negb (_ && _ && _) = false |- _ =>
           apply negb_false_iff in H;
           apply andb_true_iff in H as [H ?];
           apply andb_true_iff in H as [H ?];
           apply Z.leb_le in H
       end.
  all: repeat split; eauto.
Qed.

Lemma find_user_by_name_new name us u :
  List.find (fun v => String.eqb (username v) name
                      || String.eqb (email v) (email u)) us = None ->
  username u = name ->
  find_user_by_name name (us ++ [u])%list = Some u.
Proof.
  unfold find_user_by_name. intros Hnone <-.
  induction us as [|v us IH]; cbn [app List.find] in *.
  - now rewrite String.eqb_refl.
  - destruct (String.eqb (username v) (username u));
      [discriminate Hnone |]. cbn [orb] in Hnone.
    destruct (String.eqb (email v) (email u));
      [discriminate Hnone | exact (IH Hnone)].
Qed.

(** X26: an account an administrator has just created can sign in.  When
    [registerUser] reports success, the caller was an administrator, the
    table has gained one active account under the next id, with a name
    and an address no earlier account had; a login with the registered
    name and (non-empty) password then succeeds as that account, unless
    maintenance shuts a non-administrator out. *)
Theorem registerUser_then_loginUser c c' values w w' msg u t :
  registerUser c values w = (Ret (Success (msg, u)), w') ->
  reg_password values <> "" ->
  ledger_healthy c' ->
  (settings w !! "maintenanceMode" <> Some "true"
   \/ reg_role values = Some RoleAdmin) ->
  sessions w !! random_hex c' = None ->
  expiry_of c' w = Some t ->
  Z.abs t <= max_date ->
  (exists aid, caller c w = Some (aid, RoleAdmin))
  /\ users w' = (users w ++ [u])%list
  /\ user_id u = next_user_id w
  /\ status u = Active
  /\ Forall (fun v => username v <> username u /\ email v <> email u)
       (users w)
  /\ fst (loginUser c' (mkLogin (reg_username values) (reg_password values))
            w')
     = Ret (Success (mkLoggedIn (next_user_id w) (reg_username values)
                       (default RoleUser (reg_role values))))
  /\ sessions (snd (loginUser c'
                      (mkLogin (reg_username values) (reg_password values))
                      w')) !! random_hex c'
     = Some (mkSession (next_user_id w) t (now c') (now c')
               (getIpAddress c') (user_agent_of c')).
Proof.
  intros Hreg Hpw Hl Hm Hfree Ht Hr.
  destruct (registerUser_success_inv _ _ _ _ _ _ Hreg)
    as (Hadmin & Hu & Husers & _ & Hsess & Hset & _ & Hlen & _ & Hnew).
  assert (Hname : reg_username values <> "").
  { intros E. rewrite E in Hlen. cbn in Hlen. lia. }
  clear Hreg. subst u. cbn [user_id username email status].
  split; [exact Hadmin |]. split; [exact Husers |].
  split; [reflexivity |]. split; [reflexivity |].
  split.
  { apply List.Forall_forall.
    intros v Hv. pose proof (List.find_none _ _ Hnew v Hv) as Hno.
    cbn beta in Hno. apply orb_false_iff in Hno as [H1 H2].
    apply String.eqb_neq in H1, H2. auto. }
  set (u := mkUser _ _ _ _ _ _) in *.
  assert (Hfind : find_user_by_name (reg_username values) (users w')
                  = Some u).
  { rewrite Husers. now apply find_user_by_name_new. }
  assert (Hgate :
    bool_decide (settings w' !! "maintenanceMode" = Some "true")
    && negb (Role_eqb (default RoleUser (reg_role values)) RoleAdmin)
    = false).
  { rewrite Hset. destruct Hm as [Hm | Hm].
    - now rewrite bool_decide_eq_false_2.
    - rewrite Hm. apply andb_false_r. }
  assert (Hfree' : sessions w' !! random_hex c' = None)
    by now rewrite Hsess.
  assert (Ht' : expiry_of c' w' = Some t)
    by (unfold expiry_of in *; now rewrite Hset).
  pose proof (createSession_opens c' w' (next_user_id w) (getIpAddress c')
                (user_agent_of c') t Hfree' Ht' Hr) as Hopen.
  unfold loginUser. run. cbn [login_username login_password].
  rewrite (nonempty_true _ Hname), (nonempty_true _ Hpw). run.
  rewrite Hfind. unfold u. cbn [status password_hash user_id username role].
  rewrite verifyPassword_hash. run. rewrite Hgate, Hopen.
  rewrite insert_log_healthy by exact Hl.
  cbn [fst snd].
  split; [reflexivity |]. world_fields. apply lookup_insert_eq.
Qed.

Lemma registerUser_then_loginUser_witness :
  let c := Scenario.request "s-root" 1000 in
  let c' := Scenario.request "" 2000 in
  let values := mkRegister "carol" "carol@example.com" "s3cret!" None in
  let w := Scenario.world "false" in
  let w' := snd (registerUser c values w) in
  let u := mkUser 4 "carol" "carol@example.com" (hashPassword "s3cret!")
             RoleUser Active in
  (exists aid, caller c w = Some (aid, RoleAdmin))
  /\ users w' = (users w ++ [u])%list
  /\ user_id u = next_user_id w
  /\ status u = Active
  /\ Forall (fun v => username v <> username u /\ email v <> email u)
       (users w)
  /\ fst (loginUser c' (mkLogin (reg_username values) (reg_password values))
            w')
     = Ret (Success (mkLoggedIn (next_user_id w) (reg_username values)
                       (default RoleUser (reg_role values))))
  /\ sessions (snd (loginUser c'
                      (mkLogin (reg_username values) (reg_password values))
                      w')) !! random_hex c'
     = Some (mkSession (next_user_id w) 1802000 (now c') (now c')
               (getIpAddress c') (user_agent_of c')).
Proof.
  apply (registerUser_then_loginUser (Scenario.request "s-root" 1000)
           (Scenario.request "" 2000)
           (mkRegister "carol" "carol@example.com" "s3cret!" None)
           (Scenario.world "false") _ "User 'carol' created successfully."
           (mkUser 4 "carol" "carol@example.com" (hashPassword "s3cret!")
              RoleUser Active) 1802000).
  - vm_compute. reflexivity.
  - discriminate.
  - intros e. reflexivity.
  - left. vm_compute. discriminate.
  - vm_compute. reflexivity.
  - vm_compute. reflexivity.
  - vm_compute. discriminate.
Defined.

(** The minimum length is read from the settings table: with a stored
    value of zero an account can be created with the empty password,
    which no login accepts. *)
Example registerUser_empty_password :
  let w :=
    mkWorld [Scenario.root] []
      (<["s-root" := mkSession 1 5000 0 0 "::1" "curl/8"]> ∅)
      (<["passwordMinLength" := "0"]> ∅)
      [] [] ∅ DirPresent 2 1 None in
  let values := mkRegister "carol" "carol@example.com" EmptyString None in
  let r := registerUser (Scenario.request "s-root" 1000) values w in
  (match fst r with Ret (Success _) => true | _ => false end) = true
  /\ fst (loginUser (Scenario.request "" 2000)
            (mkLogin "carol" EmptyString) (snd r))
     = Ret (Failure "Invalid input.").
Proof. vm_compute. split; reflexivity. Qed.

(** ** Seeding *)

Lemma seed_settings_run l : forall count w,
  exists n,
    seed_settings l count w
    = (Ret n, set_settings (fun _ => seed_map l (settings w)) w)
    /\ count <= n
    /\ (n = count <-> Forall (fun kv => is_Some (settings w !! fst kv)) l).
Proof.
  induction l as [|kv l IH]; intros count w.
  - exists count. split; [now destruct w |]. split; [lia |].
    split; [constructor | reflexivity].
  - cbn [seed_settings]. unfold insert_or_ignore_setting. run.
    unfold seed_map. cbn [fold_left]. fold (seed_map l).
    destruct (settings w !! fst kv) as [v|] eqn:E; run.
    + destruct (IH count w) as (n & Hrun & Hle & Hiff).
      exists n. split; [exact Hrun |]. split; [exact Hle |].
      rewrite Hiff. split.
      * intros H. constructor; [rewrite E; eauto | exact H].
      * intros H. now inversion H.
    + destruct (IH (count + 1)
                  (set_settings (fun m => <[fst kv := snd kv]> m) w))
        as (n & Hrun & Hle & _).
      exists n. split; [rewrite Hrun; reflexivity |].
      split; [lia |]. split; [lia |].
      intros H. inversion H as [|? ? Hs _]. rewrite E in Hs.
      now destruct Hs.
Qed.

Lemma seed_map_lookup l : forall m k,
  seed_map l m !! k
  = match m !! k with
    | Some v => Some v
    | None => snd <$> List.find (fun kv => String.eqb (fst kv) k) l
    end.
Proof.
  induction l as [|kv l IH]; intros m k.
  - cbn. now destruct (m !! k).
  - unfold seed_map. cbn [fold_left List.find]. fold (seed_map l).
    rewrite IH. destruct (String.eqb_spec (fst kv) k) as [<- | Hne].
    + destruct (m !! fst kv) as [v|] eqn:E; [now rewrite E |].
      now rewrite lookup_insert_eq.
    + destruct (m !! fst kv) as [v|] eqn:E; [reflexivity |].
      now rewrite lookup_insert_ne.
Qed.

Lemma seed_map_fixed l m :
  Forall (fun kv => is_Some (m !! fst kv)) l -> seed_map l m = m.
Proof.
  revert m. induction l as [|kv l IH]; intros m H; [reflexivity |].
  inversion H as [|? ? [v Hv] Hl]; subst.
  unfold seed_map. cbn [fold_left]. fold (seed_map l). rewrite Hv.
  now apply IH.
Qed.

Lemma seed_map_has_all l m :
  Forall (fun kv => is_Some (seed_map l m !! fst kv)) l.
Proof.
  apply List.Forall_forall. intros kv Hin. rewrite seed_map_lookup.
  destruct (m !! fst kv); [eauto |].
  destruct (List.find _ l) as [x|] eqn:E; [cbn; eauto |].
  pose proof (List.find_none _ _ E kv Hin) as Hno. cbn beta in Hno.
  now rewrite String.eqb_refl in Hno.
Qed.

Lemma seedData_noop c w u :
  find_user_by_name "AdminUser" (users w) = Some u ->
  Forall (fun kv => is_Some (settings w !! fst kv)) settingsToSeed ->
  seedData c w = (Ret tt, w).
Proof.
  intros Hu Hall. unfold seedData. run. rewrite Hu. run.
  destruct (seed_settings_run settingsToSeed 0 w) as (n & Hrun & _ & Hiff).
  rewrite Hrun. apply Hiff in Hall. subst n.
  cbn [Z.ltb Z.compare].
  rewrite seed_map_fixed by (now apply Hiff). now destruct w.
Qed.

Lemma find_user_by_name_last name us u :
  find_user_by_name name us = None -> username u = name ->
  find_user_by_name name (us ++ [u])%list = Some u.
Proof.
  unfold find_user_by_name. intros Hnone <-.
  induction us as [|v us IH]; cbn [app List.find] in *.
  - now rewrite String.eqb_refl.
  - destruct (String.eqb (username v) (username u));
      [discriminate Hnone | exact (IH Hnone)].
Qed.

(** What one run of [seedData] does, whatever the ledger does. *)
Lemma seedData_outcome c w :
  exists w',
    seedData c w = (Ret tt, w')
    /\ files w' = files w /\ sessions w' = sessions w
    /\ ((w' = w
         /\ find_user_by_name "AdminUser" (users w) = None
         /\ List.find (fun u => String.eqb (email u) "admin@example.com")
              (users w) <> None)
        \/ (settings w' = seed_map settingsToSeed (settings w)
            /\ ((find_user_by_name "AdminUser" (users w) <> None
                 /\ users w' = users w)
                \/ (find_user_by_name "AdminUser" (users w) = None
                    /\ users w'
                       = (users w ++ [seeded_admin (next_user_id w)])%list)))).
Proof.
  unfold seedData, insert_user, insert_log, find_user_by_name. run.
  destruct (List.find (fun u => String.eqb (username u) "AdminUser")
              (users w)) as [u|] eqn:Hu; run.
  - destruct (seed_settings_run settingsToSeed 0 w) as (n & Hrun & _ & _).
    rewrite Hrun. destruct (0 <? n); run;
      [destruct (ledger_fault c _); run |];
      (eexists; split; [reflexivity |]; world_fields;
       split; [reflexivity |]; split; [reflexivity |];
       right; split; [reflexivity |]; left; split;
       [discriminate | reflexivity]).
  - rewrite Hu. run.
    destruct (List.find (fun u => String.eqb (email u) "admin@example.com")
                (users w)) as [v|] eqn:Hv; run.
    + eexists. split; [reflexivity |].
      split; [reflexivity |]. split; [reflexivity |]. left.
      split; [reflexivity |]. split; [reflexivity | discriminate].
    + destruct (ledger_fault c _); run;
        match goal with
        | |- context [seed_settings settingsToSeed 0 ?W] =>
            destruct (seed_settings_run settingsToSeed 0 W)
              as (n & Hrun & _ & _); rewrite Hrun
        end;
        (destruct (0 <? n); run; [destruct (ledger_fault c _); run |]);
        (eexists; split; [reflexivity |]; world_fields;
         split; [reflexivity |]; split; [reflexivity |];
         right; split; [reflexivity |]; right; split; reflexivity).
Qed.

Lemma seedData_stops c w :
  find_user_by_name "AdminUser" (users w) = None ->
  List.find (fun u => String.eqb (email u) "admin@example.com") (users w)
  <> None ->
  seedData c w = (Ret tt, w).
Proof.
  unfold seedData, insert_user, find_user_by_name. intros Hu Hv. run.
  rewrite Hu. run. rewrite Hu. run.
  destruct (List.find (fun u => String.eqb (email u) "admin@example.com")
              (users w)); [reflexivity | now destruct Hv].
Qed.

Lemma seed_database_seedData c w w' :
  seedData c w = (Ret tt, w') -> seed_database c w = (Ret tt, w').
Proof. intros H. unfold seed_database. run. now rewrite H. Qed.

(** X27: on a database nothing was written to, seeding creates the
    administrator under id 1, the id the user-management actions
    protect, active and with the documented password, and stores the
    seven default settings: uploads are limited to 10 MiB, maintenance is
    off and a session lasts 30 minutes.  No ledger failure changes
    that. *)
Theorem seed_database_fresh c w :
  fresh_database w ->
  let w' := snd (seed_database c w) in
  fst (seed_database c w) = Ret tt
  /\ users w' = [seeded_admin seed_admin_id]
  /\ admin_account seed_admin_id w'
  /\ find_user_by_name "AdminUser" (users w')
     = Some (seeded_admin seed_admin_id)
  /\ verifyPassword "adminpassword"
       (password_hash (seeded_admin seed_admin_id)) = Ret true
  /\ (forall k,
        settings w' !! k
        = snd <$> List.find (fun kv => String.eqb (fst kv) k) settingsToSeed)
  /\ size_limit_bytes w' = Some (10 * 1024 * 1024)
  /\ ~ maintenance_on w'
  /\ (forall c', expiry_of c' w' = Some (now c' + 30 * 60 * 1000)).
Proof.
  intros (Husers & Hnext & Hset). cbv zeta.
  destruct (seedData_outcome c w)
    as (w' & Hrun & _ & _ & [(_ & _ & Hstop) | (Hs & Hu)]).
  { rewrite Husers in Hstop. now destruct Hstop. }
  rewrite (seed_database_seedData _ _ _ Hrun). cbn [fst snd].
  destruct Hu as [[Hex _] | [_ Hu]];
    [rewrite Husers in Hex; now destruct Hex |].
  rewrite Husers, Hnext in Hu. cbn [app] in Hu.
  assert (Hk : forall k,
             settings w' !! k
             = snd <$> List.find (fun kv => String.eqb (fst kv) k)
                         settingsToSeed).
  { intros k. rewrite Hs, seed_map_lookup, Hset. now rewrite lookup_empty. }
  split; [reflexivity |]. split; [exact Hu |].
  split; [exists (seeded_admin 1); now rewrite Hu |].
  split; [now rewrite Hu |].
  split; [apply verifyPassword_hash |].
  split; [exact Hk |].
  unfold size_limit_bytes, maintenance_on, expiry_of.
  rewrite !Hk. split; [reflexivity |]. split; [discriminate |].
  reflexivity.
Qed.

Lemma seed_database_fresh_witness :
  let c := Scenario.request "" 0 in
  let w := mkWorld [] [] ∅ ∅ [] [] ∅ DirPresent 1 1 None in
  let w' := snd (seed_database c w) in
  fst (seed_database c w) = Ret tt
  /\ users w' = [seeded_admin seed_admin_id]
  /\ admin_account seed_admin_id w'
  /\ find_user_by_name "AdminUser" (users w')
     = Some (seeded_admin seed_admin_id)
  /\ verifyPassword "adminpassword"
       (password_hash (seeded_admin seed_admin_id)) = Ret true
  /\ (forall k,
        settings w' !! k
        = snd <$> List.find (fun kv => String.eqb (fst kv) k) settingsToSeed)
  /\ size_limit_bytes w' = Some (10 * 1024 * 1024)
  /\ ~ maintenance_on w'
  /\ (forall c', expiry_of c' w' = Some (now c' + 30 * 60 * 1000)).
Proof.
  apply (seed_database_fresh (Scenario.request "" 0)
           (mkWorld [] [] ∅ ∅ [] [] ∅ DirPresent 1 1 None)).
  split; [reflexivity |]. split; reflexivity.
Defined.

(** X28: seeding only adds.  Whatever the database holds and whatever the
    ledger does, a run keeps every account and every stored setting as
    it is, touches neither files nor sessions, and a second run changes
    nothing at all; when the run is not stopped by an account that holds
    the administrator's address under another name, every default
    setting that was missing is there afterwards. *)
Theorem seed_database_idempotent c c' w :
  let w' := snd (seed_database c w) in
  seed_database c' w' = (Ret tt, w')
  /\ (forall u, In u (users w) -> In u (users w'))
  /\ (forall k v, settings w !! k = Some v -> settings w' !! k = Some v)
  /\ files w' = files w /\ sessions w' = sessions w
  /\ (find_user_by_name "AdminUser" (users w) <> None
      \/ List.find (fun u => String.eqb (email u) "admin@example.com")
           (users w) = None ->
      forall k, settings w' !! k = seeded_value w k).
Proof.
  cbv zeta.
  destruct (seedData_outcome c w)
    as (w' & Hrun & Hf & Hse & [(-> & Hn & Hstop) | (Hs & Hu)]);
    rewrite (seed_database_seedData _ _ _ Hrun); cbn [snd].
  - split; [apply seed_database_seedData, seedData_stops; assumption |].
    split; [auto |]. split; [auto |]. split; [reflexivity |].
    split; [reflexivity |]. intros [H | H]; congruence.
  - split.
    { apply seed_database_seedData.
      assert (Hall : Forall (fun kv => is_Some (settings w' !! fst kv))
                       settingsToSeed)
        by (rewrite Hs; apply seed_map_has_all).
      destruct Hu as [[Hex Hu] | [Hnone Hu]].
      - destruct (find_user_by_name "AdminUser" (users w)) as [u|] eqn:E;
          [| now destruct Hex].
        apply (seedData_noop _ _ u); [now rewrite Hu | exact Hall].
      - apply (seedData_noop _ _ (seeded_admin (next_user_id w)));
          [| exact Hall].
        rewrite Hu. now apply find_user_by_name_last. }
    split.
    { intros u Hin. destruct Hu as [[_ ->] | [_ ->]]; [exact Hin |].
      apply List.in_or_app. now left. }
    split; [intros k v Hk; now rewrite Hs, seed_map_lookup, Hk |].
    split; [exact Hf |]. split; [exact Hse |].
    intros _ k. rewrite Hs, seed_map_lookup. reflexivity.
Qed.

Lemma seed_database_idempotent_witness :
  let c := Scenario.request "" 0 in
  let c' := Scenario.request "" 1000 in
  let w := Scenario.world "false" in
  let w' := snd (seed_database c w) in
  seed_database c' w' = (Ret tt, w')
  /\ (forall u, In u (users w) -> In u (users w'))
  /\ (forall k v, settings w !! k = Some v -> settings w' !! k = Some v)
  /\ files w' = files w /\ sessions w' = sessions w
  /\ (find_user_by_name "AdminUser" (users w) <> None
      \/ List.find (fun u => String.eqb (email u) "admin@example.com")
           (users w) = None ->
      forall k, settings w' !! k = seeded_value w k).
Proof.
  apply (seed_database_idempotent (Scenario.request "" 0)
           (Scenario.request "" 1000) (Scenario.world "false")).
Defined.

Example seed_database_address_taken :
  let squatter :=
    mkUser 1 "mallory" "admin@example.com" (hashPassword "x") RoleUser
      Active in
  let w := mkWorld [squatter] [] ∅ ∅ [] [] ∅ DirPresent 2 1 None in
  seed_database (Scenario.request "" 0) w = (Ret tt, w).
Proof. vm_compute. reflexivity. Qed.
